(** * ACOEM UK API export: the measurement normalisation pipeline

    A shallow embedding of [src/modules/acoemapi.py] (class [AcoemRequest])
    and of the day loop of [src/main.py], followed by the properties the
    specification states about them.

    Conventions of the embedding:
    - a Python [dict] is an insertion-ordered association list ([dict V]):
      assignment to an existing key keeps the key's position, assignment to a
      new key appends it;
    - a Python exception is the [Raise] case of [result]; methods of
      [AcoemRequest] run in a state-and-exception monad [M] over the object's
      attributes, so that what was mutated before an exception is kept;
    - what the Python runtime provides (the [float] type, its conversions and
      its printing, [datetime.strptime]) is the interface [PyRuntime];
    - the HTTP request of a station's measurements is a function from the
      station id to a [Response]; the records of a payload are the record
      types [RawMeasurement] and [Channel], which hold every key the decoder
      reads: a payload that lacks one of these keys, or a request that itself
      raises, is outside the embedding;
    - the file system and the database writer are an oracle, [sink], that
      says of every call of [save_to_file] and of [InfluxWriter] whether it
      returns or raises. *)

From Stdlib Require Import List String Ascii ZArith Lia Bool Arith DecimalString.
From Stdlib Require Decimal DecimalFacts DecimalNat.
Import ListNotations.
Local Open Scope list_scope.
Local Open Scope string_scope.

(** ** Python exceptions and results *)

(** The exceptions the pipeline itself raises, and [OtherError] for one of
    another class, by the name of the class: what the file system or the
    database writer raises. *)
Inductive exn : Type :=
| KeyError
| IndexError
| TypeError
| ValueError
| OverflowError
| OtherError (name : String.string).

Inductive result (A : Type) : Type :=
| Ok (a : A)
| Raise (e : exn).
Arguments Ok {A} a.
Arguments Raise {A} e.

Definition rbind {A B : Type} (r : result A) (k : A -> result B) : result B :=
  match r with
  | Ok a => k a
  | Raise e => Raise e
  end.

Declare Scope result_scope.
Delimit Scope result_scope with result.
Notation "x <- r ;; k" := (rbind r (fun x => k))
  (at level 61, r at next level, right associativity) : result_scope.

(** A [for] loop threading an accumulator, stopped by the first exception. *)
Fixpoint fold_result {A B : Type} (step : B -> A -> result B) (l : list A)
  (acc : B) : result B :=
  match l with
  | [] => Ok acc
  | x :: l' => rbind (step acc x) (fold_result step l')
  end.

(** A [for] loop appending one produced element per iteration. *)
Fixpoint map_result {A B : Type} (f : A -> result B) (l : list A)
  : result (list B) :=
  match l with
  | [] => Ok []
  | x :: l' =>
      rbind (f x) (fun y => rbind (map_result f l') (fun ys => Ok (y :: ys)))
  end.

(** ** Insertion-ordered dictionaries *)

Definition dict (V : Type) : Type := list (string * V).

Fixpoint dict_get {V : Type} (d : dict V) (k : string) : option V :=
  match d with
  | [] => None
  | (k', v) :: d' => if String.eqb k' k then Some v else dict_get d' k
  end.

(** [d[k]], raising [KeyError] on a missing key. *)
Definition dict_item {V : Type} (d : dict V) (k : string) : result V :=
  match dict_get d k with
  | Some v => Ok v
  | None => Raise KeyError
  end.

(** [d[k] = v]. *)
Fixpoint dict_set {V : Type} (d : dict V) (k : string) (v : V) : dict V :=
  match d with
  | [] => [(k, v)]
  | (k', v') :: d' =>
      if String.eqb k' k then (k', v) :: d' else (k', v') :: dict_set d' k v
  end.

(** [list(d.keys())]. *)
Definition dict_keys {V : Type} (d : dict V) : list string := map fst d.

(** [{**d1, **d2}], and the loop [for k in d2: d1[k] = d2[k]]. *)
Definition dict_update {V : Type} (d1 d2 : dict V) : dict V :=
  fold_left (fun acc kv => dict_set acc (fst kv) (snd kv)) d2 d1.

(** [k in l] for a list of strings. *)
Definition key_in (k : string) (l : list string) : bool :=
  existsb (String.eqb k) l.

(** ** Strings and bytes *)

Definition newline : string := String (ascii_of_nat 10) EmptyString.
Definition dquote : string := String (ascii_of_nat 34) EmptyString.

(** [sub in s] for two [bytes] objects: [sub] occurs in [s] as a contiguous
    run of bytes. *)
Fixpoint bytes_in (sub s : string) : bool :=
  if String.prefix sub s then true
  else match s with
       | EmptyString => false
       | String _ s' => bytes_in sub s'
       end.

Fixpoint find_from (sub s : string) (i : Z) : Z :=
  if String.prefix sub s then i
  else match s with
       | EmptyString => (-1)%Z
       | String _ s' => find_from sub s' (i + 1)%Z
       end.

(** [s.find(sub)]: the lowest index where [sub] occurs, or -1. *)
Definition str_find (s sub : string) : Z := find_from sub s 0%Z.

(** The index a slice bound denotes: negative bounds count from the end, and
    the result is clamped to the string. *)
Definition slice_bound (s : string) (i : Z) : nat :=
  let n := Z.of_nat (String.length s) in
  Z.to_nat (if (i <? 0)%Z then Z.max 0 (n + i) else Z.min i n).

(** [s[:stop]]. *)
Definition slice_to (s : string) (stop : Z) : string :=
  substring 0 (slice_bound s stop) s.

(** [s[start:]]. *)
Definition slice_from (s : string) (start : Z) : string :=
  substring (slice_bound s start) (String.length s - slice_bound s start) s.

(** The separator loop [r = l[0]; for x in l[1:]: r = f"{r}, {x}"]. *)
Definition join_comma_space (first : string) (rest : list string) : string :=
  fold_left (fun acc x => acc ++ ", " ++ x) rest first.

Definition string_of_nat (n : nat) : string :=
  NilZero.string_of_uint (Nat.to_uint n).

Definition string_of_Z (z : Z) : string :=
  NilZero.string_of_int (Z.to_int z).

Fixpoint zeros (n : nat) : string :=
  match n with
  | O => EmptyString
  | S n' => String "0" (zeros n')
  end.

(** A number printed on at least [width] digits, zero-padded on the left. *)
Definition zero_pad (width n : nat) : string :=
  let s := string_of_nat n in
  zeros (width - String.length s) ++ s.

(** ** Timestamps *)

(** A timezone-aware [datetime], as [strptime] returns it for a format that
    ends in [%z]; [utcoffset] is in microseconds, the resolution of the
    [timedelta] it stands for ([%z] reads an offset with or without seconds
    and a fraction of them). *)
Record datetime : Type := mkDatetime {
  year : nat;
  month : nat;
  day : nat;
  hour : nat;
  minute : nat;
  second : nat;
  utcoffset : Z
}.

(** [%Y-%m-%d]: the year is printed as the C library prints it on Linux,
    without leading zeros; the month and the day on two digits. *)
Definition strftime_date (t : datetime) : string :=
  string_of_nat (year t) ++ "-" ++ zero_pad 2 (month t) ++ "-"
  ++ zero_pad 2 (day t).

Definition strftime_clock (t : datetime) : string :=
  zero_pad 2 (hour t) ++ ":" ++ zero_pad 2 (minute t) ++ ":"
  ++ zero_pad 2 (second t).

(** [%z]: the sign, the hours and the minutes of the offset, each on two
    digits; then the seconds when the offset has seconds or microseconds, and
    after a full stop the microseconds, on six digits, when it has some. *)
Definition strftime_offset (t : datetime) : string :=
  let sign := if (utcoffset t <? 0)%Z then "-" else "+" in
  let offset := Z.abs (utcoffset t) in
  let microseconds := (offset mod 1000000)%Z in
  let seconds := (offset / 1000000)%Z in
  let minutes := (seconds / 60)%Z in
  let seconds := (seconds mod 60)%Z in
  let hours := (minutes / 60)%Z in
  let minutes := (minutes mod 60)%Z in
  let hhmm :=
    sign ++ zero_pad 2 (Z.to_nat hours) ++ zero_pad 2 (Z.to_nat minutes) in
  if negb (microseconds =? 0)%Z then
    hhmm ++ zero_pad 2 (Z.to_nat seconds) ++ "."
    ++ zero_pad 6 (Z.to_nat microseconds)
  else if negb (seconds =? 0)%Z then hhmm ++ zero_pad 2 (Z.to_nat seconds)
  else hhmm.

(** [t.strftime('%Y-%m-%d %H:%M:%S')]. *)
Definition strftime_csv (t : datetime) : string :=
  strftime_date t ++ " " ++ strftime_clock t.

(** [t.strftime('%Y-%m-%dT%H:%M:%S%z')]. *)
Definition strftime_json (t : datetime) : string :=
  strftime_date t ++ "T" ++ strftime_clock t ++ strftime_offset t.

(** ** The Python runtime *)

Class PyRuntime : Type := {
  (** the values of Python's [float] *)
  pyfloat : Type;
  (** [float(n)] for an [int]; [None] is [OverflowError] *)
  float_of_int : Z -> option pyfloat;
  (** [float(s)] for a [str]; [None] is [ValueError] *)
  float_of_str : string -> option pyfloat;
  (** [str(x)] for a [float], which is what an f-string prints *)
  float_str : pyfloat -> string;
  (** [datetime.strptime(s, '%Y-%m-%dT%H:%M:%S%z')]; [None] is [ValueError] *)
  strptime : string -> option datetime
}.

Section Pipeline.

Context {RT : PyRuntime}.

Local Open Scope result_scope.

(** ** Values decoded from JSON *)

(** A scalar of a JSON payload once decoded by [Response.json()]; [PObj]
    stands for an array or an object and carries what [str] prints for it. *)
Inductive pyval : Type :=
| PNone
| PBool (b : bool)
| PInt (z : Z)
| PFloat (f : pyfloat)
| PStr (s : string)
| PObj (printed : string).

(** [v is not None]. *)
Definition is_not_none (v : pyval) : bool :=
  match v with
  | PNone => false
  | _ => true
  end.

Definition float_of_int_result (z : Z) : result pyfloat :=
  match float_of_int z with
  | Some f => Ok f
  | None => Raise OverflowError
  end.

(** [float(v)]. *)
Definition py_float (v : pyval) : result pyfloat :=
  match v with
  | PNone => Raise TypeError
  | PBool b => float_of_int_result (if b then 1%Z else 0%Z)
  | PInt z => float_of_int_result z
  | PFloat f => Ok f
  | PStr s =>
      match float_of_str s with
      | Some f => Ok f
      | None => Raise ValueError
      end
  | PObj _ => Raise TypeError
  end.

(** [str(v)], which is what an f-string prints for [{v}]. *)
Definition py_str (v : pyval) : string :=
  match v with
  | PNone => "None"
  | PBool b => if b then "True" else "False"
  | PInt z => string_of_Z z
  | PFloat f => float_str f
  | PStr s => s
  | PObj printed => printed
  end.

(** ** The raw payload of the API *)

(** One element of a measurement's ["Channels"] list. *)
Record Channel : Type := mkChannel {
  SensorName : string;
  UnitName : string;
  PreScaled : pyval;
  Scaled : pyval;
  Slope : pyval;
  Offset : pyval;
  Flags : list string
}.

(** One element of the list a station data request returns. *)
Record RawMeasurement : Type := mkRawMeasurement {
  TBTimestamp : string;
  Latitude : pyval;
  Longitude : pyval;
  Altitude : pyval;
  Channels : list Channel
}.

(** [channel[key]] for the keys the decoder reads as numbers, which a
    [Channel] holds. *)
Definition channel_item (channel : Channel) (key : string) : result pyval :=
  if String.eqb key "PreScaled" then Ok (PreScaled channel)
  else if String.eqb key "Scaled" then Ok (Scaled channel)
  else if String.eqb key "Slope" then Ok (Slope channel)
  else if String.eqb key "Offset" then Ok (Offset channel)
  else Raise KeyError.

(** [measurement[key]] for the location keys, which a [RawMeasurement]
    holds. *)
Definition measurement_item (measurement : RawMeasurement) (key : string)
  : result pyval :=
  if String.eqb key "Latitude" then Ok (Latitude measurement)
  else if String.eqb key "Longitude" then Ok (Longitude measurement)
  else if String.eqb key "Altitude" then Ok (Altitude measurement)
  else Raise KeyError.

(** What the station data request returns. *)
Record Response : Type := mkResponse {
  status_code : Z;
  content : string;
  json : result (list RawMeasurement)
}.

(** ** The Point model *)

(** The [measurement_container] dictionary. *)
Record Point : Type := mkPoint {
  time : datetime;
  measurement : string;
  fields : dict pyfloat;
  tags : dict pyval
}.

Definition set_field (c : Point) (k : string) (v : pyfloat) : Point :=
  mkPoint (time c) (measurement c) (dict_set (fields c) k v) (tags c).

Definition set_tag (c : Point) (k : string) (v : pyval) : Point :=
  mkPoint (time c) (measurement c) (fields c) (dict_set (tags c) k v).

(** ** The Channel Decoder (body of [dl_station_measurements]) *)

Definition location_keys : list string := ["Latitude"; "Longitude"; "Altitude"].

Definition measurement_types : list string :=
  ["PreScaled"; "Scaled"; "Slope"; "Offset"].

Definition no_data_marker : string :=
  "NO DATA WAS FOUND FOR YOUR GIVEN PARAMETERS".

(** [status_code == 200 and content not in b"NO DATA ..."]. *)
Definition data_req_success (station_measurements : Response) : bool :=
  (status_code station_measurements =? 200)%Z
  && negb (bytes_in (content station_measurements) no_data_marker).

Definition strptime_result (s : string) : result datetime :=
  match strptime s with
  | Some t => Ok t
  | None => Raise ValueError
  end.

(** [f'{channel["SensorName"]} {measurement_type} [{channel["UnitName"]}]']. *)
Definition field_key (channel : Channel) (measurement_type : string) : string :=
  SensorName channel ++ " " ++ measurement_type ++ " " ++ "["
  ++ UnitName channel ++ "]".

(** [f"{channel['SensorName']} Flag"]. *)
Definition flag_key (channel : Channel) : string :=
  SensorName channel ++ " Flag".

(** The [else] branch of the flag test: [flag_string = channel["Flags"][0]],
    then every further flag appended after [", "]. *)
Definition flag_string (flags : list string) : result string :=
  match flags with
  | [] => Raise IndexError
  | first :: rest => Ok (join_comma_space first rest)
  end.

(** One iteration of [for key in location_keys]. *)
Definition decode_location (measurement : RawMeasurement) (container : Point)
  (key : string) : result Point :=
  value <- measurement_item measurement key ;;
  if is_not_none value then
    f <- py_float value ;;
    Ok (set_field container key f)
  else Ok container.

(** One iteration of [for measurement_type in measurement_types]. *)
Definition decode_measurement_type (channel : Channel) (container : Point)
  (measurement_type : string) : result Point :=
  value <- channel_item channel measurement_type ;;
  f <- py_float value ;;
  Ok (set_field container (field_key channel measurement_type) f).

(** The flag of an available channel: ["Valid"] when it is among the flags
    (the others are then taken as redundant), else all the flags. *)
Definition decode_flags (container : Point) (channel : Channel)
  : result Point :=
  if key_in "Valid" (Flags channel) then
    Ok (set_tag container (flag_key channel) (PStr "Valid"))
  else
    flag_string <- flag_string (Flags channel) ;;
    Ok (set_tag container (flag_key channel) (PStr flag_string)).

(** One iteration of [for channel in measurement["Channels"]]. *)
Definition decode_channel (container : Point) (channel : Channel)
  : result Point :=
  let measurement_available := is_not_none (PreScaled channel) in
  if measurement_available then
    container <- fold_result (decode_measurement_type channel)
                   measurement_types container ;;
    decode_flags container channel
  else Ok container.

(** The container of one measurement before the station metadata is added. *)
Definition decode_container (measurement : RawMeasurement) : result Point :=
  measurement_time <- strptime_result (TBTimestamp measurement) ;;
  let container := mkPoint measurement_time "ACOEM UK Systems" [] [] in
  container <- fold_result (decode_location measurement) location_keys
                 container ;;
  fold_result decode_channel (Channels measurement) container.

(** [for status in list(meta.keys()): container["tags"][status] = meta[status]]. *)
Definition add_metadata (container : Point) (meta : dict pyval) : Point :=
  mkPoint (time container) (measurement container) (fields container)
    (dict_update (tags container) meta).

(** [len(list(container["fields"].keys())) != 0]. *)
Definition has_fields (container : Point) : bool :=
  negb (Nat.eqb (List.length (dict_keys (fields container))) 0).

(** ** The [AcoemRequest] object and its methods *)

Record AcoemRequest : Type := mkAcoemRequest {
  station_meta : dict (dict pyval);
  measurement_data : dict (list Point)
}.

(** A method: it may change the object and may raise. *)
Definition M (A : Type) : Type := AcoemRequest -> result A * AcoemRequest.

Definition ret {A : Type} (a : A) : M A := fun self => (Ok a, self).

Definition bind {A B : Type} (m : M A) (k : A -> M B) : M B :=
  fun self =>
    match m self with
    | (Ok a, self') => k a self'
    | (Raise e, self') => (Raise e, self')
    end.

Definition lift {A : Type} (r : result A) : M A := fun self => (r, self).

Fixpoint for_each {A : Type} (l : list A) (body : A -> M unit) : M unit :=
  match l with
  | [] => ret tt
  | x :: l' => bind (body x) (fun _ => for_each l' body)
  end.

(** [self.station_meta[id]]. *)
Definition station_meta_item (id : string) : M (dict pyval) :=
  fun self => (dict_item (station_meta self) id, self).

(** [self.measurement_data[id]]. *)
Definition measurement_data_item (id : string) : M (list Point) :=
  fun self => (dict_item (measurement_data self) id, self).

(** [self.measurement_data[id] = l]. *)
Definition set_measurement_data (id : string) (l : list Point) : M unit :=
  fun self =>
    (Ok tt, mkAcoemRequest (station_meta self)
              (dict_set (measurement_data self) id l)).

(** [self.measurement_data[id].append(container)]. *)
Definition append_measurement (id : string) (container : Point) : M unit :=
  bind (measurement_data_item id)
    (fun l => set_measurement_data id (l ++ [container])%list).

(** The body of [for measurement in station_measurements.json()]. *)
Definition store_measurement (id : string) (measurement : RawMeasurement)
  : M unit :=
  bind (lift (decode_container measurement)) (fun container =>
  bind (station_meta_item id) (fun meta =>
  let container := add_metadata container meta in
  if has_fields container then append_measurement id container
  else ret tt)).

(** What one station's request does to the object, given its response. *)
Definition process_response (id : string) (station_measurements : Response)
  : M unit :=
  if data_req_success station_measurements then
    bind (set_measurement_data id []) (fun _ =>
    bind (lift (json station_measurements)) (fun measurements =>
    for_each measurements (store_measurement id)))
  else ret tt.

(** [dl_station_measurements(id, day_start)]; [req_get] answers the request
    of the day's measurements of a station. *)
Definition dl_station_measurements (req_get : string -> Response)
  (id : string) : M unit :=
  process_response id (req_get id).

(** [dl_all_station_measurements(day_start)]: the same body, in a loop over
    [list(self.station_meta.keys())]. *)
Definition dl_all_station_measurements (req_get : string -> Response)
  : M unit :=
  fun self =>
    for_each (dict_keys (station_meta self))
      (fun id => process_response id (req_get id)) self.

(** [clear_measurements()]. *)
Definition clear_measurements : M unit :=
  fun self => (Ok tt, mkAcoemRequest (station_meta self) []).

(** The download loop of one day in [main.py]. *)
Definition download_day (req_get : string -> Response)
  (available_stations : list string) : M unit :=
  for_each available_stations (dl_station_measurements req_get).

(** [list(acoem_API.get_measurement_data().keys())]. *)
Definition stations_with_data (self : AcoemRequest) : list string :=
  dict_keys (measurement_data self).

(** ** Schema Inference ([get_key_classifications]) *)

(** The [keys] dictionary, with its two entries ["fields"] and ["tags"]. *)
Record Keys : Type := mkKeys {
  keys_fields : list string;
  keys_tags : list string
}.

(** [if k not in seen: seen.append(k)]. *)
Definition add_key (seen : list string) (k : string) : list string :=
  if negb (key_in k seen) then (seen ++ [k])%list else seen.

(** The body of [for measurement in self.measurement_data[id]]. *)
Definition classify_measurement (keys : Keys) (m : Point) : Keys :=
  mkKeys (fold_left add_key (dict_keys (fields m)) (keys_fields keys))
         (fold_left add_key (dict_keys (tags m)) (keys_tags keys)).

Definition key_classifications (measurements : list Point) : Keys :=
  fold_left classify_measurement measurements (mkKeys [] []).

Definition get_key_classifications (self : AcoemRequest) (id : string)
  : result Keys :=
  measurements <- dict_item (measurement_data self) id ;;
  Ok (key_classifications measurements).

(** ** The CSV Formatter ([format_as_csv]) *)

Definition measurement_order : list string :=
  ["PreScaled"; "Scaled"; "Flag"; "Slope"; "Offset"].

(** The body of the first loop over [keys["fields"]]. *)
Definition register_variable (variables_measured : dict string)
  (field : string) : dict string :=
  let prescaled_index := str_find field "PreScaled" in
  if negb (prescaled_index =? -1)%Z then
    let unit_index := str_find field "[" in
    dict_set variables_measured
      (slice_to field (prescaled_index - 1)%Z) (slice_from field unit_index)
  else variables_measured.

Definition variables_measured (keys : Keys) : dict string :=
  fold_left register_variable (keys_fields keys) [].

Definition is_extra_tag (tag : string) : bool :=
  (str_find tag "[" =? -1)%Z && (str_find tag "Flag" =? -1)%Z.

(** The loop over both classifications, keeping the keys with neither
    a bracket nor [Flag]. *)
Definition extra_tags (keys : Keys) : list string :=
  filter is_extra_tag (keys_fields keys ++ keys_tags keys)%list.

(** [f"{variable} {measurement_type}{unit}"]. *)
Definition header_column (variables_measured : dict string)
  (variable measurement_type : string) : result string :=
  unit <- (if negb (key_in measurement_type ["Flag"]) then
             u <- dict_item variables_measured variable ;;
             Ok (" " ++ u)
           else Ok EmptyString) ;;
  Ok (variable ++ " " ++ measurement_type ++ unit).

Definition csv_header (keys : Keys) : result (list string) :=
  let variables_measured := variables_measured keys in
  columns <- map_result
               (fun variable =>
                  map_result (header_column variables_measured variable)
                    measurement_order)
               (dict_keys variables_measured) ;;
  Ok ("Timestamp" :: List.concat columns ++ extra_tags keys)%list.

Definition float_values (d : dict pyfloat) : dict pyval :=
  map (fun kv => (fst kv, PFloat (snd kv))) d.

(** [{**measurement["fields"], **measurement["tags"]}]. *)
Definition combined_values (measurement : Point) : dict pyval :=
  dict_update (dict_update [] (float_values (fields measurement)))
    (tags measurement).

(** The [value] of one cell: the body of [for key in csv_header[1:]]. *)
Definition csv_cell (measurement : Point) (key : string) : result string :=
  let combined_values := combined_values measurement in
  let measurement_keys := dict_keys combined_values in
  let field_keys := dict_keys (fields measurement) in
  if key_in key measurement_keys && key_in key field_keys then
    value <- dict_item combined_values key ;;
    Ok (py_str value)
  else if key_in key measurement_keys then
    value <- dict_item combined_values key ;;
    Ok (dquote ++ py_str value ++ dquote)
  else Ok EmptyString.

Definition csv_add_cell (measurement : Point) (csv_raw key : string)
  : result string :=
  value <- csv_cell measurement key ;;
  Ok (csv_raw ++ ", " ++ value).

(** The body of [for measurement in measurements]. *)
Definition csv_row (columns : list string) (csv_raw : string)
  (measurement : Point) : result string :=
  let csv_raw := csv_raw ++ strftime_csv (time measurement) in
  csv_raw <- fold_result (csv_add_cell measurement) columns csv_raw ;;
  Ok (csv_raw ++ newline).

Definition format_as_csv (self : AcoemRequest) (id : string) (keys : Keys)
  : result string :=
  measurements <- dict_item (measurement_data self) id ;;
  let measurements := rev measurements in
  csv_header <- csv_header keys ;;
  match csv_header with
  | [] => Raise IndexError
  | first :: columns =>
      let csv_raw := join_comma_space first columns ++ newline in
      fold_result (csv_row columns) measurements csv_raw
  end.

(** ** The JSON Formatter ([format_as_json]) *)

(** The [container] dictionary, with its two entries ["Data"] and
    ["Status"]. *)
Record JsonContainer : Type := mkJsonContainer {
  Data : dict pyfloat;
  Status : dict pyval
}.

Definition json_add (json_measurements : dict JsonContainer)
  (measurement : Point) : dict JsonContainer :=
  let timestamp := strftime_json (time measurement) in
  dict_set json_measurements timestamp
    (mkJsonContainer (fields measurement) (tags measurement)).

Definition format_as_json (self : AcoemRequest) (id : string)
  : result (dict JsonContainer) :=
  measurements <- dict_item (measurement_data self) id ;;
  let measurements := rev measurements in
  Ok (fold_left json_add measurements []).

End Pipeline.

(** ** The end-to-end scenario of the specification

    One record at 2021-06-01T00:00:00+0000 with the one channel PM25
    (unit ug/m3, flags ["Valid"]) and the station metadata
    {"SerialNumber": "ABC123"}; the four values of the channel are the
    floats [v_prescaled], [v_scaled], [v_slope] and [v_offset]. *)

Section Scenario.

Context {RT : PyRuntime}.

Variables v_prescaled v_scaled v_slope v_offset : pyfloat.

Definition scenario_channel : Channel :=
  mkChannel "PM25" "ug/m3" (PFloat v_prescaled) (PFloat v_scaled)
    (PFloat v_slope) (PFloat v_offset) ["Valid"].

Definition scenario_record : RawMeasurement :=
  mkRawMeasurement "2021-06-01T00:00:00+0000" PNone PNone PNone
    [scenario_channel].

Definition scenario_metadata : dict pyval := [("SerialNumber", PStr "ABC123")].

Definition scenario_time : datetime := mkDatetime 2021 6 1 0 0 0 0.

Definition scenario_point : Point :=
  mkPoint scenario_time "ACOEM UK Systems"
    [("PM25 PreScaled [ug/m3]", v_prescaled);
     ("PM25 Scaled [ug/m3]", v_scaled);
     ("PM25 Slope [ug/m3]", v_slope);
     ("PM25 Offset [ug/m3]", v_offset)]
    [("PM25 Flag", PStr "Valid"); ("SerialNumber", PStr "ABC123")].

End Scenario.

(** The header line the specification gives for the scenario. *)
Definition scenario_header_claimed : string :=
  "Timestamp, PM25 PreScaled ug/m3, PM25 Scaled ug/m3, PM25 Flag, PM25 Slope ug/m3, PM25 Offset ug/m3, SerialNumber".

(** The header line with the units as the field keys hold them. *)
Definition scenario_header : string :=
  "Timestamp, PM25 PreScaled [ug/m3], PM25 Scaled [ug/m3], PM25 Flag, PM25 Slope [ug/m3], PM25 Offset [ug/m3], SerialNumber".

Definition scenario_row : string :=
  "2021-06-01 00:00:00, 10.0, 9.5, " ++ dquote ++ "Valid" ++ dquote
  ++ ", 1.0, 0.1, " ++ dquote ++ "ABC123" ++ dquote.

(** ** A runtime to evaluate the pipeline with

    Floats are decimal fractions [m / 10^d], printed with all their [d]
    digits (at least one); timestamps are read in the fixed-width form
    [YYYY-MM-DDTHH:MM:SS+HHMM]. *)

Module DecimalRuntime.

Record decimal : Type := mkDecimal {
  mantissa : Z;
  decimals : nat
}.

Definition decimal_str (x : decimal) : string :=
  let d := Nat.max 1 (decimals x) in
  let m := (mantissa x * 10 ^ Z.of_nat (d - decimals x))%Z in
  let scale := (10 ^ Z.of_nat d)%Z in
  (if (m <? 0)%Z then "-" else EmptyString)
  ++ string_of_Z (Z.abs m / scale)
  ++ "." ++ zero_pad d (Z.to_nat (Z.abs m mod scale)).

Definition nat_of_digits (s : string) : option nat :=
  match s with
  | EmptyString => None
  | _ => option_map Nat.of_uint (NilEmpty.uint_of_string s)
  end.

Definition decimal_of_str (s : string) : option decimal :=
  let negative := String.prefix "-" s in
  let body := if negative then substring 1 (String.length s - 1) s else s in
  let sign := if negative then (-1)%Z else 1%Z in
  match String.index 0 "." body with
  | None =>
      option_map (fun n => mkDecimal (sign * Z.of_nat n) 0) (nat_of_digits body)
  | Some i =>
      let whole := substring 0 i body in
      let frac := substring (S i) (String.length body - S i) body in
      match nat_of_digits whole, nat_of_digits frac with
      | Some w, Some f =>
          let d := String.length frac in
          Some (mkDecimal (sign * (Z.of_nat w * 10 ^ Z.of_nat d + Z.of_nat f)) d)
      | _, _ => None
      end
  end.

Definition digits_at (s : string) (start len : nat) : option nat :=
  nat_of_digits (substring start len s).

Definition parse_timestamp (s : string) : option datetime :=
  if negb (Nat.eqb (String.length s) 24) then None
  else if negb (String.eqb (substring 4 1 s) "-"
                && String.eqb (substring 7 1 s) "-"
                && String.eqb (substring 10 1 s) "T"
                && String.eqb (substring 13 1 s) ":"
                && String.eqb (substring 16 1 s) ":") then None
  else
    match digits_at s 0 4, digits_at s 5 2, digits_at s 8 2,
          digits_at s 11 2, digits_at s 14 2, digits_at s 17 2,
          digits_at s 20 2, digits_at s 22 2 with
    | Some y, Some mo, Some d, Some h, Some mi, Some sec, Some oh, Some om =>
        let off := (Z.of_nat (oh * 60 + om) * 60000000)%Z in
        if String.eqb (substring 19 1 s) "+" then
          Some (mkDatetime y mo d h mi sec off)
        else if String.eqb (substring 19 1 s) "-" then
          Some (mkDatetime y mo d h mi sec (- off))
        else None
    | _, _, _, _, _, _, _, _ => None
    end.

#[export] Instance runtime : PyRuntime := {|
  pyfloat := decimal;
  float_of_int := fun z => Some (mkDecimal z 0);
  float_of_str := decimal_of_str;
  float_str := decimal_str;
  strptime := parse_timestamp
|}.

End DecimalRuntime.

(** ** What the specification states, as functions

    The definitions below are not translations of the source: they say what
    the specification expects, and the theorems compare them with the
    functions above. *)

(** The value the specification gives to a channel's flag tag. *)
Definition flag_value (flags : list string) : string :=
  if key_in "Valid" flags then "Valid" else String.concat ", " flags.

(** The distinct elements of a list, each at the place of its first
    occurrence. *)
Fixpoint first_seen (l : list string) : list string :=
  match l with
  | [] => []
  | x :: l' => x :: filter (fun y => negb (String.eqb y x)) (first_seen l')
  end.

(** The ranges Python's [datetime] keeps its components in; the offset is
    strictly less than a day, either way. *)
Definition datetime_valid (t : datetime) : Prop :=
  (1 <= Z.of_nat (year t) <= 9999)%Z /\ 1 <= month t <= 12 /\ 1 <= day t <= 31
  /\ hour t < 24 /\ minute t < 60 /\ second t < 60
  /\ (-86400000000 < utcoffset t < 86400000000)%Z.

(** The timestamps that fit [YYYY-MM-DDTHH:MM:SS+HHMM]: a year of four digits
    and an offset of whole minutes. *)
Definition fixed_width (t : datetime) : Prop :=
  1000 <= year t /\ (utcoffset t mod 60000000 = 0)%Z.

(** The character of a decimal digit. *)
Definition digit_char (d : nat) : ascii := ascii_of_nat (48 + d).

(** The [k] lowest decimal digits of [n], the highest first. *)
Fixpoint digits (k n : nat) : string :=
  match k with
  | O => EmptyString
  | S k' => digits k' (n / 10) ++ String (digit_char (n mod 10)) EmptyString
  end.

(** A year up to 9999 on as many digits as it has. *)
Definition year_text (y : nat) : string :=
  digits (if Nat.ltb y 10 then 1 else if Nat.ltb y 100 then 2
          else if Nat.ltb y 1000 then 3 else 4) y.

(** The hours, minutes, seconds and microseconds of an offset. *)
Definition offset_hours (offset : Z) : nat :=
  Z.to_nat (Z.abs offset / 3600000000).

Definition offset_minutes (offset : Z) : nat :=
  Z.to_nat ((Z.abs offset / 60000000) mod 60).

Definition offset_seconds (offset : Z) : nat :=
  Z.to_nat ((Z.abs offset / 1000000) mod 60).

Definition offset_microseconds (offset : Z) : nat :=
  Z.to_nat (Z.abs offset mod 1000000).

Definition offset_sign (offset : Z) : string :=
  if (offset <? 0)%Z then "-" else "+".

(** An offset as [+HHMM], [+HHMMSS] or [+HHMMSS.ffffff]. *)
Definition offset_text (offset : Z) : string :=
  offset_sign offset
  ++ digits 2 (offset_hours offset) ++ digits 2 (offset_minutes offset)
  ++ (if Nat.eqb (offset_microseconds offset) 0 then
        if Nat.eqb (offset_seconds offset) 0 then EmptyString
        else digits 2 (offset_seconds offset)
      else digits 2 (offset_seconds offset) ++ "."
           ++ digits 6 (offset_microseconds offset)).

(** A timestamp, digit by digit: the year on the digits it has, the month,
    the day, the hour, the minute and the second on two digits each, then the
    offset. *)
Definition timestamp_text (t : datetime) : string :=
  year_text (year t) ++ "-" ++ digits 2 (month t) ++ "-" ++ digits 2 (day t)
  ++ "T" ++ digits 2 (hour t) ++ ":" ++ digits 2 (minute t) ++ ":"
  ++ digits 2 (second t) ++ offset_text (utcoffset t).

(** [YYYY-MM-DDTHH:MM:SS+HHMM], digit by digit. *)
Definition fixed_width_text (t : datetime) : string :=
  digits 4 (year t) ++ "-" ++ digits 2 (month t) ++ "-" ++ digits 2 (day t)
  ++ "T" ++ digits 2 (hour t) ++ ":" ++ digits 2 (minute t) ++ ":"
  ++ digits 2 (second t) ++ offset_sign (utcoffset t)
  ++ digits 2 (offset_hours (utcoffset t))
  ++ digits 2 (offset_minutes (utcoffset t)).

(** The five header columns of a variable. *)
Definition variable_columns (variable unit : string) : list string :=
  [variable ++ " PreScaled " ++ unit; variable ++ " Scaled " ++ unit;
   variable ++ " Flag"; variable ++ " Slope " ++ unit;
   variable ++ " Offset " ++ unit].

Section SpecificationFunctions.

Context {RT : PyRuntime}.

(** The key and the record [format_as_json] makes of a Point. *)
Definition json_key (m : Point) : string := strftime_json (time m).

Definition json_container (m : Point) : JsonContainer :=
  mkJsonContainer (fields m) (tags m).

(** The cell of a Point under a column: empty for a key the Point has not,
    the printed value for a key of its fields, the quoted printed value for a
    key of its tags only.  The last case is not the specification's, which
    asks for the field's value: it is what [format_as_csv] emits for a key of
    both mappings, the value of the tags, unquoted. *)
Definition cell_rule (point : Point) (key : string) : string :=
  match dict_get (fields point) key, dict_get (tags point) key with
  | None, None => EmptyString
  | Some f, None => float_str f
  | None, Some v => dquote ++ py_str v ++ dquote
  | Some _, Some v => py_str v
  end.

(** The line of a Point under the columns [columns]. *)
Definition row_rule (columns : list string) (point : Point) : string :=
  strftime_csv (time point)
  ++ String.concat EmptyString (map (fun key => ", " ++ cell_rule point key) columns)
  ++ newline.

(** The objects a run can hold: the object once the station metadata is
    downloaded, and what the methods that touch [measurement_data] make of
    it, whether they return or raise. *)
Inductive Reachable : AcoemRequest -> Prop :=
| reach_init (meta : dict (dict pyval)) :
    Reachable (mkAcoemRequest meta [])
| reach_dl_station (req_get : string -> Response) (id : string)
    (self : AcoemRequest) :
    Reachable self ->
    Reachable (snd (dl_station_measurements req_get id self))
| reach_dl_all (req_get : string -> Response) (self : AcoemRequest) :
    Reachable self ->
    Reachable (snd (dl_all_station_measurements req_get self))
| reach_clear (self : AcoemRequest) :
    Reachable self ->
    Reachable (snd (clear_measurements self)).

(** Every Point of every station's dataset satisfies [Q]. *)
Definition points_satisfy (Q : Point -> Prop) (self : AcoemRequest) : Prop :=
  forall id dataset point,
    In (id, dataset) (measurement_data self) ->
    In point dataset ->
    Q point.

(** Every Point of every station's dataset has at least one field. *)
Definition points_have_fields (self : AcoemRequest) : Prop :=
  points_satisfy (fun point => fields point <> []) self.

(** The two mappings of a Point are dictionaries: no key occurs twice. *)
Definition point_wf (point : Point) : Prop :=
  NoDup (dict_keys (fields point)) /\ NoDup (dict_keys (tags point)).

End SpecificationFunctions.

(** ** Example data

    The record of the specification's end-to-end scenario, and small
    variations of it, in the decimal runtime. *)

Module Examples.

Import DecimalRuntime.

Definition ten : pyfloat := mkDecimal 100 1.
Definition nine_and_half : pyfloat := mkDecimal 95 1.
Definition one : pyfloat := mkDecimal 10 1.
Definition one_tenth : pyfloat := mkDecimal 1 1.

Definition pm25 : Channel :=
  scenario_channel ten nine_and_half one one_tenth.

(** An available channel with an empty flag list. *)
Definition pm25_no_flags : Channel :=
  mkChannel "PM25" "ug/m3" (PFloat ten) (PFloat nine_and_half) (PFloat one)
    (PFloat one_tenth) [].

(** An available channel whose Scaled value is null. *)
Definition pm25_scaled_null : Channel :=
  mkChannel "PM25" "ug/m3" (PFloat ten) PNone (PFloat one)
    (PFloat one_tenth) ["Valid"].

(** A channel with no measurement, and with flags. *)
Definition pm25_unavailable : Channel :=
  mkChannel "PM25" "ug/m3" PNone PNone PNone PNone ["NoData"; "Offline"].

(** An available channel with two flags, none of them "Valid". *)
Definition no2_flagged : Channel :=
  mkChannel "NO2" "ppb" (PInt 3) (PStr "2.5") (PFloat one) (PFloat one_tenth)
    ["OutOfRange"; "Calibration"].

Definition empty_container : Point :=
  mkPoint (mkDatetime 2021 6 1 0 0 0 0) "ACOEM UK Systems" [] [].

Definition record : RawMeasurement :=
  scenario_record ten nine_and_half one one_tenth.

Definition record_no_flags : RawMeasurement :=
  mkRawMeasurement "2021-06-01T00:15:00+0000" PNone PNone PNone
    [pm25; pm25_no_flags].

Definition record_unavailable : RawMeasurement :=
  mkRawMeasurement "2021-06-01T00:30:00+0000" PNone PNone PNone
    [pm25_unavailable].

Definition station : string := "station-1".

Definition metadata : dict pyval := scenario_metadata.

(** Metadata one of whose keys is also the key of a field. *)
Definition colliding_metadata : dict pyval :=
  [("PM25 Scaled [ug/m3]", PStr "n/a"); ("SerialNumber", PStr "ABC123")].

(** The object after [dl_station_meta], before any measurement. *)
Definition fresh_object : AcoemRequest :=
  mkAcoemRequest [(station, metadata)] [].

Definition colliding_object : AcoemRequest :=
  mkAcoemRequest [(station, colliding_metadata)] [].

(** The object after the download of the scenario's record. *)
Definition point : Point := scenario_point ten nine_and_half one one_tenth.

(** The Point of the scenario's record under [colliding_metadata]. *)
Definition colliding_point : Point :=
  mkPoint scenario_time "ACOEM UK Systems" (fields point)
    [("PM25 Flag", PStr "Valid"); ("PM25 Scaled [ug/m3]", PStr "n/a");
     ("SerialNumber", PStr "ABC123")].

Definition scenario_object : AcoemRequest :=
  mkAcoemRequest [(station, metadata)] [(station, [point])].

(** A record of the year 999, and the Point it gives. *)
Definition record_year_999 : RawMeasurement :=
  mkRawMeasurement "0999-06-01T00:00:00+0000" PNone PNone PNone [pm25].

Definition point_year_999 : Point :=
  mkPoint (mkDatetime 999 6 1 0 0 0 0) "ACOEM UK Systems" (fields point)
    (tags point).

(** The scenario's Point at an offset of 1 h 30 min 15 s. *)
Definition point_offset_seconds : Point :=
  mkPoint (mkDatetime 2021 6 1 0 0 0 5415000000) "ACOEM UK Systems"
    (fields point) (tags point).

(** Responses: data, the marker, a part of the marker, the marker and one
    more byte, and a failed request. *)
Definition response_data : Response :=
  mkResponse 200 "[...]" (Ok [record]).

Definition response_marker : Response :=
  mkResponse 200 no_data_marker (Raise ValueError).

Definition response_part : Response :=
  mkResponse 200 "NO DATA" (Raise ValueError).

Definition response_longer : Response :=
  mkResponse 200 (no_data_marker ++ ".") (Raise ValueError).

Definition response_failed : Response :=
  mkResponse 404 EmptyString (Raise ValueError).

Definition req_get (id : string) : Response :=
  if String.eqb id "station-1" then response_data
  else if String.eqb id "station-2" then response_marker
  else if String.eqb id "station-3" then response_part
  else if String.eqb id "station-4" then response_longer
  else response_failed.

End Examples.

(** ** The station metadata ([dl_station_meta]) and the day loop of
    [main.py] *)

Section Orchestration.

Context {RT : PyRuntime}.

Definition keys_to_remove : list string := ["Latitude"; "Longitude"; "Altitude"].

(** [l.remove(x)]: the first occurrence of [x] goes. *)
Fixpoint list_remove (l : list string) (x : string) : list string :=
  match l with
  | [] => []
  | y :: l' => if String.eqb y x then l' else y :: list_remove l' x
  end.

(** [if key in meta_keys: meta_keys.remove(key)]. *)
Definition remove_key (meta_keys : list string) (key : string) : list string :=
  if key_in key meta_keys then list_remove meta_keys key else meta_keys.

(** [station["UniqueId"]], the key under which the metadata is stored.  The
    ids of the API are strings (UUIDs); a value of another type is outside
    this model, which answers [TypeError] for it. *)
Definition station_unique_id (station : dict pyval) : result string :=
  rbind (dict_item station "UniqueId")
    (fun v => match v with
              | PStr s => Ok s
              | _ => Raise TypeError
              end).

(** [self.station_meta[id] = meta]. *)
Definition set_station_meta (id : string) (meta : dict pyval) : M unit :=
  fun self =>
    (Ok tt, mkAcoemRequest (dict_set (station_meta self) id meta)
              (measurement_data self)).

(** [self.station_meta[unique_ID][key] = station[key]]. *)
Definition copy_meta_key (station : dict pyval) (unique_ID key : string)
  : M unit :=
  bind (lift (dict_item station key)) (fun v =>
  bind (station_meta_item unique_ID) (fun meta =>
  set_station_meta unique_ID (dict_set meta key v))).

(** The body of [for station in meta_raw]. *)
Definition store_station_meta (station : dict pyval) : M unit :=
  let meta_keys := dict_keys station in
  bind (lift (station_unique_id station)) (fun unique_ID =>
  let meta_keys := fold_left remove_key keys_to_remove meta_keys in
  bind (set_station_meta unique_ID []) (fun _ =>
  for_each meta_keys (copy_meta_key station unique_ID))).

(** [dl_station_meta()]; [meta_raw] is what the request of the stations
    returns once decoded. *)
Definition dl_station_meta (meta_raw : result (list (dict pyval))) : M unit :=
  bind (lift meta_raw) (fun stations => for_each stations store_station_meta).

(** The object [AcoemRequest(auth_token)] builds. *)
Definition new_object : AcoemRequest := mkAcoemRequest [] [].

(** *** The day loop *)

(** The entries of the configuration file the day loop reads: ["File
    Format"], ["File Path"] and ["Write to Influx"].  The configuration is
    taken to hold the three of them, as the specification asks of it; a file
    without one of them is outside this model. *)
Record Config : Type := mkConfig {
  file_format : string;
  file_path : string;
  write_to_influx : bool
}.

(** What a day hands to its sinks: a file saved by [save_to_file], the
    writer made by [InfluxWriter(config_settings)], a list of containers
    handed to [InfluxWriter.write_container_list]. *)
Inductive Output : Type :=
| SavedFile (path_to_file filename write_data : string)
| InfluxConnect
| InfluxWrite (containers : list Point).

(** The state of the program: the [AcoemRequest] object and what the sinks
    have taken so far, oldest first.  Printing to the console is left out. *)
Record World : Type := mkWorld {
  object : AcoemRequest;
  outputs : list Output
}.

Definition Prog (A : Type) : Type := World -> result A * World.

Definition pret {A : Type} (a : A) : Prog A := fun w => (Ok a, w).

Definition pbind {A B : Type} (m : Prog A) (k : A -> Prog B) : Prog B :=
  fun w =>
    match m w with
    | (Ok a, w') => k a w'
    | (Raise e, w') => (Raise e, w')
    end.

(** A call of a method of the object. *)
Definition call {A : Type} (m : M A) : Prog A :=
  fun w =>
    let (r, self) := m (object w) in
    (r, mkWorld self (outputs w)).

(** A call of a method that only reads the object. *)
Definition query {A : Type} (f : AcoemRequest -> result A) : Prog A :=
  fun w => (f (object w), w).

(** What the sinks answer: [sink outs o] is how the call that hands [o] to
    its sink ends when the sinks have taken [outs] before.  [save_to_file]
    makes the directory and writes the file; [InfluxWriter] is not in this
    repository.  Each of them returns or raises, and nothing in [main.py]
    catches what they raise. *)
Variable sink : list Output -> Output -> result unit.

(** A call of a sink: what it takes is added to the outputs. *)
Definition emit (o : Output) : Prog unit :=
  fun w =>
    match sink (outputs w) o with
    | Ok _ => (Ok tt, mkWorld (object w) (outputs w ++ [o])%list)
    | Raise e => (Raise e, w)
    end.

Fixpoint pfor_each {A : Type} (l : list A) (body : A -> Prog unit)
  : Prog unit :=
  match l with
  | [] => pret tt
  | x :: l' => pbind (body x) (fun _ => pfor_each l' body)
  end.

(** [json.dumps(raw_json, sort_keys=True, indent=4)] is the library's. *)
Variable json_dumps : dict JsonContainer -> string.

(** The body of the loop that saves the csv files. *)
Definition save_csv (config : Config) (day_start : datetime)
  (station : string) : Prog unit :=
  pbind (query (fun self => get_key_classifications self station)) (fun tags =>
  pbind (query (fun self => format_as_csv self station tags)) (fun raw_csv =>
  let csv_path := file_path config ++ "/csv/" ++ station in
  let csv_name := strftime_date day_start ++ ".csv" in
  emit (SavedFile csv_path csv_name raw_csv))).

(** The body of the loop that saves the json files. *)
Definition save_json (config : Config) (day_start : datetime)
  (station : string) : Prog unit :=
  pbind (query (fun self => format_as_json self station)) (fun raw_json =>
  let json_string := json_dumps raw_json in
  let json_path := file_path config ++ "/json/" ++ station in
  let json_name := strftime_date day_start ++ ".json" in
  emit (SavedFile json_path json_name json_string)).

(** The body of the loop that uploads to the database:
    [station_measurements[station]] is handed to the writer. *)
Definition upload (station : string) : Prog unit :=
  pbind (query (fun self => dict_item (measurement_data self) station))
    (fun containers => emit (InfluxWrite containers)).

(** The body of [for day in range(number_of_days)], for the day that starts
    at [day_start]; [req_get] answers the requests of that day. *)
Definition day_iteration (config : Config) (available_stations : list string)
  (req_get : string -> Response) (day_start : datetime) : Prog unit :=
  pbind (call (download_day req_get available_stations)) (fun _ =>
  pbind (query (fun self => Ok (stations_with_data self)))
    (fun stations_with_data =>
  pbind (if key_in (file_format config) ["csv"; "both"] then
           pfor_each stations_with_data (save_csv config day_start)
         else pret tt) (fun _ =>
  pbind (if key_in (file_format config) ["json"; "both"] then
           pfor_each stations_with_data (save_json config day_start)
         else pret tt) (fun _ =>
  pbind (if write_to_influx config then
           pbind (emit InfluxConnect) (fun _ =>
           pfor_each stations_with_data upload)
         else pret tt) (fun _ =>
  call clear_measurements))))).

(** The loop over the days; [req_get d] answers the requests of the day
    that starts at [d]. *)
Definition day_loop (config : Config) (available_stations : list string)
  (req_get : datetime -> string -> Response) (days : list datetime)
  : Prog unit :=
  pfor_each days
    (fun day_start =>
       day_iteration config available_stations (req_get day_start) day_start).

(** The program from the creation of the object on: the metadata download,
    [available_stations = list(acoem_API.get_metadata().keys())], the day
    loop. *)
Definition main_program (config : Config)
  (meta_raw : result (list (dict pyval)))
  (req_get : datetime -> string -> Response) (days : list datetime)
  : Prog unit :=
  pbind (call (dl_station_meta meta_raw)) (fun _ =>
  pbind (query (fun self => Ok (dict_keys (station_meta self))))
    (fun available_stations =>
  day_loop config available_stations req_get days)).

End Orchestration.

(** ** What the methods compute, as functions

    Closed forms the theorems compare the methods with. *)

Section ClosedForms.

Context {RT : PyRuntime}.

(** What is kept of a station record: all but the location entries. *)
Definition station_metadata (station : dict pyval) : dict pyval :=
  filter (fun kv => negb (key_in (fst kv) keys_to_remove)) station.

(** One record decoded for a station whose metadata is [meta]; [None] is a
    station without metadata. *)
Definition decode_point (meta : option (dict pyval))
  (measurement : RawMeasurement) : result Point :=
  rbind (decode_container measurement)
    (fun container =>
       match meta with
       | Some meta => Ok (add_metadata container meta)
       | None => Raise KeyError
       end).

(** The Points the records give, those without a field left out, up to the
    first record that raises, and how the loop over the records ends. *)
Fixpoint stored_points (meta : option (dict pyval))
  (measurements : list RawMeasurement) : list Point * result unit :=
  match measurements with
  | [] => ([], Ok tt)
  | measurement :: measurements' =>
      match decode_point meta measurement with
      | Raise e => ([], Raise e)
      | Ok point =>
          let (points, r) := stored_points meta measurements' in
          (if has_fields point then point :: points else points, r)
      end
  end.

(** No location key among the tags. *)
Definition no_location_tag (point : Point) : Prop :=
  forall key, In key location_keys -> ~ In key (dict_keys (tags point)).

(** No location key in the metadata of any station. *)
Definition metadata_without_location (self : AcoemRequest) : Prop :=
  forall id meta,
    In (id, meta) (station_meta self) ->
    forall key, In key location_keys -> ~ In key (dict_keys meta).

(** What holds of every Point a run stores: it has a field, its two mappings
    are dictionaries, and no location key is among its tags. *)
Definition stored_point_ok (point : Point) : Prop :=
  fields point <> [] /\ point_wf point /\ no_location_tag point.

End ClosedForms.

(** The number of occurrences of a character. *)
Fixpoint count_char (c : ascii) (s : string) : nat :=
  match s with
  | EmptyString => 0
  | String x s' => (if Ascii.eqb x c then 1 else 0) + count_char c s'
  end.

(** The number of line ends of a text. *)
Definition line_count (s : string) : nat := count_char (ascii_of_nat 10) s.

(** ** What a day sends out, as a function *)

Section DayOutputs.

Context {RT : PyRuntime}.

Variable json_dumps : dict JsonContainer -> string.

(** The value a method returned, [default] had it raised. *)
Definition returned {A : Type} (default : A) (r : result A) : A :=
  match r with
  | Ok a => a
  | Raise _ => default
  end.

(** The CSV of a station: the keys are classified, then handed to the
    formatter. *)
Definition csv_text (self : AcoemRequest) (station : string) : string :=
  returned EmptyString
    (rbind (get_key_classifications self station)
       (format_as_csv self station)).

Definition json_text (self : AcoemRequest) (station : string) : string :=
  json_dumps (returned [] (format_as_json self station)).

Definition dataset_of (self : AcoemRequest) (station : string) : list Point :=
  returned [] (dict_item (measurement_data self) station).

Definition csv_file (config : Config) (day_start : datetime)
  (self : AcoemRequest) (station : string) : Output :=
  SavedFile (file_path config ++ "/csv/" ++ station)
    (strftime_date day_start ++ ".csv") (csv_text self station).

Definition json_file (config : Config) (day_start : datetime)
  (self : AcoemRequest) (station : string) : Output :=
  SavedFile (file_path config ++ "/json/" ++ station)
    (strftime_date day_start ++ ".json") (json_text self station).

(** What a day hands to its sinks once its download has left the object
    [self]: the csv files, then the json files, then the writer and the
    uploads, each in the order of the stations with data. *)
Definition day_outputs (config : Config) (day_start : datetime)
  (self : AcoemRequest) : list Output :=
  ((if key_in (file_format config) ["csv"; "both"] then
      map (csv_file config day_start self) (stations_with_data self)
    else [])
   ++ (if key_in (file_format config) ["json"; "both"] then
         map (json_file config day_start self) (stations_with_data self)
       else [])
   ++ (if write_to_influx config then
         InfluxConnect
         :: map (fun station => InfluxWrite (dataset_of self station))
              (stations_with_data self)
       else []))%list.

(** What the days hand to the sinks while their downloads return: what each
    day hands over from an object without measurements. *)
Definition days_outputs (config : Config) (stations : list string)
  (req_get : datetime -> string -> Response) (days : list datetime)
  (meta : dict (dict pyval)) : list Output :=
  flat_map
    (fun day_start =>
       day_outputs config day_start
         (snd (download_day (req_get day_start) stations
                 (mkAcoemRequest meta []))))
    days.

(** What the sinks answer, as in the day loop. *)
Variable sink : list Output -> Output -> result unit.

(** The outputs [l] handed to the sinks one after the other, after [outs]:
    how this ends, at the first call that raises or after the last one, and
    what the sinks have taken by then. *)
Fixpoint send (outs l : list Output) : result unit * list Output :=
  match l with
  | [] => (Ok tt, outs)
  | o :: l' =>
      match sink outs o with
      | Ok _ => send (outs ++ [o]) l'
      | Raise e => (Raise e, outs)
      end
  end.

(** The sinks take every output of [l], handed over after [outs]. *)
Definition accepted (outs l : list Output) : Prop :=
  forall sent o rest,
    l = (sent ++ o :: rest)%list -> sink (outs ++ sent) o = Ok tt.

(** The sinks have taken [sent], the first outputs to be handed over, and
    the run has ended as [r]: all is sent when it returned, and the first
    output not sent is the one whose sink raised. *)
Definition sent_until (r : result unit) (outs planned sent : list Output)
  : Prop :=
  exists rest,
    planned = (sent ++ rest)%list
    /\ match r with
       | Ok _ => rest = []
       | Raise e =>
           exists o rest', rest = o :: rest' /\ sink (outs ++ sent) o = Raise e
       end.

(** What holds of the program's state along a run. *)
Definition world_ok (w : World) : Prop :=
  metadata_without_location (object w)
  /\ points_satisfy stored_point_ok (object w)
  /\ (forall containers,
        In (InfluxWrite containers) (outputs w) ->
        Forall stored_point_ok containers).

End DayOutputs.

(** ** Example data for the metadata download and the day loop *)

Module RunExamples.

Import DecimalRuntime.

(** A station record as the API returns it, and one without an id. *)
Definition station_record : dict pyval :=
  [("UniqueId", PStr "station-1"); ("Latitude", PFloat Examples.one);
   ("SerialNumber", PStr "ABC123"); ("Longitude", PNone);
   ("Altitude", PInt 12)].

Definition station_without_id : dict pyval :=
  [("SerialNumber", PStr "DEF456"); ("Latitude", PFloat Examples.one)].

(** A response whose second record does not decode, and one whose only
    record has no field. *)
Definition response_mixed : Response :=
  mkResponse 200 "[...]"
    (Ok [Examples.record; Examples.record_no_flags; Examples.record]).

Definition response_no_field : Response :=
  mkResponse 200 "[...]" (Ok [Examples.record_unavailable]).

Definition req_get (id : string) : Response :=
  if String.eqb id "station-6" then response_mixed
  else if String.eqb id "station-7" then response_no_field
  else Examples.req_get id.

(** The object once the metadata of three stations is downloaded. *)
Definition object_of_three : AcoemRequest :=
  mkAcoemRequest
    [("station-1", Examples.metadata); ("station-6", Examples.metadata);
     ("station-7", Examples.metadata)] [].

Definition config : Config := mkConfig "both" "out" true.

Definition first_day : datetime := mkDatetime 2021 6 1 0 0 0 0.
Definition second_day : datetime := mkDatetime 2021 6 2 0 0 0 0.

(** The answers of the API: on the second day, station 1 sends the response
    whose second record does not decode. *)
Definition req_by_day (day_start : datetime) (id : string) : Response :=
  if Nat.eqb (day day_start) 2 then response_mixed else Examples.req_get id.

(** The Point of the scenario's record under the metadata kept of
    [station_record]. *)
Definition uploaded_point : Point :=
  mkPoint scenario_time "ACOEM UK Systems" (fields Examples.point)
    [("PM25 Flag", PStr "Valid"); ("UniqueId", PStr "station-1");
     ("SerialNumber", PStr "ABC123")].

(** A stand-in for [json.dumps]. *)
Definition json_dumps (json_measurements : dict JsonContainer) : string :=
  string_of_nat (List.length json_measurements) ++ " entries".

(** Sinks that take everything, and sinks whose disk is full once one file
    is written. *)
Definition sink (outs : list Output) (o : Output) : result unit := Ok tt.

Definition disk_full (outs : list Output) (o : Output) : result unit :=
  match o, outs with
  | SavedFile _ _ _, _ :: _ => Raise (OtherError "OSError")
  | _, _ => Ok tt
  end.

End RunExamples.

(** ** Results on strings, lists and dictionaries *)

Lemma append_nil_r (s : string) : s ++ EmptyString = s.
Proof.
  induction s as [|c s IH]; simpl; [reflexivity | now rewrite IH].
Qed.

Lemma append_assoc (a b c : string) : (a ++ b) ++ c = a ++ (b ++ c).
Proof.
  induction a as [|x a IH]; simpl; [reflexivity | now rewrite IH].
Qed.

Lemma length_append (a b : string) :
  String.length (a ++ b) = String.length a + String.length b.
Proof.
  induction a as [|x a IH]; simpl; [reflexivity | now rewrite IH].
Qed.

Lemma prefix_append (a post : string) : String.prefix a (a ++ post) = true.
Proof.
  induction a as [|x a IH]; simpl.
  - now destruct post.
  - destruct (ascii_dec x x) as [_|n]; [exact IH | now elim n].
Qed.

Lemma prefix_inv (a b : string) :
  String.prefix a b = true -> exists post, b = a ++ post.
Proof.
  revert a; induction b as [|y b IH]; intros [|x a] H; simpl in H.
  - now exists EmptyString.
  - discriminate.
  - now exists (String y b).
  - destruct (ascii_dec x y) as [->|]; [|discriminate].
    destruct (IH a H) as [post ->]. now exists post.
Qed.

(** [bytes_in] is the containment of a contiguous run. *)
Lemma bytes_in_spec (sub s : string) :
  bytes_in sub s = true <-> exists pre post, s = pre ++ sub ++ post.
Proof.
  split.
  - induction s as [|c s IH]; cbn [bytes_in].
    + destruct (String.prefix sub EmptyString) eqn:P; [|discriminate].
      intros _. destruct (prefix_inv _ _ P) as [post E].
      now exists EmptyString, post.
    + destruct (String.prefix sub (String c s)) eqn:P.
      * intros _. destruct (prefix_inv _ _ P) as [post E].
        now exists EmptyString, post.
      * intros H. destruct (IH H) as (pre & post & ->).
        now exists (String c pre), post.
  - intros (pre & post & ->).
    induction pre as [|c pre IH].
    + change (EmptyString ++ sub ++ post) with (sub ++ post).
      destruct (sub ++ post) eqn:E; cbn [bytes_in];
        now rewrite <- E, prefix_append.
    + change (String c pre ++ sub ++ post) with (String c (pre ++ sub ++ post)).
      cbn [bytes_in]. rewrite IH.
      now destruct (String.prefix sub (String c (pre ++ sub ++ post))).
Qed.

Lemma bytes_in_length (sub s : string) :
  bytes_in sub s = true -> String.length sub <= String.length s.
Proof.
  intros H. apply bytes_in_spec in H. destruct H as (pre & post & ->).
  rewrite !length_append. lia.
Qed.

Lemma key_in_In (k : string) (l : list string) : key_in k l = true <-> In k l.
Proof.
  unfold key_in. rewrite existsb_exists. split.
  - intros (x & Hx & E). apply String.eqb_eq in E. now subst.
  - intros H. exists k. split; [exact H | apply String.eqb_refl].
Qed.

Lemma key_in_not_In (k : string) (l : list string) :
  key_in k l = false <-> ~ In k l.
Proof.
  rewrite <- key_in_In. now destruct (key_in k l).
Qed.

Lemma key_in_app (k : string) (l1 l2 : list string) :
  key_in k (l1 ++ l2) = key_in k l1 || key_in k l2.
Proof.
  apply existsb_app.
Qed.

Lemma fold_result_app {A B : Type} (step : B -> A -> result B)
  (l1 l2 : list A) (acc : B) :
  fold_result step (l1 ++ l2) acc
  = rbind (fold_result step l1 acc) (fold_result step l2).
Proof.
  revert acc; induction l1 as [|x l1 IH]; intros acc; simpl; [reflexivity|].
  destruct (step acc x); simpl; [apply IH | reflexivity].
Qed.

(** A loop one of whose iterations always raises, raises. *)
Lemma fold_result_raises {A B : Type} (step : B -> A -> result B)
  (l : list A) (x : A) :
  In x l -> (forall acc, exists e, step acc x = Raise e) ->
  forall acc, exists e, fold_result step l acc = Raise e.
Proof.
  intros Hin Hx. induction l as [|y l IH]; [contradiction|].
  intros acc. simpl. destruct Hin as [->|Hin].
  - destruct (Hx acc) as [e ->]. now exists e.
  - destruct (step acc y) as [acc'|e]; simpl; [now apply IH | now exists e].
Qed.

(** *** Dictionaries *)

Lemma dict_keys_set {V : Type} (d : dict V) (k : string) (v : V) :
  dict_keys (dict_set d k v) = add_key (dict_keys d) k.
Proof.
  unfold add_key. induction d as [|[k' v'] d IH]; simpl; [reflexivity|].
  rewrite (String.eqb_sym k k').
  destruct (String.eqb k' k) eqn:E; simpl; [reflexivity|].
  unfold add_key in IH. rewrite IH.
  now destruct (key_in k (dict_keys d)).
Qed.

Lemma dict_get_set_same {V : Type} (d : dict V) (k : string) (v : V) :
  dict_get (dict_set d k v) k = Some v.
Proof.
  induction d as [|[k' v'] d IH]; simpl.
  - now rewrite String.eqb_refl.
  - destruct (String.eqb k' k) eqn:E; simpl; now rewrite E.
Qed.

Lemma dict_get_set_other {V : Type} (d : dict V) (k k0 : string) (v : V) :
  k <> k0 -> dict_get (dict_set d k v) k0 = dict_get d k0.
Proof.
  intros N. induction d as [|[k' v'] d IH]; simpl.
  - apply String.eqb_neq in N. now rewrite N.
  - destruct (String.eqb k' k) eqn:E; simpl.
    + apply String.eqb_eq in E. subst k'.
      apply String.eqb_neq in N. now rewrite N.
    + now rewrite IH.
Qed.

Lemma dict_get_In_keys {V : Type} (d : dict V) (k : string) :
  In k (dict_keys d) <-> exists v, dict_get d k = Some v.
Proof.
  induction d as [|[k' v'] d IH]; simpl.
  - split; [contradiction | intros [v H]; discriminate].
  - destruct (String.eqb k' k) eqn:E.
    + apply String.eqb_eq in E. split; [now exists v' | now left].
    + apply String.eqb_neq in E. rewrite <- IH. tauto.
Qed.

Lemma dict_get_None {V : Type} (d : dict V) (k : string) :
  ~ In k (dict_keys d) <-> dict_get d k = None.
Proof.
  rewrite dict_get_In_keys. destruct (dict_get d k) as [v|].
  - split; [intros N; elim N; now exists v | discriminate].
  - split; [reflexivity | intros _ [v H]; discriminate].
Qed.

Lemma dict_set_fresh {V : Type} (d : dict V) (k : string) (v : V) :
  ~ In k (dict_keys d) -> dict_set d k v = (d ++ [(k, v)])%list.
Proof.
  induction d as [|[k' v'] d IH]; simpl; intros N; [reflexivity|].
  destruct (String.eqb k' k) eqn:E.
  - apply String.eqb_eq in E. elim N. now left.
  - rewrite IH; [reflexivity | tauto].
Qed.

Lemma add_key_NoDup (l : list string) (k : string) :
  NoDup l -> NoDup (add_key l k).
Proof.
  intros H. unfold add_key. destruct (key_in k l) eqn:E; simpl; [exact H|].
  apply key_in_not_In in E.
  apply NoDup_app; [exact H | repeat constructor; simpl; tauto |].
  intros x Hx [<-|[]]. now apply E.
Qed.

Lemma In_add_key (l : list string) (k x : string) :
  In x (add_key l k) <-> In x l \/ x = k.
Proof.
  unfold add_key. destruct (key_in k l) eqn:E; simpl.
  - apply key_in_In in E. split; [tauto | intros [H| ->]; assumption].
  - rewrite in_app_iff. simpl. intuition congruence.
Qed.

Lemma dict_set_NoDup {V : Type} (d : dict V) (k : string) (v : V) :
  NoDup (dict_keys d) -> NoDup (dict_keys (dict_set d k v)).
Proof.
  rewrite dict_keys_set. apply add_key_NoDup.
Qed.

Lemma dict_update_NoDup {V : Type} (d1 d2 : dict V) :
  NoDup (dict_keys d1) -> NoDup (dict_keys (dict_update d1 d2)).
Proof.
  unfold dict_update. revert d1.
  induction d2 as [|[k v] d2 IH]; intros d1 H; simpl; [exact H|].
  apply IH. now apply dict_set_NoDup.
Qed.

(** In [{**d1, **d2}] the values of [d2] override those of [d1]. *)
Lemma dict_get_update {V : Type} (d1 d2 : dict V) (k : string) :
  NoDup (dict_keys d2) ->
  dict_get (dict_update d1 d2) k
  = match dict_get d2 k with
    | Some v => Some v
    | None => dict_get d1 k
    end.
Proof.
  unfold dict_update. revert d1.
  induction d2 as [|[k0 v0] d2 IH]; intros d1 Hnd; simpl; [reflexivity|].
  inversion Hnd as [|? ? Hk Hnd']; subst.
  rewrite IH by exact Hnd'.
  destruct (String.eqb_spec k0 k) as [->|N].
  - apply dict_get_None in Hk. rewrite Hk. apply dict_get_set_same.
  - destruct (dict_get d2 k); [reflexivity|]. now apply dict_get_set_other.
Qed.

Lemma dict_update_fresh {V : Type} (d1 d2 : dict V) :
  NoDup (dict_keys d2) ->
  (forall k, In k (dict_keys d2) -> ~ In k (dict_keys d1)) ->
  dict_update d1 d2 = (d1 ++ d2)%list.
Proof.
  unfold dict_update. revert d1.
  induction d2 as [|[k v] d2 IH]; intros d1 Hnd Hfresh; simpl.
  - now rewrite app_nil_r.
  - inversion Hnd as [|? ? Hk Hnd']; subst.
    rewrite dict_set_fresh by (apply Hfresh; now left).
    rewrite IH; [now rewrite <- app_assoc | exact Hnd' |].
    intros k' Hk'. unfold dict_keys. rewrite map_app, in_app_iff.
    intros [H|[<-|[]]]; [|now apply Hk].
    apply (Hfresh k'); [now right | exact H].
Qed.

Lemma dict_get_NoDup_In {V : Type} (d : dict V) (k : string) (v : V) :
  NoDup (dict_keys d) -> In (k, v) d -> dict_get d k = Some v.
Proof.
  induction d as [|[k0 v0] d IH]; simpl; [contradiction|].
  intros Hnd [E|Hin].
  - injection E as -> ->. now rewrite String.eqb_refl.
  - inversion Hnd as [|? ? Hk Hnd']; subst.
    destruct (String.eqb_spec k0 k) as [->|N].
    + elim Hk. apply (in_map fst) in Hin. exact Hin.
    + now apply IH.
Qed.


Lemma append_inj_l (a b c : string) : a ++ b = a ++ c -> b = c.
Proof.
  induction a as [|x a IH]; simpl; intros H; [exact H|].
  injection H as H. now apply IH.
Qed.

Lemma concat_comma_cons (a x : string) (rest : list string) :
  String.concat ", " ((a ++ ", " ++ x) :: rest)
  = a ++ ", " ++ String.concat ", " (x :: rest).
Proof.
  destruct rest as [|y rest]; cbn [String.concat]; [reflexivity|].
  now rewrite !append_assoc.
Qed.

(** The separator loop of the decoder is [", ".join]. *)
Lemma join_comma_space_concat (first : string) (rest : list string) :
  join_comma_space first rest = String.concat ", " (first :: rest).
Proof.
  unfold join_comma_space. revert first.
  induction rest as [|x rest IH]; intros first; [reflexivity|].
  cbn [fold_left]. rewrite IH. apply concat_comma_cons.
Qed.

(** *** Loops of methods *)

Section MethodLoops.

Context {RT : PyRuntime}.

(** A loop one of whose iterations always raises, raises. *)
Lemma for_each_raises {A : Type} (body : A -> M unit) (l : list A) (x : A) :
  In x l ->
  (forall self, exists e, fst (body x self) = Raise e) ->
  forall self, exists e, fst (for_each l body self) = Raise e.
Proof.
  intros Hin Hx. induction l as [|y l IH]; [contradiction|].
  intros self. cbn [for_each]. unfold bind.
  destruct Hin as [->|Hin].
  - destruct (Hx self) as [e He]. destruct (body x self) as [[u|e'] self'].
    + discriminate He.
    + now exists e'.
  - destruct (body y self) as [[u|e'] self']; [now apply IH | now exists e'].
Qed.

(** What every iteration preserves, the loop preserves, raising or not. *)
Lemma for_each_preserves {A : Type} (P : AcoemRequest -> Prop)
  (body : A -> M unit) (l : list A) :
  (forall x self, In x l -> P self -> P (snd (body x self))) ->
  forall self, P self -> P (snd (for_each l body self)).
Proof.
  induction l as [|y l IH]; intros Hbody self HP; [exact HP|].
  cbn [for_each]. unfold bind.
  pose proof (Hbody y self (or_introl eq_refl) HP) as Hy.
  destruct (body y self) as [[u|e] self']; cbn [snd] in *; [|exact Hy].
  apply IH; [|exact Hy]. intros x s Hx. apply Hbody. now right.
Qed.

Lemma for_each_app {A : Type} (body : A -> M unit) (l1 l2 : list A)
  (self : AcoemRequest) :
  for_each (l1 ++ l2) body self
  = bind (for_each l1 body) (fun _ => for_each l2 body) self.
Proof.
  revert self. induction l1 as [|x l1 IH]; intros self; [reflexivity|].
  cbn [for_each app]. unfold bind in *.
  destruct (body x self) as [[u|e] self']; [apply IH | reflexivity].
Qed.

End MethodLoops.

(** ** Properties of the Channel Decoder *)

Section DecoderProperties.

Context {RT : PyRuntime}.

Lemma decode_measurement_type_ok (channel : Channel) (container : Point)
  (f1 f2 f3 f4 : pyfloat) :
  py_float (PreScaled channel) = Ok f1 ->
  py_float (Scaled channel) = Ok f2 ->
  py_float (Slope channel) = Ok f3 ->
  py_float (Offset channel) = Ok f4 ->
  fold_result (decode_measurement_type channel) measurement_types container
  = Ok (set_field (set_field (set_field (set_field container
          (field_key channel "PreScaled") f1)
          (field_key channel "Scaled") f2)
          (field_key channel "Slope") f3)
          (field_key channel "Offset") f4).
Proof.
  intros H1 H2 H3 H4.
  unfold measurement_types, decode_measurement_type. cbn [fold_result].
  unfold channel_item at 1. cbn [String.eqb Ascii.eqb Bool.eqb rbind].
  rewrite H1. cbn [rbind].
  unfold channel_item at 1. cbn [String.eqb Ascii.eqb Bool.eqb rbind].
  rewrite H2. cbn [rbind].
  unfold channel_item at 1. cbn [String.eqb Ascii.eqb Bool.eqb rbind].
  rewrite H3. cbn [rbind].
  unfold channel_item at 1. cbn [String.eqb Ascii.eqb Bool.eqb rbind].
  rewrite H4. reflexivity.
Qed.

Lemma decode_flags_ok (container : Point) (channel : Channel) :
  In "Valid" (Flags channel) \/ Flags channel <> [] ->
  decode_flags container channel
  = Ok (set_tag container (flag_key channel)
          (PStr (flag_value (Flags channel)))).
Proof.
  intros Hflags. unfold decode_flags, flag_value.
  destruct (key_in "Valid" (Flags channel)); [reflexivity|].
  destruct (Flags channel) as [|first rest].
  - destruct Hflags as [[]|N]; now elim N.
  - cbn [flag_string rbind]. now rewrite join_comma_space_concat.
Qed.

(** C4: a channel whose PreScaled value is null contributes nothing: the
    decoder's step for it returns the container unchanged (no field, no
    flag tag), whatever its other values and flags are, and a record decodes
    as it does without that channel. *)
Theorem unavailable_channel_contributes_nothing (channel : Channel) :
  PreScaled channel = PNone ->
  (forall container : Point,
      decode_channel container channel = Ok container)
  /\ (forall ts lat lon alt pre post,
        decode_container
          (mkRawMeasurement ts lat lon alt (pre ++ channel :: post))
        = decode_container (mkRawMeasurement ts lat lon alt (pre ++ post))).
Proof.
  intros Hnull.
  assert (Hstep : forall container, decode_channel container channel = Ok container).
  { intros container. unfold decode_channel. now rewrite Hnull. }
  split; [exact Hstep|].
  intros ts lat lon alt pre post. unfold decode_container.
  cbn [TBTimestamp Channels].
  destruct (strptime_result ts) as [t|e]; [|reflexivity].
  cbn [rbind].
  change (fold_result
            (decode_location (mkRawMeasurement ts lat lon alt (pre ++ channel :: post)))
            location_keys (mkPoint t "ACOEM UK Systems" [] []))
    with (fold_result
            (decode_location (mkRawMeasurement ts lat lon alt (pre ++ post)))
            location_keys (mkPoint t "ACOEM UK Systems" [] [])).
  destruct (fold_result _ location_keys _) as [c|e]; [|reflexivity].
  cbn [rbind]. rewrite !fold_result_app.
  destruct (fold_result decode_channel pre c) as [c'|e]; [|reflexivity].
  cbn [rbind fold_result]. now rewrite Hstep.
Qed.

(** C5 (as amended): for an available channel whose four values convert to
    float and whose flag list contains "Valid" or is not empty, the decoder's
    step assigns the four fields PreScaled, Scaled, Slope and Offset, in this
    order and each cast to float, under the key
    "<SensorName> <MeasurementType> [<UnitName>]", and assigns the one tag
    "<SensorName> Flag", whose value is "Valid" when "Valid" occurs in the
    flag list and otherwise the flags joined by ", " in their original
    order; when none of these keys is in the container yet, these are
    exactly four new fields and one new tag, appended. *)
Theorem available_channel_fields_and_flag (container : Point)
  (channel : Channel) (f1 f2 f3 f4 : pyfloat) :
  is_not_none (PreScaled channel) = true ->
  py_float (PreScaled channel) = Ok f1 ->
  py_float (Scaled channel) = Ok f2 ->
  py_float (Slope channel) = Ok f3 ->
  py_float (Offset channel) = Ok f4 ->
  In "Valid" (Flags channel) \/ Flags channel <> [] ->
  let name := SensorName channel in
  let unit := " [" ++ UnitName channel ++ "]" in
  let new_fields :=
    [(name ++ " PreScaled" ++ unit, f1); (name ++ " Scaled" ++ unit, f2);
     (name ++ " Slope" ++ unit, f3); (name ++ " Offset" ++ unit, f4)] in
  let new_tag := (name ++ " Flag", PStr (flag_value (Flags channel))) in
  exists container',
    decode_channel container channel = Ok container'
    /\ time container' = time container
    /\ measurement container' = measurement container
    /\ fields container' = dict_update (fields container) new_fields
    /\ tags container' = dict_set (tags container) (fst new_tag) (snd new_tag)
    /\ ((forall k, In k (dict_keys new_fields) ->
           ~ In k (dict_keys (fields container))) ->
        ~ In (fst new_tag) (dict_keys (tags container)) ->
        fields container' = (fields container ++ new_fields)%list
        /\ tags container' = (tags container ++ [new_tag])%list).
Proof.
  intros Havail H1 H2 H3 H4 Hflags name unit new_fields new_tag.
  eexists. split.
  { unfold decode_channel. rewrite Havail.
    rewrite (decode_measurement_type_ok channel container f1 f2 f3 f4 H1 H2 H3 H4).
    cbn [rbind]. now apply decode_flags_ok. }
  cbn [time measurement fields tags set_tag set_field].
  split; [reflexivity|]. split; [reflexivity|]. split; [reflexivity|].
  split; [reflexivity|].
  intros Hfresh Htag. split; [|now apply dict_set_fresh].
  change (dict_update (fields container) new_fields
          = (fields container ++ new_fields)%list).
  apply dict_update_fresh; [|exact Hfresh].
  unfold new_fields, dict_keys. cbn [map fst].
  repeat constructor; cbn [In];
    intros H; repeat destruct H as [H|H]; try contradiction;
    apply append_inj_l in H; discriminate H.
Qed.

(** C9: an available channel with an empty flag list makes the decoder
    raise: the channel's step raises for every container ([IndexError], from
    indexing the first flag, once the four values have been converted), and so
    do the decoding of any record that contains the channel, whose step in the
    measurement loop leaves the object unchanged (no Point), the processing of
    any successful response that contains such a record, and both download
    methods. *)
Theorem empty_flag_list_raises (channel : Channel) :
  is_not_none (PreScaled channel) = true ->
  Flags channel = [] ->
  (forall container, exists e, decode_channel container channel = Raise e)
  /\ (forall container container',
        fold_result (decode_measurement_type channel) measurement_types
          container = Ok container' ->
        decode_channel container channel = Raise IndexError)
  /\ (forall measurement, In channel (Channels measurement) ->
      (exists e, decode_container measurement = Raise e)
      /\ (forall id self,
            exists e, store_measurement id measurement self = (Raise e, self))
      /\ (forall req_get id measurements,
            data_req_success (req_get id) = true ->
            json (req_get id) = Ok measurements ->
            In measurement measurements ->
            (forall self,
                exists e,
                  fst (dl_station_measurements req_get id self) = Raise e)
            /\ (forall self, In id (dict_keys (station_meta self)) ->
                exists e,
                  fst (dl_all_station_measurements req_get self) = Raise e))).
Proof.
  intros Havail Hflags.
  assert (Hstep : forall container, exists e, decode_channel container channel = Raise e).
  { intros container. unfold decode_channel, decode_flags.
    rewrite Havail, Hflags.
    destruct (fold_result _ measurement_types container) as [c|e];
      cbn; eauto. }
  split; [exact Hstep|]. split.
  { intros container container' H. unfold decode_channel, decode_flags.
    now rewrite Havail, Hflags, H. }
  intros m Hin.
  assert (Hdec : exists e, decode_container m = Raise e).
  { unfold decode_container.
    destruct (strptime_result (TBTimestamp m)) as [t|e]; cbn [rbind]; eauto.
    destruct (fold_result (decode_location m) location_keys _) as [c|e];
      cbn [rbind]; eauto.
    now apply fold_result_raises with (x := channel). }
  assert (Hstore : forall id self,
             exists e, store_measurement id m self = (Raise e, self)).
  { intros id self. destruct Hdec as [e He]. exists e.
    unfold store_measurement, bind, lift. now rewrite He. }
  split; [exact Hdec|]. split; [exact Hstore|].
  intros req_get id ms Hok Hjson Hms.
  assert (Hproc : forall self,
             exists e, fst (process_response id (req_get id) self) = Raise e).
  { intros self. unfold process_response. rewrite Hok.
    unfold bind at 1. cbn [set_measurement_data].
    unfold bind at 1, lift. rewrite Hjson.
    apply for_each_raises with (x := m); [exact Hms|].
    intros self'. destruct (Hstore id self') as [e He]. exists e. now rewrite He. }
  split; [exact Hproc|].
  intros self Hid. unfold dl_all_station_measurements.
  apply for_each_raises with (x := id); [exact Hid | exact Hproc].
Qed.

End DecoderProperties.

(** The unavailable PM25 channel leaves the empty container empty. *)
Lemma unavailable_channel_witness :
  PreScaled Examples.pm25_unavailable = PNone
  /\ decode_channel Examples.empty_container Examples.pm25_unavailable
     = Ok Examples.empty_container.
Proof.
  split; [reflexivity|].
  apply (unavailable_channel_contributes_nothing Examples.pm25_unavailable).
  reflexivity.
Defined.

(** The NO2 channel, with two flags and no "Valid": four fields, one tag. *)
Lemma available_channel_witness :
  is_not_none (PreScaled Examples.no2_flagged) = true
  /\ In "OutOfRange" (Flags Examples.no2_flagged)
  /\ exists container',
       decode_channel Examples.empty_container Examples.no2_flagged
       = Ok container'
       /\ fields container'
          = [("NO2 PreScaled [ppb]", DecimalRuntime.mkDecimal 3 0);
             ("NO2 Scaled [ppb]", DecimalRuntime.mkDecimal 25 1);
             ("NO2 Slope [ppb]", Examples.one);
             ("NO2 Offset [ppb]", Examples.one_tenth)]
       /\ tags container' = [("NO2 Flag", PStr "OutOfRange, Calibration")].
Proof.
  split; [reflexivity|]. split; [simpl; auto|].
  destruct (available_channel_fields_and_flag Examples.empty_container
              Examples.no2_flagged (DecimalRuntime.mkDecimal 3 0)
              (DecimalRuntime.mkDecimal 25 1) Examples.one Examples.one_tenth)
    as (container' & Hdec & _ & _ & Hfields & Htags & _);
    try reflexivity.
  - right. discriminate.
  - exists container'. split; [exact Hdec|]. split; [exact Hfields | exact Htags].
Defined.

(** C5 as stated fails on three inputs: an available channel with an empty
    flag list raises [IndexError], an available channel whose Scaled value is
    null raises [TypeError], and a channel decoded into a container that
    already has its keys adds no field and no tag. *)
Lemma available_channel_counterexample :
  (is_not_none (PreScaled Examples.pm25_no_flags) = true
   /\ decode_channel Examples.empty_container Examples.pm25_no_flags
      = Raise IndexError)
  /\ (is_not_none (PreScaled Examples.pm25_scaled_null) = true
      /\ decode_channel Examples.empty_container Examples.pm25_scaled_null
         = Raise TypeError)
  /\ (exists once twice,
        decode_channel Examples.empty_container Examples.pm25 = Ok once
        /\ decode_channel once Examples.pm25 = Ok twice
        /\ List.length (fields twice) = List.length (fields once)
        /\ List.length (tags twice) = List.length (tags once)).
Proof.
  split; [split; reflexivity|]. split; [split; reflexivity|].
  eexists. eexists. split; [reflexivity|]. split; [reflexivity|].
  split; reflexivity.
Qed.

(** The record whose second channel has no flag does not decode. *)
Lemma empty_flag_list_witness :
  is_not_none (PreScaled Examples.pm25_no_flags) = true
  /\ Flags Examples.pm25_no_flags = []
  /\ In Examples.pm25_no_flags (Channels Examples.record_no_flags)
  /\ decode_channel Examples.empty_container Examples.pm25_no_flags
     = Raise IndexError
  /\ exists e, decode_container Examples.record_no_flags = Raise e.
Proof.
  split; [reflexivity|]. split; [reflexivity|].
  split; [simpl; auto|].
  destruct (empty_flag_list_raises Examples.pm25_no_flags eq_refl eq_refl)
    as (_ & Hindex & Hrecord).
  split.
  - eapply Hindex. reflexivity.
  - apply (Hrecord Examples.record_no_flags). simpl. auto.
Defined.

(** ** Properties of the download of a day *)

Lemma In_dict_set {V : Type} (d : dict V) (k k' : string) (v v' : V) :
  In (k', v') (dict_set d k v) -> In (k', v') d \/ (k' = k /\ v' = v).
Proof.
  induction d as [|[k0 v0] d IH]; simpl.
  - intros [E|[]]. injection E as <- <-. now right.
  - destruct (String.eqb k0 k) eqn:E; simpl.
    + apply String.eqb_eq in E. subst k0.
      intros [H|H]; [injection H as <- <-; now right | left; now right].
    + intros [H|H]; [left; now left|].
      destruct (IH H) as [H'|H']; [left; now right | now right].
Qed.

Lemma dict_get_In {V : Type} (d : dict V) (k : string) (v : V) :
  dict_get d k = Some v -> In (k, v) d.
Proof.
  induction d as [|[k0 v0] d IH]; simpl; [discriminate|].
  destruct (String.eqb k0 k) eqn:E.
  - apply String.eqb_eq in E. subst k0. intros H. injection H as <-. now left.
  - intros H. right. now apply IH.
Qed.

Section DownloadProperties.

Context {RT : PyRuntime}.

Lemma has_fields_spec (container : Point) :
  has_fields container = true <-> fields container <> [].
Proof.
  unfold has_fields, dict_keys. destruct (fields container); simpl.
  - split; [discriminate | intros N; now elim N].
  - split; [discriminate | reflexivity].
Qed.

Lemma fold_result_preserves {A B : Type} (P : B -> Prop)
  (step : B -> A -> result B) (l : list A) :
  (forall acc x acc', P acc -> step acc x = Ok acc' -> P acc') ->
  forall acc r, P acc -> fold_result step l acc = Ok r -> P r.
Proof.
  intros Hstep. induction l as [|x l IH]; intros acc r HP; simpl.
  - intros E. injection E as <-. exact HP.
  - destruct (step acc x) as [acc'|e] eqn:E; simpl; [|discriminate].
    apply IH. now apply (Hstep acc x).
Qed.

Lemma set_field_wf (c : Point) (k : string) (v : pyfloat) :
  point_wf c -> point_wf (set_field c k v).
Proof.
  intros [Hf Ht]. split; cbn [fields tags set_field];
    [now apply dict_set_NoDup | exact Ht].
Qed.

Lemma set_tag_wf (c : Point) (k : string) (v : pyval) :
  point_wf c -> point_wf (set_tag c k v).
Proof.
  intros [Hf Ht]. split; cbn [fields tags set_tag];
    [exact Hf | now apply dict_set_NoDup].
Qed.

Lemma decode_channel_wf (container container' : Point) (channel : Channel) :
  point_wf container ->
  decode_channel container channel = Ok container' ->
  point_wf container'.
Proof.
  intros Hwf. unfold decode_channel, decode_flags.
  destruct (is_not_none (PreScaled channel)).
  - destruct (fold_result _ measurement_types container) as [c|e] eqn:F;
      cbn [rbind]; [|discriminate].
    assert (Hc : point_wf c).
    { revert F. apply fold_result_preserves; [|exact Hwf].
      intros acc mt acc' Hacc. unfold decode_measurement_type.
      destruct (channel_item channel mt) as [v|]; cbn [rbind]; [|discriminate].
      destruct (py_float v) as [f|]; cbn [rbind]; [|discriminate].
      intros E. injection E as <-. now apply set_field_wf. }
    destruct (key_in "Valid" (Flags channel)).
    + intros E. injection E as <-. now apply set_tag_wf.
    + destruct (flag_string (Flags channel)); cbn [rbind]; [|discriminate].
      intros E. injection E as <-. now apply set_tag_wf.
  - intros E. injection E as <-. exact Hwf.
Qed.

(** What the decoder builds are dictionaries. *)
Lemma decode_container_wf (measurement : RawMeasurement) (container : Point) :
  decode_container measurement = Ok container -> point_wf container.
Proof.
  unfold decode_container.
  destruct (strptime_result (TBTimestamp measurement)) as [t|];
    cbn [rbind]; [|discriminate].
  destruct (fold_result (decode_location measurement) location_keys _)
    as [c|] eqn:L; cbn [rbind]; [|discriminate].
  assert (Hc : point_wf c).
  { revert L. apply fold_result_preserves; [|split; constructor].
    intros acc key acc' Hacc. unfold decode_location.
    destruct (measurement_item measurement key) as [v|]; cbn [rbind];
      [|discriminate].
    destruct (is_not_none v).
    - destruct (py_float v) as [f|]; cbn [rbind]; [|discriminate].
      intros E. injection E as <-. now apply set_field_wf.
    - intros E. injection E as <-. exact Hacc. }
  apply fold_result_preserves; [|exact Hc].
  intros acc channel acc' Hacc. now apply decode_channel_wf.
Qed.

Lemma add_metadata_wf (container : Point) (meta : dict pyval) :
  point_wf container -> point_wf (add_metadata container meta).
Proof.
  intros [Hf Ht]. split; cbn [fields tags add_metadata];
    [exact Hf | now apply dict_update_NoDup].
Qed.

(** One iteration of the measurement loop either leaves the object as it is
    or appends one container, which has fields, to the station's list. *)
Lemma store_measurement_cases (id : string) (measurement : RawMeasurement)
  (self : AcoemRequest) :
  snd (store_measurement id measurement self) = self
  \/ exists dataset container,
       dict_get (measurement_data self) id = Some dataset
       /\ has_fields container = true
       /\ point_wf container
       /\ store_measurement id measurement self
          = (Ok tt, mkAcoemRequest (station_meta self)
                      (dict_set (measurement_data self) id
                         (dataset ++ [container])%list)).
Proof.
  unfold store_measurement, bind, lift, station_meta_item, dict_item.
  destruct (decode_container measurement) as [c|e] eqn:D; [|now left].
  destruct (dict_get (station_meta self) id) as [meta|]; [|now left].
  destruct (has_fields (add_metadata c meta)) eqn:F; [|now left].
  unfold append_measurement, bind, measurement_data_item, dict_item.
  destruct (dict_get (measurement_data self) id) as [dataset|] eqn:G;
    [|now left].
  right. exists dataset, (add_metadata c meta).
  split; [reflexivity|]. split; [exact F|]. split; [|reflexivity].
  apply add_metadata_wf. now apply decode_container_wf in D.
Qed.

Lemma store_measurement_keys (id : string) (measurement : RawMeasurement)
  (self : AcoemRequest) :
  stations_with_data (snd (store_measurement id measurement self))
  = stations_with_data self.
Proof.
  destruct (store_measurement_cases id measurement self)
    as [->|(dataset & c & G & _ & _ & ->)]; [reflexivity|].
  unfold stations_with_data. cbn [snd measurement_data].
  rewrite dict_keys_set. unfold add_key.
  assert (H : In id (dict_keys (measurement_data self)))
    by (apply dict_get_In_keys; now exists dataset).
  apply key_in_In in H. now rewrite H.
Qed.

Lemma process_response_no_data (id : string) (resp : Response)
  (self : AcoemRequest) :
  data_req_success resp = false -> process_response id resp self = (Ok tt, self).
Proof.
  intros H. unfold process_response. now rewrite H.
Qed.

(** A successful response gives the station an entry, whatever follows. *)
Lemma process_response_keys (id : string) (resp : Response)
  (self : AcoemRequest) :
  data_req_success resp = true ->
  stations_with_data (snd (process_response id resp self))
  = add_key (stations_with_data self) id.
Proof.
  intros H. unfold process_response. rewrite H.
  unfold bind at 1. cbn [set_measurement_data].
  unfold bind at 1, lift.
  destruct (json resp) as [measurements|e].
  - set (self1 := mkAcoemRequest _ _).
    assert (E : stations_with_data self1 = add_key (stations_with_data self) id)
      by apply dict_keys_set.
    rewrite <- E.
    apply (for_each_preserves
             (fun s => stations_with_data s = stations_with_data self1));
      [|reflexivity].
    intros x s _ Hs. now rewrite store_measurement_keys.
  - cbn [snd]. apply dict_keys_set.
Qed.



(** C10: the no-data test is a containment test.  For a response with
    status 200: when its body is any contiguous part of the marker, the empty
    body included, the station is skipped (no error, object unchanged); when
    its body contains the marker and at least one more byte, the request
    counts as successful and the station gets an entry in
    [measurement_data]. *)
Theorem no_data_test_is_containment (req_get : string -> Response)
  (id : string) :
  status_code (req_get id) = 200%Z ->
  (forall pre post,
      no_data_marker = pre ++ content (req_get id) ++ post ->
      data_req_success (req_get id) = false
      /\ forall self, dl_station_measurements req_get id self = (Ok tt, self))
  /\ (content (req_get id) = EmptyString ->
      data_req_success (req_get id) = false
      /\ forall self, dl_station_measurements req_get id self = (Ok tt, self))
  /\ (forall pre post,
        content (req_get id) = pre ++ no_data_marker ++ post ->
        pre ++ post <> EmptyString ->
        data_req_success (req_get id) = true
        /\ forall self,
             In id (stations_with_data
                      (snd (dl_station_measurements req_get id self)))).
Proof.
  intros Hstatus.
  assert (Hpart : forall pre post,
             no_data_marker = pre ++ content (req_get id) ++ post ->
             data_req_success (req_get id) = false
             /\ forall self, dl_station_measurements req_get id self = (Ok tt, self)).
  { intros pre post E.
    assert (F : data_req_success (req_get id) = false).
    { unfold data_req_success. apply andb_false_intro2.
      apply negb_false_iff. apply bytes_in_spec. now exists pre, post. }
    split; [exact F|]. intros self. now apply process_response_no_data. }
  split; [exact Hpart|]. split.
  - intros E. apply (Hpart EmptyString no_data_marker). now rewrite E.
  - intros pre post E Hmore.
    assert (S : data_req_success (req_get id) = true).
    { unfold data_req_success. rewrite Hstatus, Z.eqb_refl. cbn [andb].
      apply negb_true_iff.
      destruct (bytes_in (content (req_get id)) no_data_marker) eqn:B;
        [|reflexivity].
      apply bytes_in_length in B. rewrite E, !length_append in B.
      assert (L : String.length (pre ++ post) <> 0).
      { destruct (pre ++ post); [now elim Hmore | discriminate]. }
      rewrite length_append in L. lia. }
    split; [exact S|]. intros self. unfold dl_station_measurements.
    rewrite process_response_keys by exact S.
    apply In_add_key. now right.
Qed.

Section StoredPoints.

Variable Q : Point -> Prop.
Hypothesis Q_stored :
  forall container, has_fields container = true -> point_wf container ->
                    Q container.

Lemma points_satisfy_store (id : string) (measurement : RawMeasurement)
  (self : AcoemRequest) :
  points_satisfy Q self ->
  points_satisfy Q (snd (store_measurement id measurement self)).
Proof.
  intros Hinv.
  destruct (store_measurement_cases id measurement self)
    as [->|(dataset & c & G & F & W & ->)]; [exact Hinv|].
  intros id' dataset' point Hin Hpoint. cbn [snd measurement_data] in Hin.
  apply In_dict_set in Hin. destruct Hin as [Hin|[-> ->]].
  - now apply (Hinv id' dataset').
  - apply in_app_iff in Hpoint. destruct Hpoint as [Hpoint|[<-|[]]].
    + apply (Hinv id dataset); [now apply dict_get_In | exact Hpoint].
    + now apply Q_stored.
Qed.

Lemma points_satisfy_process (id : string) (resp : Response)
  (self : AcoemRequest) :
  points_satisfy Q self ->
  points_satisfy Q (snd (process_response id resp self)).
Proof.
  intros Hinv. unfold process_response.
  destruct (data_req_success resp); [|exact Hinv].
  unfold bind at 1. cbn [set_measurement_data].
  assert (Hinv1 : points_satisfy Q
                    (mkAcoemRequest (station_meta self)
                       (dict_set (measurement_data self) id []))).
  { intros id' dataset' point Hin Hpoint. cbn [measurement_data] in Hin.
    apply In_dict_set in Hin. destruct Hin as [Hin|[-> ->]].
    - now apply (Hinv id' dataset').
    - contradiction. }
  unfold bind at 1, lift.
  destruct (json resp) as [measurements|e]; [|exact Hinv1].
  apply for_each_preserves; [|exact Hinv1].
  intros x s _. apply points_satisfy_store.
Qed.

Lemma points_satisfy_reachable (self : AcoemRequest) :
  Reachable self -> points_satisfy Q self.
Proof.
  intros H.
  induction H as [meta|req_get id self _ IH|req_get self _ IH|self _ IH].
  - intros id dataset point [].
  - now apply points_satisfy_process.
  - unfold dl_all_station_measurements.
    apply for_each_preserves; [|exact IH].
    intros id s _. apply points_satisfy_process.
  - intros id dataset point [].
Qed.

End StoredPoints.

(** C6: only containers with fields are stored.  A record whose decoded
    fields mapping is empty leaves the object, and so the dataset and its
    length, unchanged; one iteration of the measurement loop appends at most
    one container, which then has a field; and in every object a run can
    reach, every stored Point has at least one field. *)
Theorem stored_points_have_fields :
  (forall id measurement container self,
      decode_container measurement = Ok container ->
      fields container = [] ->
      snd (store_measurement id measurement self) = self)
  /\ (forall id measurement self,
        measurement_data (snd (store_measurement id measurement self))
        = measurement_data self
        \/ exists dataset container,
             dict_get (measurement_data self) id = Some dataset
             /\ fields container <> []
             /\ measurement_data (snd (store_measurement id measurement self))
                = dict_set (measurement_data self) id
                    (dataset ++ [container])%list)
  /\ (forall self, Reachable self -> points_have_fields self).
Proof.
  split; [|split].
  - intros id m c self Hdec Hempty.
    unfold store_measurement, bind, lift, station_meta_item.
    rewrite Hdec. destruct (dict_item (station_meta self) id) as [meta|e];
      [|reflexivity].
    unfold has_fields, add_metadata. cbn [fields]. now rewrite Hempty.
  - intros id m self.
    destruct (store_measurement_cases id m self)
      as [->|(dataset & c & G & F & _ & ->)]; [now left|].
    right. exists dataset, c. split; [exact G|].
    split; [now apply has_fields_spec | reflexivity].
  - intros self H. unfold points_have_fields.
    apply points_satisfy_reachable; [|exact H].
    intros c F _. now apply has_fields_spec.
Qed.

(** In every object a run can reach, the stored Points hold dictionaries. *)
Lemma reachable_points_wf (self : AcoemRequest) :
  Reachable self -> points_satisfy point_wf self.
Proof.
  apply points_satisfy_reachable. auto.
Qed.

End DownloadProperties.


(** Station 3 answers with a part of the marker, station 4 with the marker
    and a full stop. *)
Lemma no_data_containment_witness :
  status_code (Examples.req_get "station-3") = 200%Z
  /\ data_req_success (Examples.req_get "station-3") = false
  /\ status_code (Examples.req_get "station-4") = 200%Z
  /\ data_req_success (Examples.req_get "station-4") = true
  /\ In "station-4"
       (stations_with_data
          (snd (dl_station_measurements Examples.req_get "station-4"
                  Examples.fresh_object))).
Proof.
  split; [reflexivity|].
  destruct (no_data_test_is_containment Examples.req_get "station-3" eq_refl)
    as (Hpart & _ & _).
  split; [apply (Hpart EmptyString " WAS FOUND FOR YOUR GIVEN PARAMETERS");
          reflexivity|].
  split; [reflexivity|].
  destruct (no_data_test_is_containment Examples.req_get "station-4" eq_refl)
    as (_ & _ & Hmore).
  destruct (Hmore EmptyString ".") as [Hsuccess Hentry];
    [reflexivity | discriminate |].
  split; [exact Hsuccess | apply Hentry].
Defined.

(** The object after the download of station 1. *)
Lemma stored_points_witness :
  Reachable (snd (dl_station_measurements Examples.req_get "station-1"
                    Examples.fresh_object))
  /\ points_have_fields
       (snd (dl_station_measurements Examples.req_get "station-1"
               Examples.fresh_object)).
Proof.
  assert (H : Reachable (snd (dl_station_measurements Examples.req_get
                                "station-1" Examples.fresh_object)))
    by (apply reach_dl_station, reach_init).
  split; [exact H|].
  destruct (@stored_points_have_fields DecimalRuntime.runtime)
    as (_ & _ & Hinv).
  now apply Hinv.
Defined.

(** ** Properties of Schema Inference *)

Lemma filter_filter {A : Type} (f g : A -> bool) (l : list A) :
  filter f (filter g l) = filter (fun x => g x && f x) l.
Proof.
  induction l as [|x l IH]; simpl; [reflexivity|].
  destruct (g x); simpl; [destruct (f x)|]; now rewrite IH.
Qed.

Lemma In_first_seen (l : list string) (x : string) :
  In x (first_seen l) <-> In x l.
Proof.
  induction l as [|a l IH]; simpl; [tauto|].
  rewrite filter_In, IH, negb_true_iff, String.eqb_neq.
  destruct (String.eqb_spec x a) as [->|N]; [tauto|].
  intuition congruence.
Qed.

Lemma NoDup_first_seen (l : list string) : NoDup (first_seen l).
Proof.
  induction l as [|a l IH]; simpl; constructor.
  - rewrite filter_In, String.eqb_refl. now intros [_ H].
  - now apply NoDup_filter.
Qed.

(** The membership loop computes [first_seen], after what was seen before. *)
Lemma fold_add_key (l seen : list string) :
  fold_left add_key l seen
  = (seen ++ filter (fun k => negb (key_in k seen)) (first_seen l))%list.
Proof.
  revert seen. induction l as [|x l IH]; intros seen; simpl.
  - now rewrite app_nil_r.
  - rewrite IH. unfold add_key. destruct (key_in x seen) eqn:E; simpl.
    + f_equal. rewrite filter_filter. apply filter_ext. intros k.
      destruct (String.eqb_spec k x) as [->|N]; simpl; [now rewrite E|reflexivity].
    + rewrite <- app_assoc. simpl. do 2 f_equal.
      rewrite filter_filter. apply filter_ext. intros k.
      rewrite key_in_app. simpl. rewrite orb_false_r, negb_orb.
      apply andb_comm.
Qed.

Lemma fold_add_key_nil (l : list string) :
  fold_left add_key l [] = first_seen l.
Proof.
  rewrite fold_add_key. simpl. clear.
  induction (first_seen l) as [|x r IH]; simpl; [reflexivity | now rewrite IH].
Qed.

Lemma first_seen_app (l1 l2 : list string) :
  first_seen (l1 ++ l2)
  = (first_seen l1
     ++ filter (fun k => negb (key_in k (first_seen l1))) (first_seen l2))%list.
Proof.
  rewrite <- !fold_add_key_nil, fold_left_app, fold_add_key.
  now rewrite !fold_add_key_nil.
Qed.

Section SchemaProperties.

Context {RT : PyRuntime}.

Lemma classify_measurements_fold (measurements : list Point) (keys : Keys) :
  keys_fields (fold_left classify_measurement measurements keys)
  = fold_left add_key
      (flat_map (fun m => dict_keys (fields m)) measurements)
      (keys_fields keys)
  /\ keys_tags (fold_left classify_measurement measurements keys)
     = fold_left add_key
         (flat_map (fun m => dict_keys (tags m)) measurements)
         (keys_tags keys).
Proof.
  revert keys. induction measurements as [|m ms IH]; intros keys; simpl.
  - split; reflexivity.
  - destruct (IH (classify_measurement keys m)) as [-> ->].
    now rewrite !fold_left_app.
Qed.

(** C7: Schema Inference returns, for the fields and for the tags, the keys
    observed across the Points (visited in sequence order, each Point's keys in
    their order), every distinct key exactly once and at the place of its first
    occurrence: the list is [first_seen] of the observed keys, it has no
    duplicate, it holds exactly the observed keys, and a key first observed
    after a run [before] of keys is listed right after the distinct keys of
    [before].  The result is a function of the Point sequence alone. *)
Theorem key_classifications_first_seen (measurements : list Point) :
  let observed_fields := flat_map (fun m => dict_keys (fields m)) measurements in
  let observed_tags := flat_map (fun m => dict_keys (tags m)) measurements in
  let keys := key_classifications measurements in
  (keys_fields keys = first_seen observed_fields
   /\ keys_tags keys = first_seen observed_tags)
  /\ (NoDup (keys_fields keys) /\ NoDup (keys_tags keys))
  /\ (forall k, In k (keys_fields keys)
                <-> exists m, In m measurements /\ In k (dict_keys (fields m)))
  /\ (forall k, In k (keys_tags keys)
                <-> exists m, In m measurements /\ In k (dict_keys (tags m)))
  /\ (forall before k after,
         observed_fields = (before ++ k :: after)%list -> ~ In k before ->
         exists rest,
           keys_fields keys = (first_seen before ++ k :: rest)%list)
  /\ (forall before k after,
         observed_tags = (before ++ k :: after)%list -> ~ In k before ->
         exists rest,
           keys_tags keys = (first_seen before ++ k :: rest)%list)
  /\ (forall self self' id,
         dict_get (measurement_data self) id = Some measurements ->
         dict_get (measurement_data self') id = Some measurements ->
         get_key_classifications self id = Ok keys
         /\ get_key_classifications self' id = Ok keys).
Proof.
  intros observed_fields observed_tags keys.
  assert (Hf : keys_fields keys = first_seen observed_fields).
  { unfold keys, key_classifications.
    rewrite (proj1 (classify_measurements_fold measurements _)).
    apply fold_add_key_nil. }
  assert (Ht : keys_tags keys = first_seen observed_tags).
  { unfold keys, key_classifications.
    rewrite (proj2 (classify_measurements_fold measurements _)).
    apply fold_add_key_nil. }
  assert (Hplace : forall l before k after,
             l = (before ++ k :: after)%list -> ~ In k before ->
             exists rest, first_seen l = (first_seen before ++ k :: rest)%list).
  { intros l before k after -> Hk. rewrite first_seen_app. simpl.
    assert (E : key_in k (first_seen before) = false).
    { apply key_in_not_In. now rewrite In_first_seen. }
    rewrite E. simpl. eexists. reflexivity. }
  split; [now split|]. split.
  { rewrite Hf, Ht. split; apply NoDup_first_seen. }
  split.
  { intros k. rewrite Hf, In_first_seen. unfold observed_fields.
    rewrite in_flat_map. reflexivity. }
  split.
  { intros k. rewrite Ht, In_first_seen. unfold observed_tags.
    rewrite in_flat_map. reflexivity. }
  split.
  { intros before k after E Hk. rewrite Hf. now apply (Hplace _ before k after). }
  split.
  { intros before k after E Hk. rewrite Ht. now apply (Hplace _ before k after). }
  intros self self' id G G'. unfold get_key_classifications, dict_item.
  now rewrite G, G'.
Qed.

End SchemaProperties.

(** The keys of the scenario's Point, seen twice. *)
Lemma key_classifications_witness :
  keys_fields (key_classifications [Examples.point; Examples.point])
  = ["PM25 PreScaled [ug/m3]"; "PM25 Scaled [ug/m3]"; "PM25 Slope [ug/m3]";
     "PM25 Offset [ug/m3]"]
  /\ keys_tags (key_classifications [Examples.point; Examples.point])
     = ["PM25 Flag"; "SerialNumber"].
Proof.
  destruct (key_classifications_first_seen [Examples.point; Examples.point])
    as ((Hfields & Htags) & _).
  split; [exact Hfields | exact Htags].
Defined.

(** ** Properties of the JSON Formatter *)

Lemma find_app {A : Type} (f : A -> bool) (l1 l2 : list A) :
  find f (l1 ++ l2)
  = match find f l1 with
    | Some x => Some x
    | None => find f l2
    end.
Proof.
  induction l1 as [|x l1 IH]; simpl; [reflexivity|].
  now destruct (f x).
Qed.

Lemma find_none_all {A : Type} (f : A -> bool) (l : list A) :
  (forall x, In x l -> f x = false) -> find f l = None.
Proof.
  induction l as [|x l IH]; simpl; intros H; [reflexivity|].
  rewrite (H x (or_introl eq_refl)). apply IH. intros y Hy. apply H. now right.
Qed.

(** The digits of a reversed number, read into an accumulator. *)
Lemma string_of_revapp (d e : Decimal.uint) :
  NilEmpty.string_of_uint (Decimal.revapp d e)
  = NilEmpty.string_of_uint (Decimal.rev d) ++ NilEmpty.string_of_uint e.
Proof.
  revert e. unfold Decimal.rev.
  induction d as [|d IH|d IH|d IH|d IH|d IH|d IH|d IH|d IH|d IH|d IH];
    intros e; cbn [Decimal.revapp];
    [reflexivity | rewrite (IH (_ Decimal.Nil)), IH, append_assoc; reflexivity ..].
Qed.

Lemma to_lu_last_digit (q r : nat) :
  q <> 0 -> r < 10 ->
  NilEmpty.string_of_uint
    (Decimal.rev (DecimalNat.Unsigned.to_lu (r + 10 * q)))
  = NilEmpty.string_of_uint (Decimal.rev (DecimalNat.Unsigned.to_lu q))
    ++ String (digit_char r) EmptyString.
Proof.
  intros Hq Hr.
  assert (E : DecimalNat.Unsigned.to_lu (r + 10 * q)
              = Nat.iter r Decimal.Little.succ
                  (Decimal.D0 (DecimalNat.Unsigned.to_lu q))).
  { rewrite <- (DecimalNat.Unsigned.to_lu_tenfold q Hq).
    clear Hr. induction r as [|r IH]; [reflexivity|].
    change (S r + 10 * q) with (S (r + 10 * q)).
    rewrite DecimalNat.Unsigned.to_lu_succ, IH. reflexivity. }
  rewrite E. clear E.
  do 10 (destruct r as [|r];
         [cbv [Nat.iter nat_rect Decimal.Little.succ];
          match goal with
          | |- context [Decimal.rev (?D (DecimalNat.Unsigned.to_lu q))] =>
              change (Decimal.rev (D (DecimalNat.Unsigned.to_lu q)))
                with (Decimal.revapp (DecimalNat.Unsigned.to_lu q)
                        (D Decimal.Nil));
              rewrite (string_of_revapp (DecimalNat.Unsigned.to_lu q)
                         (D Decimal.Nil))
          end; reflexivity|]).
  lia.
Qed.

Lemma string_of_nat_digit (n : nat) :
  n < 10 -> string_of_nat n = String (digit_char n) EmptyString.
Proof.
  intros H. do 10 (destruct n as [|n]; [reflexivity|]). lia.
Qed.

Lemma string_of_nat_step (n : nat) :
  10 <= n ->
  string_of_nat n
  = string_of_nat (n / 10) ++ String (digit_char (n mod 10)) EmptyString.
Proof.
  intros H.
  assert (Hq : n / 10 <> 0).
  { intros E. apply Nat.div_small_iff in E; lia. }
  assert (Hr : n mod 10 < 10) by (apply Nat.mod_upper_bound; lia).
  assert (Hn : n = n mod 10 + 10 * (n / 10)).
  { rewrite Nat.add_comm. apply Nat.div_mod_eq. }
  assert (Nq : Nat.to_uint (n / 10) <> Decimal.Nil).
  { intros E. apply (f_equal Nat.of_uint) in E.
    rewrite DecimalNat.Unsigned.of_to in E. exact (Hq E). }
  assert (Nn : Nat.to_uint n <> Decimal.Nil).
  { intros E. apply (f_equal Nat.of_uint) in E.
    rewrite DecimalNat.Unsigned.of_to in E. cbn in E. lia. }
  unfold string_of_nat, NilZero.string_of_uint.
  destruct (Nat.to_uint n) eqn:En; [now elim Nn|..];
    destruct (Nat.to_uint (n / 10)) eqn:Eq; try (now elim Nq);
    rewrite <- En, <- Eq, !DecimalNat.Unsigned.to_uint_alt;
    rewrite Hn at 1; now apply to_lu_last_digit.
Qed.

Lemma digits_zero (k : nat) : digits k 0 = zeros k.
Proof.
  induction k as [|k IH]; [reflexivity|].
  cbn [digits]. change (0 / 10) with 0. rewrite IH.
  change (String (digit_char (0 mod 10)) EmptyString) with "0".
  clear IH. induction k as [|k IH]; [reflexivity|].
  cbn [zeros append]. now rewrite IH.
Qed.

Lemma length_digits (k n : nat) : String.length (digits k n) = k.
Proof.
  revert n. induction k as [|k IH]; intros n; [reflexivity|].
  cbn [digits]. rewrite length_append, IH. cbn. lia.
Qed.

Lemma string_of_nat_length (n : nat) : 1 <= String.length (string_of_nat n).
Proof.
  destruct (Nat.lt_ge_cases n 10) as [H|H].
  - now rewrite string_of_nat_digit.
  - rewrite string_of_nat_step, length_append by exact H. cbn. lia.
Qed.

(** A number below [10 ^ k], zero-padded to [k] places, is its [k] digits. *)
Lemma zero_pad_digits (k n : nat) :
  0 < k -> n < 10 ^ k -> zero_pad k n = digits k n.
Proof.
  revert n. induction k as [|k IH]; intros n Hk Hn; [lia|].
  destruct (Nat.lt_ge_cases n 10) as [Hsmall|Hbig].
  - unfold zero_pad. rewrite string_of_nat_digit by exact Hsmall.
    cbn [String.length digits]. rewrite Nat.div_small, Nat.mod_small by exact Hsmall.
    rewrite digits_zero. now replace (S k - 1) with k by lia.
  - destruct k as [|k]; [cbn in Hn; lia|].
    assert (Hq : n / 10 < 10 ^ S k).
    { apply Nat.Div0.div_lt_upper_bound. rewrite Nat.pow_succ_r' in Hn. exact Hn. }
    change (digits (S (S k)) n)
      with (digits (S k) (n / 10) ++ String (digit_char (n mod 10)) EmptyString).
    rewrite <- (IH (n / 10)) by (lia || exact Hq).
    unfold zero_pad. rewrite (string_of_nat_step n Hbig), length_append.
    cbn [String.length]. rewrite <- append_assoc.
    pose proof (string_of_nat_length (n / 10)).
    now replace (S (S k) - (String.length (string_of_nat (n / 10)) + 1))
      with (S k - String.length (string_of_nat (n / 10))) by lia.
Qed.

(** A number of [S k] digits, without padding. *)
Lemma string_of_nat_digits (k n : nat) :
  10 ^ k <= n < 10 ^ S k -> string_of_nat n = digits (S k) n.
Proof.
  revert n. induction k as [|k IH]; intros n [Hlo Hhi].
  - cbn in Hhi. rewrite string_of_nat_digit by lia.
    cbn [digits]. now rewrite Nat.mod_small by lia.
  - assert (Hbig : 10 <= n).
    { rewrite Nat.pow_succ_r' in Hlo. pose proof (Nat.pow_nonzero 10 k). lia. }
    rewrite string_of_nat_step by exact Hbig.
    change (digits (S (S k)) n)
      with (digits (S k) (n / 10) ++ String (digit_char (n mod 10)) EmptyString).
    rewrite IH; [reflexivity|]. split.
    + apply Nat.div_le_lower_bound; [lia|]. rewrite Nat.pow_succ_r' in Hlo. exact Hlo.
    + apply Nat.Div0.div_lt_upper_bound. rewrite (Nat.pow_succ_r' 10 (S k)) in Hhi.
      exact Hhi.
Qed.

(** ** The text of a timestamp *)

Lemma zero_pad_2_digits (n : nat) : n < 100 -> zero_pad 2 n = digits 2 n.
Proof.
  intros H. apply zero_pad_digits; [lia|]. exact H.
Qed.

Lemma string_of_nat_year (y : nat) :
  (1 <= Z.of_nat y <= 9999)%Z -> string_of_nat y = year_text y.
Proof.
  intros H. unfold year_text.
  assert (P1 : 10 ^ 1 = 10) by reflexivity.
  assert (P2 : 10 ^ 2 = 100) by reflexivity.
  assert (P3 : 10 ^ 3 = 1000) by reflexivity.
  assert (P4 : y < 10 ^ 4).
  { apply Nat2Z.inj_lt. rewrite Nat2Z.inj_pow.
    change (Z.of_nat 10 ^ Z.of_nat 4)%Z with 10000%Z. lia. }
  destruct (Nat.ltb_spec y 10) as [H1|H1].
  { apply (string_of_nat_digits 0). cbn [Nat.pow]. lia. }
  destruct (Nat.ltb_spec y 100) as [H2|H2].
  { apply (string_of_nat_digits 1). rewrite P1, P2. lia. }
  destruct (Nat.ltb_spec y 1000) as [H3|H3].
  { apply (string_of_nat_digits 2). rewrite P2, P3. lia. }
  apply (string_of_nat_digits 3). rewrite P3. lia.
Qed.

(** [%z] on an offset of less than a day. *)
Lemma strftime_offset_text (t : datetime) :
  (-86400000000 < utcoffset t < 86400000000)%Z ->
  strftime_offset t = offset_text (utcoffset t).
Proof.
  intros H. unfold strftime_offset, offset_text, offset_sign, offset_hours,
    offset_minutes, offset_seconds, offset_microseconds.
  set (a := Z.abs (utcoffset t)).
  assert (Ha : (0 <= a < 86400000000)%Z) by (unfold a; lia).
  assert (E1 : (a / 1000000 / 60 = a / 60000000)%Z)
    by (rewrite Z.div_div by lia; reflexivity).
  assert (E2 : (a / 1000000 / 60 / 60 = a / 3600000000)%Z)
    by (rewrite !Z.div_div by lia; reflexivity).
  rewrite E2, E1. cbv zeta.
  assert (Hh : Z.to_nat (a / 3600000000) < 100).
  { assert (a / 3600000000 < 24)%Z by (apply Z.div_lt_upper_bound; lia).
    pose proof (Z.div_pos a 3600000000). lia. }
  assert (Hm : Z.to_nat ((a / 60000000) mod 60) < 100).
  { pose proof (Z.mod_pos_bound (a / 60000000) 60). lia. }
  assert (Hs : Z.to_nat ((a / 1000000) mod 60) < 100).
  { pose proof (Z.mod_pos_bound (a / 1000000) 60). lia. }
  assert (Hu : Z.to_nat (a mod 1000000) < 10 ^ 6).
  { pose proof (Z.mod_pos_bound a 1000000). apply Nat2Z.inj_lt.
    rewrite Nat2Z.inj_pow.
    change (Z.of_nat 10 ^ Z.of_nat 6)%Z with 1000000%Z. lia. }
  rewrite !zero_pad_2_digits by assumption.
  rewrite (zero_pad_digits 6) by (lia || exact Hu).
  assert (Tu : Nat.eqb (Z.to_nat (a mod 1000000)) 0 = (a mod 1000000 =? 0)%Z).
  { pose proof (Z.mod_pos_bound a 1000000).
    destruct (Z.eqb_spec (a mod 1000000) 0) as [->|N]; [reflexivity|].
    apply Nat.eqb_neq. lia. }
  assert (Ts : Nat.eqb (Z.to_nat ((a / 1000000) mod 60)) 0
               = ((a / 1000000) mod 60 =? 0)%Z).
  { pose proof (Z.mod_pos_bound (a / 1000000) 60).
    destruct (Z.eqb_spec ((a / 1000000) mod 60) 0) as [->|N]; [reflexivity|].
    apply Nat.eqb_neq. lia. }
  rewrite Tu, Ts.
  destruct (a mod 1000000 =? 0)%Z; cbn [negb].
  - destruct ((a / 1000000) mod 60 =? 0)%Z; cbn [negb];
      rewrite ?append_assoc, ?append_nil_r; reflexivity.
  - rewrite !append_assoc. reflexivity.
Qed.

(** [%Y-%m-%dT%H:%M:%S%z], digit by digit. *)
Lemma strftime_json_text (t : datetime) :
  datetime_valid t -> strftime_json t = timestamp_text t.
Proof.
  intros (Hy & Hmo & Hd & Hh & Hmi & Hs & Hoff).
  unfold strftime_json, strftime_date, strftime_clock, timestamp_text.
  rewrite string_of_nat_year by exact Hy.
  rewrite !zero_pad_2_digits by lia.
  rewrite strftime_offset_text by exact Hoff.
  rewrite !append_assoc. reflexivity.
Qed.

(** With a year of four digits and an offset of whole minutes, the text is
    [YYYY-MM-DDTHH:MM:SS+HHMM]. *)
Lemma timestamp_text_fixed_width (t : datetime) :
  datetime_valid t -> fixed_width t -> timestamp_text t = fixed_width_text t.
Proof.
  intros (Hy & _) [Hyear Hoff].
  unfold timestamp_text, fixed_width_text, year_text, offset_text.
  destruct (Nat.ltb_spec (year t) 10) as [H1|_]; [lia|].
  destruct (Nat.ltb_spec (year t) 100) as [H2|_]; [lia|].
  destruct (Nat.ltb_spec (year t) 1000) as [H3|_]; [lia|].
  assert (Ha : (Z.abs (utcoffset t) mod 60000000 = 0)%Z).
  { destruct (Z.abs_spec (utcoffset t)) as [[_ ->]|[_ ->]]; [exact Hoff|].
    now apply Z.mod_opp_l_z. }
  apply Z.div_exact in Ha; [|lia].
  set (q := (Z.abs (utcoffset t) / 60000000)%Z) in Ha.
  assert (Eu : offset_microseconds (utcoffset t) = 0).
  { unfold offset_microseconds. rewrite Ha.
    replace (60000000 * q)%Z with (60 * q * 1000000)%Z by lia.
    now rewrite Z.mod_mul by lia. }
  assert (Es : offset_seconds (utcoffset t) = 0).
  { unfold offset_seconds. rewrite Ha.
    replace (60000000 * q)%Z with (60 * q * 1000000)%Z by lia.
    rewrite Z.div_mul by lia.
    replace (60 * q)%Z with (q * 60)%Z by lia.
    now rewrite Z.mod_mul by lia. }
  rewrite Eu, Es. cbn [Nat.eqb]. now rewrite append_nil_r.
Qed.

Lemma length_fixed_width_text (t : datetime) :
  String.length (fixed_width_text t) = 24.
Proof.
  unfold fixed_width_text, offset_sign.
  assert (Hsign : String.length (if (utcoffset t <? 0)%Z then "-" else "+") = 1)
    by now destruct (utcoffset t <? 0)%Z.
  rewrite !length_append, !length_digits, Hsign. reflexivity.
Qed.

(** ** A timestamp is read back from its text *)

Lemma append_inj_length (a b c d : string) :
  a ++ b = c ++ d -> String.length a = String.length c -> a = c /\ b = d.
Proof.
  revert c. induction a as [|x a IH]; intros [|y c] E L; simpl in *;
    try discriminate L.
  - auto.
  - injection E as -> E. injection L as L.
    destruct (IH c E L) as [-> ->]. auto.
Qed.

Lemma append_char_inj (c : ascii) (a b : string) :
  String c EmptyString ++ a = String c EmptyString ++ b -> a = b.
Proof.
  cbn [append]. intros E. now injection E.
Qed.

Lemma append_last_inj (a b : string) (x y : ascii) :
  a ++ String x EmptyString = b ++ String y EmptyString -> a = b /\ x = y.
Proof.
  intros E.
  assert (L : String.length a = String.length b).
  { apply (f_equal String.length) in E. rewrite !length_append in E.
    cbn in E. lia. }
  destruct (append_inj_length _ _ _ _ E L) as [-> E'].
  injection E' as ->. auto.
Qed.

Lemma digit_char_inj (a b : nat) :
  a < 10 -> b < 10 -> digit_char a = digit_char b -> a = b.
Proof.
  intros Ha Hb E. unfold digit_char in E.
  apply (f_equal nat_of_ascii) in E.
  rewrite !nat_ascii_embedding in E by lia. lia.
Qed.

Lemma digits_inj (k n m : nat) :
  n < 10 ^ k -> m < 10 ^ k -> digits k n = digits k m -> n = m.
Proof.
  revert n m. induction k as [|k IH]; intros n m Hn Hm E.
  - cbn in Hn, Hm. lia.
  - cbn [digits] in E. apply append_last_inj in E. destruct E as [Eq Er].
    rewrite Nat.pow_succ_r' in Hn, Hm.
    apply IH in Eq; try (apply Nat.Div0.div_lt_upper_bound; assumption).
    apply digit_char_inj in Er; try (apply Nat.mod_upper_bound; lia).
    rewrite (Nat.div_mod_eq n 10), (Nat.div_mod_eq m 10). now rewrite Eq, Er.
Qed.

Lemma count_char_append (c : ascii) (a b : string) :
  count_char c (a ++ b) = count_char c a + count_char c b.
Proof.
  induction a as [|x a IH]; simpl; [reflexivity | rewrite IH; lia].
Qed.

(** No digit is a hyphen. *)
Lemma digits_without_hyphen (k n : nat) : count_char "-" (digits k n) = 0.
Proof.
  revert n. induction k as [|k IH]; intros n; [reflexivity|].
  cbn [digits]. rewrite count_char_append, IH. cbn [count_char].
  pose proof (Nat.mod_upper_bound n 10) as H.
  destruct (n mod 10) as [|[|[|[|[|[|[|[|[|[|r]]]]]]]]]]; try reflexivity.
  lia.
Qed.

(** Two texts that agree are cut at the same place by their first hyphen. *)
Lemma split_at_hyphen (a b r1 r2 : string) :
  count_char "-" a = 0 -> count_char "-" b = 0 ->
  a ++ String "-" r1 = b ++ String "-" r2 -> a = b /\ r1 = r2.
Proof.
  revert b. induction a as [|x a IH]; intros [|y b] Ha Hb E; cbn in *.
  - injection E as ->. auto.
  - injection E as <- _. cbn in Hb. discriminate Hb.
  - injection E as -> _. cbn in Ha. discriminate Ha.
  - injection E as -> E.
    destruct (Ascii.eqb y "-"); [discriminate Ha|].
    destruct (IH b Ha Hb E) as [-> ->]. auto.
Qed.

Lemma year_text_inj (y1 y2 : nat) :
  (1 <= Z.of_nat y1 <= 9999)%Z -> (1 <= Z.of_nat y2 <= 9999)%Z ->
  year_text y1 = year_text y2 -> y1 = y2.
Proof.
  intros H1 H2 E.
  assert (P4 : forall y, (Z.of_nat y <= 9999)%Z -> y < 10 ^ 4).
  { intros y Hy. apply Nat2Z.inj_lt. rewrite Nat2Z.inj_pow.
    change (Z.of_nat 10 ^ Z.of_nat 4)%Z with 10000%Z. lia. }
  assert (L : String.length (year_text y1) = String.length (year_text y2))
    by now rewrite E.
  unfold year_text in *. rewrite !length_digits in L.
  assert (P1 : 10 ^ 1 = 10) by reflexivity.
  assert (P2 : 10 ^ 2 = 100) by reflexivity.
  assert (P3 : 10 ^ 3 = 1000) by reflexivity.
  destruct (Nat.ltb_spec y1 10); [|destruct (Nat.ltb_spec y1 100);
    [|destruct (Nat.ltb_spec y1 1000)]];
  (destruct (Nat.ltb_spec y2 10); [|destruct (Nat.ltb_spec y2 100);
    [|destruct (Nat.ltb_spec y2 1000)]]);
  try discriminate L;
  (eapply digits_inj; [| |exact E]); rewrite ?P1, ?P2, ?P3;
    try lia; apply P4; lia.
Qed.

Lemma offset_parts (a : Z) :
  (0 <= a)%Z ->
  a = (Z.of_nat (Z.to_nat (a / 3600000000)) * 3600000000
       + Z.of_nat (Z.to_nat ((a / 60000000) mod 60)) * 60000000
       + Z.of_nat (Z.to_nat ((a / 1000000) mod 60)) * 1000000
       + Z.of_nat (Z.to_nat (a mod 1000000)))%Z.
Proof.
  intros Ha.
  pose proof (Z.div_pos a 3600000000 Ha ltac:(lia)).
  pose proof (Z.mod_pos_bound (a / 60000000) 60 ltac:(lia)).
  pose proof (Z.mod_pos_bound (a / 1000000) 60 ltac:(lia)).
  pose proof (Z.mod_pos_bound a 1000000 ltac:(lia)).
  rewrite !Z2Nat.id by lia.
  assert (E1 : (a / 1000000 / 60 = a / 60000000)%Z)
    by (rewrite Z.div_div by lia; reflexivity).
  assert (E2 : (a / 60000000 / 60 = a / 3600000000)%Z)
    by (rewrite Z.div_div by lia; reflexivity).
  pose proof (Z.div_mod a 1000000 ltac:(lia)).
  pose proof (Z.div_mod (a / 1000000) 60 ltac:(lia)).
  pose proof (Z.div_mod (a / 60000000) 60 ltac:(lia)).
  rewrite E1 in *. rewrite E2 in *. lia.
Qed.

Lemma offset_text_inj (off1 off2 : Z) :
  (-86400000000 < off1 < 86400000000)%Z ->
  (-86400000000 < off2 < 86400000000)%Z ->
  offset_text off1 = offset_text off2 -> off1 = off2.
Proof.
  intros H1 H2 E.
  assert (B : forall off, (-86400000000 < off < 86400000000)%Z ->
                offset_hours off < 10 ^ 2 /\ offset_minutes off < 10 ^ 2
                /\ offset_seconds off < 10 ^ 2
                /\ offset_microseconds off < 10 ^ 6).
  { intros off H. unfold offset_hours, offset_minutes, offset_seconds,
      offset_microseconds.
    assert (Ha : (0 <= Z.abs off < 86400000000)%Z) by lia.
    assert (Z.abs off / 3600000000 < 24)%Z
      by (apply Z.div_lt_upper_bound; lia).
    pose proof (Z.div_pos (Z.abs off) 3600000000).
    pose proof (Z.mod_pos_bound (Z.abs off / 60000000) 60).
    pose proof (Z.mod_pos_bound (Z.abs off / 1000000) 60).
    pose proof (Z.mod_pos_bound (Z.abs off) 1000000).
    change (10 ^ 2) with 100.
    repeat split; try lia.
    apply Nat2Z.inj_lt. rewrite Nat2Z.inj_pow.
    change (Z.of_nat 10 ^ Z.of_nat 6)%Z with 1000000%Z. lia. }
  destruct (B off1 H1) as (Bh1 & Bm1 & Bs1 & Bu1).
  destruct (B off2 H2) as (Bh2 & Bm2 & Bs2 & Bu2).
  unfold offset_text in E.
  assert (Esign : offset_sign off1 = offset_sign off2
                  /\ digits 2 (offset_hours off1) = digits 2 (offset_hours off2)
                  /\ digits 2 (offset_minutes off1)
                     = digits 2 (offset_minutes off2)
                  /\ (if Nat.eqb (offset_microseconds off1) 0 then
                        if Nat.eqb (offset_seconds off1) 0 then EmptyString
                        else digits 2 (offset_seconds off1)
                      else digits 2 (offset_seconds off1) ++ "."
                           ++ digits 6 (offset_microseconds off1))
                     = (if Nat.eqb (offset_microseconds off2) 0 then
                          if Nat.eqb (offset_seconds off2) 0 then EmptyString
                          else digits 2 (offset_seconds off2)
                        else digits 2 (offset_seconds off2) ++ "."
                             ++ digits 6 (offset_microseconds off2))).
  { apply append_inj_length in E.
    2:{ unfold offset_sign. now destruct (off1 <? 0)%Z, (off2 <? 0)%Z. }
    destruct E as [Es E]. split; [exact Es|].
    apply append_inj_length in E; [|now rewrite !length_digits].
    destruct E as [Eh E]. split; [exact Eh|].
    apply append_inj_length in E; [|now rewrite !length_digits].
    exact E. }
  destruct Esign as (Es & Eh & Em & Et).
  apply digits_inj in Eh; [|assumption..].
  apply digits_inj in Em; [|assumption..].
  assert (Esu : offset_seconds off1 = offset_seconds off2
                /\ offset_microseconds off1 = offset_microseconds off2).
  { destruct (Nat.eqb_spec (offset_microseconds off1) 0) as [U1|U1];
      destruct (Nat.eqb_spec (offset_microseconds off2) 0) as [U2|U2].
    - rewrite U1, U2. split; [|reflexivity].
      destruct (Nat.eqb_spec (offset_seconds off1) 0) as [S1|S1];
        destruct (Nat.eqb_spec (offset_seconds off2) 0) as [S2|S2].
      + now rewrite S1, S2.
      + apply (f_equal String.length) in Et. rewrite length_digits in Et.
        discriminate Et.
      + apply (f_equal String.length) in Et. rewrite length_digits in Et.
        discriminate Et.
      + now apply digits_inj in Et.
    - apply (f_equal String.length) in Et.
      rewrite !length_append, !length_digits in Et.
      destruct (Nat.eqb (offset_seconds off1) 0);
        [|rewrite length_digits in Et]; cbn in Et; lia.
    - apply (f_equal String.length) in Et.
      rewrite !length_append, !length_digits in Et.
      destruct (Nat.eqb (offset_seconds off2) 0);
        [|rewrite length_digits in Et]; cbn in Et; lia.
    - apply append_inj_length in Et; [|now rewrite !length_digits].
      destruct Et as [Esec Et]. apply append_char_inj in Et.
      apply digits_inj in Esec; [|assumption..].
      apply digits_inj in Et; [|assumption..]. auto. }
  destruct Esu as [Esec Eus].
  assert (Eabs : Z.abs off1 = Z.abs off2).
  { rewrite (offset_parts (Z.abs off1)), (offset_parts (Z.abs off2)) by lia.
    unfold offset_hours, offset_minutes, offset_seconds, offset_microseconds
      in Eh, Em, Esec, Eus.
    now rewrite Eh, Em, Esec, Eus. }
  unfold offset_sign in Es.
  destruct (Z.ltb_spec off1 0), (Z.ltb_spec off2 0); try discriminate Es; lia.
Qed.

(** Two valid timestamps with the same text are the same. *)
Lemma timestamp_text_inj (t1 t2 : datetime) :
  datetime_valid t1 -> datetime_valid t2 ->
  timestamp_text t1 = timestamp_text t2 -> t1 = t2.
Proof.
  intros (Hy1 & Hmo1 & Hd1 & Hh1 & Hmi1 & Hs1 & Hoff1)
         (Hy2 & Hmo2 & Hd2 & Hh2 & Hmi2 & Hs2 & Hoff2) E.
  unfold timestamp_text in E.
  apply split_at_hyphen in E;
    [|unfold year_text; apply digits_without_hyphen ..].
  destruct E as [Ey E].
  apply year_text_inj in Ey; [|assumption..].
  assert (P2 : 10 ^ 2 = 100) by reflexivity.
  apply append_inj_length in E; [|now rewrite !length_digits].
  destruct E as [Emo E]. apply append_char_inj in E.
  apply append_inj_length in E; [|now rewrite !length_digits].
  destruct E as [Ed E]. apply append_char_inj in E.
  apply append_inj_length in E; [|now rewrite !length_digits].
  destruct E as [Eh E]. apply append_char_inj in E.
  apply append_inj_length in E; [|now rewrite !length_digits].
  destruct E as [Emi E]. apply append_char_inj in E.
  apply append_inj_length in E; [|now rewrite !length_digits].
  destruct E as [Es E].
  apply digits_inj in Emo; [|rewrite P2; lia ..].
  apply digits_inj in Ed; [|rewrite P2; lia ..].
  apply digits_inj in Eh; [|rewrite P2; lia ..].
  apply digits_inj in Emi; [|rewrite P2; lia ..].
  apply digits_inj in Es; [|rewrite P2; lia ..].
  apply offset_text_inj in E; [|assumption..].
  destruct t1, t2. cbn in *. now subst.
Qed.

Lemma NoDup_map_keys {A B C : Type} (f : A -> B) (g : A -> C) (l : list A) :
  (forall x y, In x l -> In y l -> g x = g y -> f x = f y) ->
  NoDup (map f l) -> NoDup (map g l).
Proof.
  induction l as [|a l IH]; intros H Hnd; cbn [map]; constructor.
  - intros Hin. apply in_map_iff in Hin. destruct Hin as (y & E & Hy).
    inversion Hnd as [|? ? Hnot _]; subst. apply Hnot.
    apply in_map_iff. exists y. split; [|exact Hy].
    apply H; [now right | now left | exact E].
  - inversion Hnd; subst. apply IH; [|assumption].
    intros x y Hx Hy. apply H; now right.
Qed.

Section JsonProperties.

Context {RT : PyRuntime}.

Lemma json_fold_keys (l : list Point) (d : dict JsonContainer) :
  dict_keys (fold_left json_add l d)
  = fold_left add_key (map json_key l) (dict_keys d).
Proof.
  revert d. induction l as [|m l IH]; intros d; simpl; [reflexivity|].
  rewrite IH. unfold json_add. now rewrite dict_keys_set.
Qed.

Lemma json_fold_get (l : list Point) (d : dict JsonContainer) (k : string) :
  dict_get (fold_left json_add l d) k
  = match find (fun m => String.eqb (json_key m) k) (rev l) with
    | Some m => Some (json_container m)
    | None => dict_get d k
    end.
Proof.
  revert d. induction l as [|m l IH]; intros d; simpl; [reflexivity|].
  rewrite IH, find_app.
  destruct (find _ (rev l)) as [x|]; [reflexivity|]. simpl.
  unfold json_add. fold (json_key m). fold (json_container m).
  destruct (String.eqb_spec (json_key m) k) as [->|N].
  - apply dict_get_set_same.
  - now apply dict_get_set_other.
Qed.

(** C8 (as amended): for a station's dataset, the JSON Formatter returns a
    mapping
    - whose keys are the Points' timestamps as [%Y-%m-%dT%H:%M:%S%z] prints
      them, in the reverse of the stored order, each once: for a timestamp
      whose components are in the ranges a [datetime] keeps them in, digit
      by digit, the year on the digits it has, the month, the day, the hour,
      the minute and the second on two digits each, then the offset as
      [+HHMM], followed by its seconds, and by its microseconds, when it has
      some; for a year of four digits and an offset of whole minutes this is
      [YYYY-MM-DDTHH:MM:SS+HHMM], of 24 characters;
    - where each key is mapped to the record whose [Data] is the fields
      mapping and whose [Status] is the tags mapping of the Point processed
      last among those with this timestamp, which is the first one in stored
      order;
    - with exactly one entry per Point when the timestamps are distinct:
      the keys are distinct then, since a timestamp is read back from its
      text. *)
Theorem format_as_json_contract (self : AcoemRequest) (id : string)
  (measurements : list Point) :
  dict_get (measurement_data self) id = Some measurements ->
  exists json_measurements,
    format_as_json self id = Ok json_measurements
    /\ dict_keys json_measurements
       = first_seen (map json_key (rev measurements))
    /\ (forall m, In m measurements -> datetime_valid (time m) ->
          json_key m = timestamp_text (time m))
    /\ (forall m, In m measurements -> datetime_valid (time m) ->
          fixed_width (time m) ->
          json_key m = fixed_width_text (time m)
          /\ String.length (json_key m) = 24)
    /\ (forall timestamp,
          dict_get json_measurements timestamp
          = option_map json_container
              (find (fun m => String.eqb (json_key m) timestamp) measurements))
    /\ (forall timestamp container,
          In (timestamp, container) json_measurements ->
          exists m, In m measurements /\ timestamp = json_key m
                    /\ Data container = fields m
                    /\ Status container = tags m)
    /\ (forall stored_before m stored_after,
          measurements = (stored_before ++ m :: stored_after)%list ->
          (forall m', In m' stored_before -> json_key m' <> json_key m) ->
          dict_get json_measurements (json_key m)
          = Some (mkJsonContainer (fields m) (tags m)))
    /\ (NoDup (map json_key measurements) ->
        List.length json_measurements = List.length measurements
        /\ map fst json_measurements = map json_key (rev measurements)
        /\ map snd json_measurements = map json_container (rev measurements))
    /\ (forall m1 m2, In m1 measurements -> In m2 measurements ->
          datetime_valid (time m1) -> datetime_valid (time m2) ->
          json_key m1 = json_key m2 -> time m1 = time m2)
    /\ ((forall m, In m measurements -> datetime_valid (time m)) ->
        NoDup (map time measurements) ->
        List.length json_measurements = List.length measurements).
Proof.
  intros G.
  exists (fold_left json_add (rev measurements) []).
  assert (Hget : forall timestamp,
             dict_get (fold_left json_add (rev measurements) []) timestamp
             = option_map json_container
                 (find (fun m => String.eqb (json_key m) timestamp) measurements)).
  { intros ts. rewrite json_fold_get, rev_involutive.
    now destruct (find _ measurements). }
  assert (Hkeys : dict_keys (fold_left json_add (rev measurements) [])
                  = first_seen (map json_key (rev measurements))).
  { rewrite json_fold_keys. apply fold_add_key_nil. }
  split.
  { unfold format_as_json, dict_item. now rewrite G. }
  split; [exact Hkeys|]. split.
  { intros m _ Hvalid. now apply strftime_json_text. }
  split.
  { intros m _ Hvalid Hfixed. unfold json_key.
    rewrite strftime_json_text, timestamp_text_fixed_width by assumption.
    split; [reflexivity | apply length_fixed_width_text]. }
  split; [exact Hget|]. split.
  { intros ts c Hin.
    assert (Hnd : NoDup (dict_keys (fold_left json_add (rev measurements) []))).
    { rewrite Hkeys. apply NoDup_first_seen. }
    assert (Hc : dict_get (fold_left json_add (rev measurements) []) ts = Some c).
    { revert Hnd Hin. generalize (fold_left json_add (rev measurements) []).
      intros d. induction d as [|[k v] d IH]; simpl; [contradiction|].
      intros Hnd [E|Hin].
      - injection E as -> ->. now rewrite String.eqb_refl.
      - inversion Hnd as [|? ? Hk Hnd']; subst.
        destruct (String.eqb_spec k ts) as [->|N].
        + elim Hk. apply (in_map fst) in Hin. exact Hin.
        + now apply IH. }
    rewrite Hget in Hc.
    destruct (find _ measurements) as [m|] eqn:F; [|discriminate].
    injection Hc as <-. apply find_some in F. destruct F as [Hm E].
    apply String.eqb_eq in E. exists m. now repeat split. }
  split.
  { intros pre m post -> Hpre. rewrite Hget, find_app.
    assert (F : find (fun m0 => String.eqb (json_key m0) (json_key m)) pre = None).
    { apply find_none_all. intros x Hx. apply String.eqb_neq.
      now apply Hpre. }
    rewrite F. simpl. now rewrite String.eqb_refl. }
  assert (Hcount :
            NoDup (map json_key measurements) ->
            List.length (fold_left json_add (rev measurements) [])
            = List.length measurements
            /\ map fst (fold_left json_add (rev measurements) [])
               = map json_key (rev measurements)
            /\ map snd (fold_left json_add (rev measurements) [])
               = map json_container (rev measurements));
    [|split; [exact Hcount|]; split;
      [intros m1 m2 _ _ V1 V2 E; unfold json_key in E;
       rewrite !strftime_json_text in E by assumption;
       now apply timestamp_text_inj
      |intros Hvalid Hnd; apply Hcount;
       apply (NoDup_map_keys time json_key); [|exact Hnd];
       intros x y Hx Hy E; unfold json_key in E;
       rewrite !strftime_json_text in E by (now apply Hvalid);
       apply timestamp_text_inj; auto]].
  intros Hnd.
  assert (Hnd' : NoDup (map json_key (rev measurements))).
  { rewrite map_rev. now apply NoDup_rev. }
  assert (Hall : forall l d,
             NoDup (dict_keys d ++ map json_key l) ->
             fold_left json_add l d
             = (d ++ map (fun m => (json_key m, json_container m)) l)%list).
  { clear. induction l as [|m l IH]; intros d Hnd; simpl.
    - now rewrite app_nil_r.
    - assert (Hfresh : ~ In (json_key m) (dict_keys d)).
      { intros H. simpl in Hnd. apply NoDup_remove_2 in Hnd.
        apply Hnd. apply in_app_iff. now left. }
      unfold json_add at 2. fold (json_key m). fold (json_container m).
      rewrite (dict_set_fresh d _ _ Hfresh), IH.
      + now rewrite <- app_assoc.
      + unfold dict_keys. rewrite map_app. simpl.
        rewrite <- app_assoc. exact Hnd. }
  rewrite (Hall (rev measurements) []) by exact Hnd'. simpl.
  rewrite !map_map, length_map, length_rev. simpl.
  split; [reflexivity|]. split; reflexivity.
Qed.

End JsonProperties.

(** The JSON of the scenario's dataset. *)
Lemma format_as_json_witness :
  dict_get (measurement_data Examples.scenario_object) Examples.station
  = Some [Examples.point]
  /\ json_key Examples.point = "2021-06-01T00:00:00+0000"
  /\ exists json_measurements,
       format_as_json Examples.scenario_object Examples.station
       = Ok json_measurements
       /\ dict_keys json_measurements = ["2021-06-01T00:00:00+0000"]
       /\ dict_get json_measurements "2021-06-01T00:00:00+0000"
          = Some (mkJsonContainer (fields Examples.point)
                    (tags Examples.point)).
Proof.
  split; [reflexivity|].
  destruct (format_as_json_contract Examples.scenario_object Examples.station
              [Examples.point] eq_refl)
    as (json_measurements & Hjson & Hkeys & _ & Hfixed & Hget & _).
  split.
  - destruct (Hfixed Examples.point (or_introl eq_refl)) as [Htext _].
    + unfold datetime_valid. cbn. lia.
    + split; [cbn; lia | reflexivity].
    + rewrite Htext. reflexivity.
  - exists json_measurements. split; [exact Hjson|].
    split; [exact Hkeys | apply Hget].
Defined.

(** C8 as stated fails for a year below 1000 and for an offset with seconds.
    The record stamped 0999-06-01T00:00:00+0000 is stored with the year 999,
    and its key is 999-06-01T00:00:00+0000, of 23 characters, the year on
    three digits; the key of a Point at the offset +01:30:15 is
    2021-06-01T00:00:00+013015, of 26 characters.  Neither is of the form
    [YYYY-MM-DDTHH:MM:SS+HHMM]. *)
Lemma format_as_json_counterexample :
  let req_get := fun _ : string =>
    mkResponse 200 "[...]" (Ok [Examples.record_year_999]) in
  let self := snd (dl_station_measurements req_get Examples.station
                     Examples.fresh_object) in
  measurement_data self = [(Examples.station, [Examples.point_year_999])]
  /\ format_as_json self Examples.station
     = Ok [("999-06-01T00:00:00+0000",
            mkJsonContainer (fields Examples.point) (tags Examples.point))]
  /\ String.length (json_key Examples.point_year_999) = 23
  /\ json_key Examples.point_year_999
     <> fixed_width_text (time Examples.point_year_999)
  /\ format_as_json
       (mkAcoemRequest [] [(Examples.station, [Examples.point_offset_seconds])])
       Examples.station
     = Ok [("2021-06-01T00:00:00+013015",
            mkJsonContainer (fields Examples.point) (tags Examples.point))]
  /\ String.length (json_key Examples.point_offset_seconds) = 26
  /\ json_key Examples.point_offset_seconds
     <> fixed_width_text (time Examples.point_offset_seconds).
Proof.
  intros req_get self.
  split; [reflexivity|]. split; [reflexivity|]. split; [reflexivity|].
  split.
  { intros E. apply (f_equal String.length) in E.
    rewrite length_fixed_width_text in E. vm_compute in E. discriminate E. }
  split; [reflexivity|]. split; [reflexivity|].
  intros E. apply (f_equal String.length) in E.
  rewrite length_fixed_width_text in E. vm_compute in E. discriminate E.
Qed.

(** ** Properties of the CSV Formatter *)

Lemma map_result_ok {A B : Type} (f : A -> result B) (g : A -> B)
  (l : list A) :
  (forall x, In x l -> f x = Ok (g x)) -> map_result f l = Ok (map g l).
Proof.
  induction l as [|x l IH]; intros H; simpl; [reflexivity|].
  rewrite (H x (or_introl eq_refl)). simpl.
  rewrite IH; [reflexivity|]. intros y Hy. apply H. now right.
Qed.

Lemma concat_empty_cons (x : string) (xs : list string) :
  String.concat EmptyString (x :: xs) = x ++ String.concat EmptyString xs.
Proof.
  destruct xs; cbn [String.concat]; [now rewrite append_nil_r | reflexivity].
Qed.

Section CsvProperties.

Context {RT : PyRuntime}.

Lemma dict_get_float_values (d : dict pyfloat) (k : string) :
  dict_get (float_values d) k = option_map PFloat (dict_get d k).
Proof.
  induction d as [|[k0 v0] d IH]; simpl; [reflexivity|].
  now destruct (String.eqb k0 k).
Qed.

Lemma dict_keys_float_values (d : dict pyfloat) :
  dict_keys (float_values d) = dict_keys d.
Proof.
  unfold dict_keys, float_values. rewrite map_map. reflexivity.
Qed.

Lemma combined_values_get (point : Point) (key : string) :
  NoDup (dict_keys (fields point)) ->
  NoDup (dict_keys (tags point)) ->
  dict_get (combined_values point) key
  = match dict_get (tags point) key with
    | Some v => Some v
    | None => option_map PFloat (dict_get (fields point) key)
    end.
Proof.
  intros Hf Ht. unfold combined_values.
  rewrite dict_get_update by exact Ht.
  rewrite dict_get_update by (now rewrite dict_keys_float_values).
  rewrite dict_get_float_values. simpl.
  now destruct (dict_get (fields point) key).
Qed.

Lemma csv_cell_ok (point : Point) (key : string) :
  NoDup (dict_keys (fields point)) ->
  NoDup (dict_keys (tags point)) ->
  csv_cell point key = Ok (cell_rule point key).
Proof.
  intros Hf Ht. unfold csv_cell, cell_rule, dict_item.
  rewrite (combined_values_get point key Hf Ht).
  destruct (key_in key (dict_keys (combined_values point))) eqn:Hin.
  - apply key_in_In, dict_get_In_keys in Hin. destruct Hin as [v Hv].
    rewrite (combined_values_get point key Hf Ht) in Hv.
    destruct (key_in key (dict_keys (fields point))) eqn:Hfield; simpl.
    + apply key_in_In, dict_get_In_keys in Hfield. destruct Hfield as [f Hfl].
      rewrite Hfl. now destruct (dict_get (tags point) key).
    + apply key_in_not_In, dict_get_None in Hfield. rewrite Hfield in *.
      destruct (dict_get (tags point) key); [reflexivity | discriminate].
  - simpl. apply key_in_not_In, dict_get_None in Hin.
    rewrite (combined_values_get point key Hf Ht) in Hin.
    destruct (dict_get (tags point) key); [discriminate|].
    destruct (dict_get (fields point) key); [discriminate | reflexivity].
Qed.

Lemma csv_cells_ok (point : Point) (columns : list string) (csv_raw : string) :
  NoDup (dict_keys (fields point)) ->
  NoDup (dict_keys (tags point)) ->
  fold_result (csv_add_cell point) columns csv_raw
  = Ok (csv_raw
        ++ String.concat EmptyString
             (map (fun key => ", " ++ cell_rule point key) columns)).
Proof.
  intros Hf Ht. revert csv_raw.
  induction columns as [|key columns IH]; intros csv_raw.
  - cbn. now rewrite append_nil_r.
  - cbn [fold_result map]. rewrite concat_empty_cons.
    unfold csv_add_cell at 1. rewrite (csv_cell_ok point key Hf Ht).
    cbn [rbind]. rewrite IH. now rewrite !append_assoc.
Qed.

Lemma csv_rows_ok (columns : list string) (points : list Point)
  (csv_raw : string) :
  (forall point, In point points ->
     NoDup (dict_keys (fields point)) /\ NoDup (dict_keys (tags point))) ->
  fold_result (csv_row columns) points csv_raw
  = Ok (csv_raw ++ String.concat EmptyString (map (row_rule columns) points)).
Proof.
  revert csv_raw. induction points as [|point points IH]; intros csv_raw H.
  - cbn. now rewrite append_nil_r.
  - destruct (H point (or_introl eq_refl)) as [Hf Ht].
    cbn [fold_result map]. rewrite concat_empty_cons.
    unfold csv_row at 1. rewrite (csv_cells_ok point columns _ Hf Ht).
    cbn [rbind]. rewrite IH by (intros p Hp; apply H; now right).
    unfold row_rule. now rewrite !append_assoc.
Qed.

End CsvProperties.

Section CsvFormat.

Context {RT : PyRuntime}.

Lemma variables_measured_NoDup (keys : Keys) :
  NoDup (dict_keys (variables_measured keys)).
Proof.
  unfold variables_measured.
  assert (H : forall l (d : dict string),
             NoDup (dict_keys d) ->
             NoDup (dict_keys (fold_left register_variable l d))).
  { induction l as [|field l IH]; intros d Hd; simpl; [exact Hd|].
    apply IH. unfold register_variable.
    destruct (negb _); [now apply dict_set_NoDup | exact Hd]. }
  apply H. constructor.
Qed.

Lemma header_columns_ok (variables : dict string) (variable unit : string) :
  dict_get variables variable = Some unit ->
  map_result (header_column variables variable) measurement_order
  = Ok (variable_columns variable unit).
Proof.
  intros G. unfold measurement_order, header_column, dict_item.
  cbn [map_result key_in existsb String.eqb Ascii.eqb Bool.eqb negb orb].
  rewrite G. reflexivity.
Qed.

(** The header: [Timestamp], the five columns of every variable, in the
    order of the variables, then the extra tags. *)
Lemma csv_header_ok (keys : Keys) :
  csv_header keys
  = Ok ("Timestamp"
        :: flat_map (fun kv => variable_columns (fst kv) (snd kv))
             (variables_measured keys)
        ++ extra_tags keys)%list.
Proof.
  unfold csv_header.
  pose proof (variables_measured_NoDup keys) as Hnd.
  set (vm := variables_measured keys) in *.
  rewrite (map_result_ok _
             (fun variable =>
                variable_columns variable
                  (match dict_get vm variable with
                   | Some unit => unit
                   | None => EmptyString
                   end))).
  - cbn [rbind]. do 3 f_equal. rewrite flat_map_concat_map. f_equal.
    unfold dict_keys. rewrite map_map. apply map_ext_in.
    intros [variable unit] Hin. cbn [fst snd].
    now rewrite (dict_get_NoDup_In vm variable unit Hnd Hin).
  - intros variable Hin. apply dict_get_In_keys in Hin.
    destruct Hin as [unit G]. rewrite G. now apply header_columns_ok.
Qed.

(** What [format_as_csv] computes: the header line followed by one line per
    Point, in the reverse of the stored order; the line of a Point is its
    timestamp followed, for every column after [Timestamp], by [", "] and the
    cell of the column's key: empty when the key is in neither mapping of the
    Point, the field's value unquoted when the key is in the fields only, the
    tag's value in double quotes when the key is in the tags only.  For a key
    of both mappings the branch of the fields is taken, and what it reads
    from the merged mapping is the tag's value. *)
Lemma csv_cell_rule_per_row_and_column (self : AcoemRequest) (id : string)
  (keys : Keys) (measurements : list Point) :
  dict_get (measurement_data self) id = Some measurements ->
  (forall point, In point measurements -> point_wf point) ->
  exists columns,
    csv_header keys = Ok ("Timestamp" :: columns)
    /\ format_as_csv self id keys
       = Ok (String.concat ", " ("Timestamp" :: columns) ++ newline
             ++ String.concat EmptyString
                  (map (row_rule columns) (rev measurements)))
    /\ (forall point key, In point measurements -> In key columns ->
          csv_cell point key = Ok (cell_rule point key))
    /\ (forall point key,
          (~ In key (dict_keys (fields point)) ->
           ~ In key (dict_keys (tags point)) ->
           cell_rule point key = EmptyString)
          /\ (forall f, dict_get (fields point) key = Some f ->
                        ~ In key (dict_keys (tags point)) ->
                        cell_rule point key = float_str f)
          /\ (forall v, ~ In key (dict_keys (fields point)) ->
                        dict_get (tags point) key = Some v ->
                        cell_rule point key = dquote ++ py_str v ++ dquote)
          /\ (forall f v, dict_get (fields point) key = Some f ->
                          dict_get (tags point) key = Some v ->
                          cell_rule point key = py_str v)).
Proof.
  intros G Hwf. eexists. split; [apply csv_header_ok|].
  split; [|split].
  - unfold format_as_csv, dict_item. rewrite G. cbn [rbind].
    rewrite csv_header_ok. cbn [rbind].
    rewrite csv_rows_ok.
    + now rewrite join_comma_space_concat, append_assoc.
    + intros point Hin. apply Hwf. now apply in_rev.
  - intros point key Hin _. destruct (Hwf point Hin) as [Hf Ht].
    now apply csv_cell_ok.
  - intros point key. unfold cell_rule. repeat split.
    + intros Hf Ht. apply dict_get_None in Hf, Ht. now rewrite Hf, Ht.
    + intros f Hf Ht. apply dict_get_None in Ht. now rewrite Hf, Ht.
    + intros v Hf Ht. apply dict_get_None in Hf. now rewrite Hf, Ht.
    + intros f v Hf Ht. now rewrite Hf, Ht.
Qed.

End CsvFormat.

(** The CSV of the object after the download of station 1. *)
Lemma csv_cell_rule_witness :
  let self := snd (dl_station_measurements Examples.req_get Examples.station
                     Examples.fresh_object) in
  dict_get (measurement_data self) Examples.station = Some [Examples.point]
  /\ format_as_csv self Examples.station
       (key_classifications [Examples.point])
     = Ok (scenario_header ++ newline ++ scenario_row ++ newline).
Proof.
  intros self. split; [reflexivity|].
  destruct (csv_cell_rule_per_row_and_column self Examples.station
              (key_classifications [Examples.point]) [Examples.point])
    as (columns & Hheader & Hcsv & _).
  - reflexivity.
  - intros point Hin.
    apply (reachable_points_wf self
             (reach_dl_station _ _ _ (reach_init _))
             Examples.station [Examples.point]);
      [left; reflexivity | exact Hin].
  - rewrite Hcsv. injection Hheader as <-. vm_compute. reflexivity.
Defined.

(** C1: the code against the cell rule, at a key that is in both mappings.
    The station metadata holds the key of the Scaled field,
    [PM25 Scaled [ug/m3]], with the value "n/a"; the stored Point then has
    Scaled = 9.5 among its fields and "n/a" among its tags.  The rule asks for
    the field's value, 9.5, in that column.  [format_as_csv] takes the branch
    of the fields (no quotes) and reads the merged mapping, in which the tag
    has replaced the field: the cell is n/a, neither the field's value nor a
    quoted tag, while the tag of the next column, which is in the tags only,
    is quoted. *)
Theorem csv_cell_of_key_in_both_mappings :
  let self := snd (dl_station_measurements Examples.req_get Examples.station
                     Examples.colliding_object) in
  measurement_data self = [(Examples.station, [Examples.colliding_point])]
  /\ dict_get (fields Examples.colliding_point) "PM25 Scaled [ug/m3]"
     = Some Examples.nine_and_half
  /\ dict_get (tags Examples.colliding_point) "PM25 Scaled [ug/m3]"
     = Some (PStr "n/a")
  /\ float_str Examples.nine_and_half = "9.5"
  /\ csv_cell Examples.colliding_point "PM25 Scaled [ug/m3]" = Ok "n/a"
  /\ csv_cell Examples.colliding_point "PM25 Scaled [ug/m3]"
     <> Ok (float_str Examples.nine_and_half)
  /\ csv_cell Examples.colliding_point "SerialNumber"
     = Ok (dquote ++ "ABC123" ++ dquote)
  /\ format_as_csv self Examples.station
       (key_classifications [Examples.colliding_point])
     = Ok (scenario_header ++ newline
           ++ "2021-06-01 00:00:00, 10.0, n/a, " ++ dquote ++ "Valid" ++ dquote
           ++ ", 1.0, 0.1, " ++ dquote ++ "ABC123" ++ dquote ++ newline).
Proof.
  intros self.
  split; [reflexivity|]. split; [reflexivity|]. split; [reflexivity|].
  split; [reflexivity|]. split; [reflexivity|]. split.
  - intros E. apply (f_equal (fun r => match r with
                                        | Ok s => String.eqb s "n/a"
                                        | Raise _ => false
                                        end)) in E.
    vm_compute in E. discriminate E.
  - split; [reflexivity|]. vm_compute. reflexivity.
Qed.

(** C2 (as amended): for the dataset that holds the one Point decoded from the
    scenario's record, whose four values print as 10.0, 9.5, 1.0 and 0.1, the
    CSV is the header line
    [Timestamp, PM25 PreScaled [ug/m3], PM25 Scaled [ug/m3], PM25 Flag,
    PM25 Slope [ug/m3], PM25 Offset [ug/m3], SerialNumber], with the unit in
    the brackets of the field keys, followed by the data row
    [2021-06-01 00:00:00, 10.0, 9.5, "Valid", 1.0, 0.1, "ABC123"], each ended
    by a newline; and that Point is what the decoder makes of the record and
    the station metadata. *)
Theorem csv_scenario_output {RT : PyRuntime}
  (v_prescaled v_scaled v_slope v_offset : pyfloat)
  (self : AcoemRequest) (id : string) :
  float_str v_prescaled = "10.0" ->
  float_str v_scaled = "9.5" ->
  float_str v_slope = "1.0" ->
  float_str v_offset = "0.1" ->
  strptime "2021-06-01T00:00:00+0000" = Some scenario_time ->
  dict_get (measurement_data self) id
  = Some [scenario_point v_prescaled v_scaled v_slope v_offset] ->
  rbind (decode_container
           (scenario_record v_prescaled v_scaled v_slope v_offset))
    (fun container => Ok (add_metadata container scenario_metadata))
  = Ok (scenario_point v_prescaled v_scaled v_slope v_offset)
  /\ exists keys,
       get_key_classifications self id = Ok keys
       /\ format_as_csv self id keys
          = Ok (scenario_header ++ newline ++ scenario_row ++ newline).
Proof.
  intros H1 H2 H3 H4 Htime G. split.
  - unfold decode_container, scenario_record, strptime_result.
    cbn [TBTimestamp]. rewrite Htime. reflexivity.
  - exists (key_classifications
              [scenario_point v_prescaled v_scaled v_slope v_offset]).
    split.
    + unfold get_key_classifications, dict_item. now rewrite G.
    + unfold format_as_csv, dict_item. rewrite G. cbn [rbind].
      clear G Htime self id. destruct RT as [pf foi fos fstr sptime].
      cbn [float_str pyfloat] in *. vm_compute.
      rewrite H1, H2, H3, H4. reflexivity.
Qed.

(** The scenario in the decimal runtime. *)
Lemma csv_scenario_witness :
  format_as_csv Examples.scenario_object Examples.station
    (key_classifications [Examples.point])
  = Ok (scenario_header ++ newline ++ scenario_row ++ newline).
Proof.
  destruct (csv_scenario_output Examples.ten Examples.nine_and_half
              Examples.one Examples.one_tenth Examples.scenario_object
              Examples.station eq_refl eq_refl eq_refl eq_refl eq_refl eq_refl)
    as (_ & keys & Hkeys & Hcsv).
  injection Hkeys as <-. exact Hcsv.
Defined.

(** C2 as stated fails on the header line: the scenario's CSV does not start
    with the header the specification gives, whose units have no brackets,
    and so differs from that header followed by the data row. *)
Lemma csv_scenario_counterexample :
  exists csv,
    format_as_csv Examples.scenario_object Examples.station
      (key_classifications [Examples.point])
    = Ok csv
    /\ String.prefix scenario_header_claimed csv = false
    /\ csv <> scenario_header_claimed ++ newline ++ scenario_row ++ newline.
Proof.
  eexists. split; [vm_compute; reflexivity|].
  split; [vm_compute; reflexivity|].
  intros E. apply String.eqb_eq in E. vm_compute in E. discriminate E.
Qed.

(** ** Properties of [dl_station_measurements] beyond the decoder *)

Lemma dict_set_set {V : Type} (d : dict V) (k : string) (v v' : V) :
  dict_set (dict_set d k v) k v' = dict_set d k v'.
Proof.
  induction d as [|[k0 v0] d IH]; simpl.
  - now rewrite String.eqb_refl.
  - destruct (String.eqb k0 k) eqn:E; simpl; rewrite E; [reflexivity|].
    now rewrite IH.
Qed.

Section DatasetProperties.

Context {RT : PyRuntime}.

(** The loop over the records, from an object whose list for the station is
    [dataset]. *)
Lemma for_each_store_measurement (id : string)
  (measurements : list RawMeasurement) (meta : dict (dict pyval))
  (data : dict (list Point)) (dataset : list Point) :
  for_each measurements (store_measurement id)
    (mkAcoemRequest meta (dict_set data id dataset))
  = (snd (stored_points (dict_get meta id) measurements),
     mkAcoemRequest meta
       (dict_set data id
          (dataset ++ fst (stored_points (dict_get meta id) measurements))%list)).
Proof.
  revert dataset. induction measurements as [|m ms IH]; intros dataset.
  - cbn. now rewrite app_nil_r.
  - cbn [for_each stored_points]. unfold bind at 1.
    unfold store_measurement at 1, decode_point.
    unfold bind, lift, station_meta_item, dict_item.
    cbn [station_meta measurement_data].
    destruct (decode_container m) as [c|e]; cbn [rbind].
    2:{ cbn. now rewrite app_nil_r. }
    destruct (dict_get meta id) as [station|] eqn:G.
    2:{ cbn. now rewrite app_nil_r. }
    destruct (has_fields (add_metadata c station)) eqn:F.
    + unfold append_measurement, bind, measurement_data_item, dict_item.
      cbn [measurement_data]. rewrite dict_get_set_same.
      unfold set_measurement_data. cbn [station_meta measurement_data].
      rewrite dict_set_set, IH, ?G.
      destruct (stored_points (Some station) ms) as [points r].
      cbn [fst snd]. now rewrite <- app_assoc.
    + unfold ret. rewrite IH, ?G.
      now destruct (stored_points (Some station) ms) as [points r].
Qed.

Lemma process_response_closed_form (id : string) (resp : Response)
  (self : AcoemRequest) :
  data_req_success resp = true ->
  process_response id resp self
  = match json resp with
    | Raise e =>
        (Raise e,
         mkAcoemRequest (station_meta self)
           (dict_set (measurement_data self) id []))
    | Ok measurements =>
        let (points, r) :=
          stored_points (dict_get (station_meta self) id) measurements in
        (r, mkAcoemRequest (station_meta self)
              (dict_set (measurement_data self) id points))
    end.
Proof.
  intros S. unfold process_response. rewrite S.
  unfold bind at 1. cbn [set_measurement_data].
  unfold bind at 1, lift.
  destruct (json resp) as [measurements|e]; [|reflexivity].
  rewrite for_each_store_measurement. cbn [app].
  now destruct (stored_points _ measurements).
Qed.

(** X1: what a successful request does to the object: the station's list is
    replaced (whatever it held) by the Points of the records that have a
    field, in the order of the response, up to the first record that fails
    to decode, whose error is raised; when the body does not decode, the
    station is left with an empty list and the error is raised.  The
    metadata and the position of the station among the keys are kept. *)
Theorem dl_station_measurements_closed_form (req_get : string -> Response)
  (id : string) (self : AcoemRequest) :
  data_req_success (req_get id) = true ->
  dl_station_measurements req_get id self
  = match json (req_get id) with
    | Raise e =>
        (Raise e,
         mkAcoemRequest (station_meta self)
           (dict_set (measurement_data self) id []))
    | Ok measurements =>
        let (points, r) :=
          stored_points (dict_get (station_meta self) id) measurements in
        (r, mkAcoemRequest (station_meta self)
              (dict_set (measurement_data self) id points))
    end.
Proof.
  intros S. unfold dl_station_measurements.
  now apply process_response_closed_form.
Qed.

Lemma stored_points_all (meta : option (dict pyval))
  (measurements : list RawMeasurement) (points : list Point) :
  map_result (decode_point meta) measurements = Ok points ->
  stored_points meta measurements = (filter has_fields points, Ok tt).
Proof.
  revert points. induction measurements as [|m ms IH]; intros points; simpl.
  - intros E. injection E as <-. reflexivity.
  - destruct (decode_point meta m) as [p|e]; cbn [rbind]; [|discriminate].
    destruct (map_result (decode_point meta) ms) as [ps|e]; cbn [rbind];
      [|discriminate].
    intros E. injection E as <-. rewrite (IH ps eq_refl). simpl.
    now destruct (has_fields p).
Qed.

Lemma stored_points_failure (meta : option (dict pyval))
  (before after : list RawMeasurement) (measurement : RawMeasurement)
  (points : list Point) (e : exn) :
  map_result (decode_point meta) before = Ok points ->
  decode_point meta measurement = Raise e ->
  stored_points meta (before ++ measurement :: after)
  = (filter has_fields points, Raise e).
Proof.
  revert points. induction before as [|m ms IH]; intros points; simpl.
  - intros E H. injection E as <-. now rewrite H.
  - destruct (decode_point meta m) as [p|e']; cbn [rbind]; [|discriminate].
    destruct (map_result (decode_point meta) ms) as [ps|e']; cbn [rbind];
      [|discriminate].
    intros E H. injection E as <-. rewrite (IH ps eq_refl H). simpl.
    now destruct (has_fields p).
Qed.

(** X2: when the request succeeds and every record decodes, the station's
    dataset is exactly the decoded Points that have a field, in the order of
    the response, and the call returns. *)
Theorem dl_station_measurements_dataset (req_get : string -> Response)
  (id : string) (self : AcoemRequest)
  (measurements : list RawMeasurement) (points : list Point) :
  data_req_success (req_get id) = true ->
  json (req_get id) = Ok measurements ->
  map_result (decode_point (dict_get (station_meta self) id)) measurements
  = Ok points ->
  dl_station_measurements req_get id self
  = (Ok tt, mkAcoemRequest (station_meta self)
              (dict_set (measurement_data self) id
                 (filter has_fields points)))
  /\ dict_get
       (measurement_data (snd (dl_station_measurements req_get id self))) id
     = Some (filter has_fields points).
Proof.
  intros S J D.
  assert (E : dl_station_measurements req_get id self
              = (Ok tt, mkAcoemRequest (station_meta self)
                          (dict_set (measurement_data self) id
                             (filter has_fields points)))).
  { unfold dl_station_measurements.
    rewrite process_response_closed_form by exact S.
    rewrite J. now rewrite (stored_points_all _ _ _ D). }
  split; [exact E|]. rewrite E. cbn [snd measurement_data].
  apply dict_get_set_same.
Qed.

(** X3: when a record fails to decode, the call raises the error of the
    first such record; the station's dataset then holds the Points of the
    records before it and nothing of the records after it. *)
Theorem dl_station_measurements_failure (req_get : string -> Response)
  (id : string) (self : AcoemRequest)
  (before after : list RawMeasurement) (measurement : RawMeasurement)
  (points : list Point) (e : exn) :
  data_req_success (req_get id) = true ->
  json (req_get id) = Ok (before ++ measurement :: after)%list ->
  map_result (decode_point (dict_get (station_meta self) id)) before
  = Ok points ->
  decode_point (dict_get (station_meta self) id) measurement = Raise e ->
  dl_station_measurements req_get id self
  = (Raise e, mkAcoemRequest (station_meta self)
                (dict_set (measurement_data self) id
                   (filter has_fields points))).
Proof.
  intros S J D F. unfold dl_station_measurements.
  rewrite process_response_closed_form by exact S.
  rewrite J. now rewrite (stored_points_failure _ _ _ _ _ _ D F).
Qed.

Lemma dl_station_measurements_shape (req_get : string -> Response)
  (id : string) (self : AcoemRequest) :
  snd (dl_station_measurements req_get id self) = self
  \/ exists dataset,
       snd (dl_station_measurements req_get id self)
       = mkAcoemRequest (station_meta self)
           (dict_set (measurement_data self) id dataset).
Proof.
  destruct (data_req_success (req_get id)) eqn:S.
  - right. unfold dl_station_measurements.
    rewrite process_response_closed_form by exact S.
    destruct (json (req_get id)) as [ms|e]; [|now exists []].
    destruct (stored_points _ ms) as [points r]. now exists points.
  - left. unfold dl_station_measurements.
    now rewrite process_response_no_data.
Qed.

Lemma dl_station_measurements_meta (req_get : string -> Response)
  (id : string) (self : AcoemRequest) :
  station_meta (snd (dl_station_measurements req_get id self))
  = station_meta self.
Proof.
  destruct (dl_station_measurements_shape req_get id self)
    as [->|[dataset ->]]; reflexivity.
Qed.

(** X4: a call for one station, returning or raising, never changes the
    metadata nor the dataset of another station; and a second call with the
    same answer leaves the object as the first call left it. *)
Theorem dl_station_measurements_frame (req_get : string -> Response)
  (id : string) (self : AcoemRequest) :
  let self' := snd (dl_station_measurements req_get id self) in
  station_meta self' = station_meta self
  /\ (forall other, other <> id ->
        dict_get (measurement_data self') other
        = dict_get (measurement_data self) other)
  /\ dl_station_measurements req_get id self'
     = dl_station_measurements req_get id self.
Proof.
  intros self'.
  destruct (dl_station_measurements_shape req_get id self) as [E|[dataset E]];
    subst self'; rewrite E.
  - repeat split; reflexivity.
  - cbn [station_meta measurement_data].
    split; [reflexivity|]. split.
    { intros other N. apply dict_get_set_other. congruence. }
    destruct (data_req_success (req_get id)) eqn:S.
    + unfold dl_station_measurements.
      rewrite !process_response_closed_form by exact S.
      cbn [station_meta measurement_data].
      destruct (json (req_get id)) as [ms|e]; rewrite ?dict_set_set;
        [|reflexivity].
      destruct (stored_points _ ms) as [points r].
      now rewrite dict_set_set.
    + unfold dl_station_measurements in *.
      rewrite (process_response_no_data id _ self S) in *.
      cbn [snd] in E. now rewrite <- E, process_response_no_data.
Qed.

End DatasetProperties.

(** ** Properties of the metadata download *)

Lemma filter_all {A : Type} (f : A -> bool) (l : list A) :
  (forall x, In x l -> f x = true) -> filter f l = l.
Proof.
  induction l as [|x l IH]; simpl; intros H; [reflexivity|].
  rewrite (H x (or_introl eq_refl)). f_equal. apply IH.
  intros y Hy. apply H. now right.
Qed.

Lemma list_remove_filter (l : list string) (x : string) :
  NoDup l -> list_remove l x = filter (fun y => negb (String.eqb y x)) l.
Proof.
  induction 1 as [|y l Hy Hnd IH]; simpl; [reflexivity|].
  destruct (String.eqb_spec y x) as [->|N]; simpl.
  - symmetry. apply filter_all. intros z Hz.
    apply negb_true_iff, String.eqb_neq. intros ->. contradiction.
  - now rewrite IH.
Qed.

Lemma remove_key_filter (l : list string) (key : string) :
  NoDup l -> remove_key l key = filter (fun y => negb (String.eqb y key)) l.
Proof.
  intros Hnd. unfold remove_key. destruct (key_in key l) eqn:E.
  - now apply list_remove_filter.
  - symmetry. apply filter_all. intros z Hz.
    apply negb_true_iff, String.eqb_neq. intros ->.
    apply key_in_not_In in E. contradiction.
Qed.

(** The three removals leave the keys that are not location keys, in their
    order. *)
Lemma remove_location_keys (l : list string) :
  NoDup l ->
  fold_left remove_key keys_to_remove l
  = filter (fun k => negb (key_in k keys_to_remove)) l.
Proof.
  intros Hnd. unfold keys_to_remove. cbn [fold_left].
  rewrite (remove_key_filter l "Latitude") by exact Hnd.
  rewrite (remove_key_filter (filter _ l) "Longitude")
    by (now apply NoDup_filter).
  rewrite (remove_key_filter (filter _ (filter _ l)) "Altitude")
    by (now do 2 apply NoDup_filter).
  rewrite !filter_filter. apply filter_ext. intros k.
  unfold key_in. cbn [existsb]. rewrite orb_false_r, !negb_orb.
  now rewrite andb_assoc.
Qed.

Lemma In_dict_keys_update {V : Type} (d1 d2 : dict V) (k : string) :
  In k (dict_keys (dict_update d1 d2))
  <-> In k (dict_keys d1) \/ In k (dict_keys d2).
Proof.
  unfold dict_update. revert d1.
  induction d2 as [|[k2 v2] d2 IH]; intros d1; simpl; [tauto|].
  rewrite IH, dict_keys_set, In_add_key. intuition congruence.
Qed.

Lemma In_dict_update {V : Type} (d1 d2 : dict V) (k : string) (v : V) :
  In (k, v) (dict_update d1 d2) -> In (k, v) d1 \/ In (k, v) d2.
Proof.
  unfold dict_update. revert d1.
  induction d2 as [|[k2 v2] d2 IH]; intros d1; simpl; [tauto|].
  intros H. apply IH in H. destruct H as [H|H]; [|tauto].
  apply In_dict_set in H. destruct H as [H|[-> ->]]; tauto.
Qed.

Section MetadataProperties.

Context {RT : PyRuntime}.

(** The copy of the kept keys, from a station whose list under [id] is
    [meta]. *)
Lemma copy_meta_keys (station : dict pyval) (id : string)
  (keys : list string) (stations : dict (dict pyval))
  (data : dict (list Point)) (meta : dict pyval) :
  (forall k, In k keys -> In k (dict_keys station)) ->
  for_each keys (copy_meta_key station id)
    (mkAcoemRequest (dict_set stations id meta) data)
  = (Ok tt,
     mkAcoemRequest
       (dict_set stations id
          (fold_left
             (fun m k => match dict_get station k with
                         | Some v => dict_set m k v
                         | None => m
                         end) keys meta))
       data).
Proof.
  revert meta. induction keys as [|k keys IH]; intros meta Hin; [reflexivity|].
  cbn [for_each fold_left]. unfold bind at 1.
  unfold copy_meta_key at 1, bind, lift, dict_item, station_meta_item.
  cbn [station_meta].
  destruct (proj1 (dict_get_In_keys station k) (Hin k (or_introl eq_refl)))
    as [v G].
  rewrite G. cbv beta iota. cbn [station_meta]. unfold dict_item.
  rewrite dict_get_set_same.
  unfold set_station_meta at 1.
  cbn [station_meta measurement_data]. rewrite dict_set_set.
  apply IH. intros k' Hk'. apply Hin. now right.
Qed.

Lemma copy_fold (station : dict pyval) (P : string -> bool) :
  forall (rest acc : dict pyval),
    (forall kv, In kv rest -> dict_get station (fst kv) = Some (snd kv)) ->
    NoDup (dict_keys acc ++ dict_keys rest) ->
    fold_left
      (fun m k => match dict_get station k with
                  | Some v => dict_set m k v
                  | None => m
                  end)
      (filter P (dict_keys rest)) acc
    = (acc ++ filter (fun kv => P (fst kv)) rest)%list.
Proof.
  induction rest as [|[k v] rest IH]; intros acc Hget Hnd; simpl.
  - now rewrite app_nil_r.
  - assert (Hrest : forall kv, In kv rest ->
                      dict_get station (fst kv) = Some (snd kv))
      by (intros kv H; apply Hget; now right).
    simpl in Hnd. destruct (P k); simpl.
    + pose proof (Hget (k, v) (or_introl eq_refl)) as G.
      cbn [fst snd] in G. rewrite G.
      rewrite dict_set_fresh.
      * rewrite IH; [now rewrite <- app_assoc | exact Hrest |].
        unfold dict_keys. rewrite map_app, <- app_assoc. exact Hnd.
      * apply NoDup_remove_2 in Hnd. intros H. apply Hnd.
        apply in_app_iff. now left.
    + apply IH; [exact Hrest|]. now apply NoDup_remove_1 in Hnd.
Qed.

(** One station record: under its id, all its entries but the location
    ones, in their order and with their values; a record without "UniqueId"
    raises [KeyError] and stores nothing. *)
Lemma store_station_meta_closed_form (station : dict pyval)
  (self : AcoemRequest) :
  NoDup (dict_keys station) ->
  store_station_meta station self
  = match station_unique_id station with
    | Ok id =>
        (Ok tt,
         mkAcoemRequest
           (dict_set (station_meta self) id (station_metadata station))
           (measurement_data self))
    | Raise e => (Raise e, self)
    end.
Proof.
  intros Hnd. unfold store_station_meta, bind at 1, lift.
  destruct (station_unique_id station) as [id|e]; [|reflexivity].
  unfold bind at 1, set_station_meta at 1.
  rewrite remove_location_keys by exact Hnd.
  rewrite copy_meta_keys.
  - rewrite (copy_fold station _ station []).
    + reflexivity.
    + intros [k v] Hin. now apply dict_get_NoDup_In.
    + exact Hnd.
  - intros k Hk. now apply filter_In in Hk.
Qed.

Lemma for_each_store_station_meta (stations : list (dict pyval))
  (ids : list string) (self : AcoemRequest) :
  Forall2 (fun station id =>
             NoDup (dict_keys station)
             /\ dict_get station "UniqueId" = Some (PStr id))
    stations ids ->
  for_each stations store_station_meta self
  = (Ok tt,
     mkAcoemRequest
       (dict_update (station_meta self)
          (combine ids (map station_metadata stations)))
       (measurement_data self)).
Proof.
  intros H. revert self.
  induction H as [|station id stations ids [Hnd Hid] _ IH]; intros self.
  - now destruct self.
  - cbn [for_each]. unfold bind.
    rewrite store_station_meta_closed_form by exact Hnd.
    unfold station_unique_id, dict_item. rewrite Hid. cbn [rbind].
    rewrite IH. reflexivity.
Qed.

(** X5: the metadata download stores, for every station record in order and
    under the record's id, the record without its Latitude, Longitude and
    Altitude entries, the other entries in their order and with their
    values; a later record with the same id replaces an earlier one. *)
Theorem dl_station_meta_closed_form (stations : list (dict pyval))
  (ids : list string) (self : AcoemRequest) :
  Forall2 (fun station id =>
             NoDup (dict_keys station)
             /\ dict_get station "UniqueId" = Some (PStr id))
    stations ids ->
  dl_station_meta (Ok stations) self
  = (Ok tt,
     mkAcoemRequest
       (dict_update (station_meta self)
          (combine ids (map station_metadata stations)))
       (measurement_data self)).
Proof.
  intros H. unfold dl_station_meta, bind, lift.
  now apply for_each_store_station_meta.
Qed.

(** X6: a station record without the key "UniqueId" stops the metadata
    download with [KeyError]: the records before it are stored, the record
    itself and those after it are not. *)
Theorem dl_station_meta_missing_id (before after : list (dict pyval))
  (ids : list string) (station : dict pyval) (self : AcoemRequest) :
  Forall2 (fun station id =>
             NoDup (dict_keys station)
             /\ dict_get station "UniqueId" = Some (PStr id))
    before ids ->
  ~ In "UniqueId" (dict_keys station) ->
  dl_station_meta (Ok (before ++ station :: after)%list) self
  = (Raise KeyError,
     mkAcoemRequest
       (dict_update (station_meta self)
          (combine ids (map station_metadata before)))
       (measurement_data self)).
Proof.
  intros H Hmissing. unfold dl_station_meta, bind, lift.
  rewrite for_each_app. unfold bind.
  rewrite (for_each_store_station_meta before ids self H).
  cbn [for_each]. unfold bind.
  unfold store_station_meta, bind, lift, station_unique_id, dict_item.
  apply dict_get_None in Hmissing. now rewrite Hmissing.
Qed.

Lemma station_metadata_without_location (station : dict pyval) (key : string) :
  In key location_keys -> ~ In key (dict_keys (station_metadata station)).
Proof.
  intros Hkey Hin. unfold dict_keys, station_metadata in Hin.
  apply in_map_iff in Hin. destruct Hin as ([k v] & <- & Hin).
  apply filter_In in Hin. destruct Hin as [_ Hk]. cbn [fst] in Hk.
  apply negb_true_iff, key_in_not_In in Hk. now apply Hk.
Qed.

Lemma store_station_meta_without_location (station : dict pyval)
  (self : AcoemRequest) :
  NoDup (dict_keys station) ->
  metadata_without_location self ->
  metadata_without_location (snd (store_station_meta station self)).
Proof.
  intros Hnd Hinv. rewrite store_station_meta_closed_form by exact Hnd.
  destruct (station_unique_id station) as [id|e]; [|exact Hinv].
  intros id' meta Hin key Hkey. cbn [snd station_meta] in Hin.
  apply In_dict_set in Hin. destruct Hin as [Hin|[-> ->]].
  - now apply (Hinv id' meta).
  - now apply station_metadata_without_location.
Qed.

Lemma dl_station_meta_invariants
  (meta_raw : result (list (dict pyval))) (self : AcoemRequest) :
  (forall stations, meta_raw = Ok stations ->
     Forall (fun station => NoDup (dict_keys station)) stations) ->
  metadata_without_location self ->
  metadata_without_location (snd (dl_station_meta meta_raw self))
  /\ measurement_data (snd (dl_station_meta meta_raw self))
     = measurement_data self.
Proof.
  intros Hwf Hinv. unfold dl_station_meta, bind, lift.
  destruct meta_raw as [stations|e]; [|auto].
  specialize (Hwf stations eq_refl). rewrite Forall_forall in Hwf.
  apply (for_each_preserves
           (fun s => metadata_without_location s
                     /\ measurement_data s = measurement_data self));
    [|auto].
  intros station s Hin [Hs Es]. split.
  - apply store_station_meta_without_location; [now apply Hwf | exact Hs].
  - rewrite store_station_meta_closed_form by (now apply Hwf).
    now destruct (station_unique_id station).
Qed.

(** X7: whatever the station records hold and however the download ends, no
    metadata stored by the download has a Latitude, Longitude or Altitude
    entry, and the measurements are left as they were. *)
Theorem dl_station_meta_without_location
  (meta_raw : result (list (dict pyval))) (self : AcoemRequest) :
  (forall stations, meta_raw = Ok stations ->
     Forall (fun station => NoDup (dict_keys station)) stations) ->
  metadata_without_location self ->
  metadata_without_location (snd (dl_station_meta meta_raw self))
  /\ measurement_data (snd (dl_station_meta meta_raw self))
     = measurement_data self.
Proof.
  apply dl_station_meta_invariants.
Qed.

End MetadataProperties.

(** ** Properties of the formatters and of the stations with data *)

Lemma fold_result_total {A B : Type} (step : B -> A -> result B)
  (l : list A) :
  (forall acc x, In x l -> exists acc', step acc x = Ok acc') ->
  forall acc, exists r, fold_result step l acc = Ok r.
Proof.
  induction l as [|x l IH]; intros H acc; simpl; [now exists acc|].
  destruct (H acc x (or_introl eq_refl)) as [acc' ->]. simpl.
  apply IH. intros a y Hy. apply H. now right.
Qed.

Section FormatterProperties.

Context {RT : PyRuntime}.

(** A cell never raises: a key found among the keys of the merged mapping
    has a value there. *)
Lemma csv_cell_total (point : Point) (key : string) :
  exists cell, csv_cell point key = Ok cell.
Proof.
  unfold csv_cell, dict_item.
  destruct (key_in key (dict_keys (combined_values point))) eqn:Hin.
  - apply key_in_In, dict_get_In_keys in Hin. destruct Hin as [v ->].
    destruct (key_in key (dict_keys (fields point))); cbn; eauto.
  - cbn. eauto.
Qed.

(** X8: the three methods that read a station's dataset raise [KeyError]
    for a station that has no entry in [measurement_data], and return for a
    station that has one, whatever its Points and whatever the [keys] handed
    to the CSV Formatter. *)
Theorem formatters_raise_only_without_entry (self : AcoemRequest)
  (id : string) :
  (dict_get (measurement_data self) id = None ->
   get_key_classifications self id = Raise KeyError
   /\ format_as_json self id = Raise KeyError
   /\ forall keys, format_as_csv self id keys = Raise KeyError)
  /\ (forall measurements,
        dict_get (measurement_data self) id = Some measurements ->
        (exists keys, get_key_classifications self id = Ok keys)
        /\ (exists json_measurements,
              format_as_json self id = Ok json_measurements)
        /\ forall keys, exists csv, format_as_csv self id keys = Ok csv).
Proof.
  split.
  - intros G. unfold get_key_classifications, format_as_json, format_as_csv,
      dict_item. rewrite G. auto.
  - intros measurements G.
    unfold get_key_classifications, format_as_json, format_as_csv, dict_item.
    rewrite G. cbn [rbind]. split; [eauto|]. split; [eauto|].
    intros keys. rewrite csv_header_ok. cbn [rbind].
    apply fold_result_total. intros csv_raw point _. unfold csv_row.
    destruct (fold_result_total (csv_add_cell point)
                (flat_map (fun kv => variable_columns (fst kv) (snd kv))
                   (variables_measured keys) ++ extra_tags keys)%list)
      with (acc := csv_raw ++ strftime_csv (time point)) as [r ->].
    + intros acc key _. unfold csv_add_cell.
      destruct (csv_cell_total point key) as [cell ->]. cbn. eauto.
    + cbn. eauto.
Qed.

(** X9: a station whose request succeeds but none of whose records has a
    field (an empty list of records, or records with no location and no
    available channel) still gets an entry and is counted among the stations
    with data; its dataset is empty, it has no key, its CSV is the header
    line [Timestamp] alone and its JSON mapping has no entry. *)
Theorem station_without_fields_outputs (req_get : string -> Response)
  (id : string) (self : AcoemRequest)
  (measurements : list RawMeasurement) (points : list Point) :
  data_req_success (req_get id) = true ->
  json (req_get id) = Ok measurements ->
  map_result (decode_point (dict_get (station_meta self) id)) measurements
  = Ok points ->
  (forall point, In point points -> fields point = []) ->
  let self' := snd (dl_station_measurements req_get id self) in
  In id (stations_with_data self')
  /\ dict_get (measurement_data self') id = Some []
  /\ get_key_classifications self' id = Ok (mkKeys [] [])
  /\ format_as_csv self' id (mkKeys [] []) = Ok ("Timestamp" ++ newline)
  /\ format_as_json self' id = Ok [].
Proof.
  intros S J D Hempty self'.
  assert (F : filter has_fields points = []).
  { clear D. induction points as [|p ps IH]; [reflexivity|]. simpl.
    assert (E : has_fields p = false).
    { unfold has_fields, dict_keys.
      now rewrite (Hempty p (or_introl eq_refl)). }
    rewrite E. apply IH. intros q Hq. apply Hempty. now right. }
  assert (G : dict_get (measurement_data self') id = Some []).
  { subst self'. unfold dl_station_measurements.
    rewrite process_response_closed_form by exact S.
    rewrite J, (stored_points_all _ _ _ D), F. cbn [snd measurement_data].
    apply dict_get_set_same. }
  split.
  { apply dict_get_In_keys. now exists []. }
  split; [exact G|].
  unfold get_key_classifications, format_as_json, format_as_csv, dict_item.
  rewrite G. repeat split; reflexivity.
Qed.

(** X10: when the download loop of a day returns, the stations with data
    are, after those that had an entry before, the stations whose request
    succeeded, each once and in the order of their first request. *)
Theorem stations_with_data_after_download (req_get : string -> Response)
  (stations : list string) (self : AcoemRequest) :
  fst (download_day req_get stations self) = Ok tt ->
  stations_with_data (snd (download_day req_get stations self))
  = fold_left add_key
      (filter (fun id => data_req_success (req_get id)) stations)
      (stations_with_data self)
  /\ (measurement_data self = [] ->
      stations_with_data (snd (download_day req_get stations self))
      = first_seen (filter (fun id => data_req_success (req_get id)) stations)).
Proof.
  intros Hok.
  assert (E : stations_with_data (snd (download_day req_get stations self))
              = fold_left add_key
                  (filter (fun id => data_req_success (req_get id)) stations)
                  (stations_with_data self)).
  { revert self Hok. unfold download_day.
    induction stations as [|id stations IH]; intros self Hok; [reflexivity|].
    cbn [for_each filter] in *. unfold bind in *.
    pose proof (process_response_keys id (req_get id) self) as Hkeys.
    pose proof (process_response_no_data id (req_get id) self) as Hnone.
    unfold dl_station_measurements at 1 in Hok.
    unfold dl_station_measurements at 1.
    destruct (process_response id (req_get id) self) as [[u|e] self1];
      [|discriminate Hok].
    cbn [snd] in Hkeys. rewrite (IH self1 Hok).
    destruct (data_req_success (req_get id)).
    - cbn [fold_left]. now rewrite Hkeys.
    - specialize (Hnone eq_refl). inversion Hnone. reflexivity. }
  split; [exact E|].
  intros Hempty. rewrite E. unfold stations_with_data. rewrite Hempty.
  apply fold_add_key_nil.
Qed.

End FormatterProperties.

(** ** Location keys are fields, never tags *)

Lemma append_eq_length_split (a b c d : string) :
  a ++ b = c ++ d -> String.length b = String.length d -> a = c /\ b = d.
Proof.
  revert c. induction a as [|x a IH]; intros [|y c] E L; simpl in E.
  - auto.
  - exfalso. rewrite E in L. simpl in L. rewrite length_append in L. lia.
  - exfalso. rewrite <- E in L. simpl in L. rewrite length_append in L. lia.
  - injection E as -> E. destruct (IH c E L) as [-> ->]. auto.
Qed.

Section LocationProperties.

Context {RT : PyRuntime}.

Lemma flag_key_not_location (channel : Channel) (key : string) :
  In key location_keys -> flag_key channel <> key.
Proof.
  unfold flag_key. intros [<-|[<-|[<-|[]]]] E.
  - apply (append_eq_length_split _ _ "Lat" "itude") in E; [|reflexivity].
    destruct E as [_ E]. discriminate E.
  - apply (append_eq_length_split _ _ "Long" "itude") in E; [|reflexivity].
    destruct E as [_ E]. discriminate E.
  - apply (append_eq_length_split _ _ "Alt" "itude") in E; [|reflexivity].
    destruct E as [_ E]. discriminate E.
Qed.

Lemma set_tag_no_location (c : Point) (channel : Channel) (v : pyval) :
  no_location_tag c -> no_location_tag (set_tag c (flag_key channel) v).
Proof.
  intros H key Hkey. cbn [tags set_tag]. rewrite dict_keys_set, In_add_key.
  intros [Hin|E]; [now apply (H key)|].
  now apply (flag_key_not_location channel key).
Qed.

Lemma decode_channel_no_location (container container' : Point)
  (channel : Channel) :
  no_location_tag container ->
  decode_channel container channel = Ok container' ->
  no_location_tag container'.
Proof.
  intros Hc. unfold decode_channel, decode_flags.
  destruct (is_not_none (PreScaled channel)).
  - destruct (fold_result _ measurement_types container) as [c|e] eqn:F;
      cbn [rbind]; [|discriminate].
    assert (Hc' : no_location_tag c).
    { revert F. apply fold_result_preserves; [|exact Hc].
      intros acc mt acc' Hacc. unfold decode_measurement_type.
      destruct (channel_item channel mt) as [v|]; cbn [rbind]; [|discriminate].
      destruct (py_float v) as [f|]; cbn [rbind]; [|discriminate].
      intros E. injection E as <-. exact Hacc. }
    destruct (key_in "Valid" (Flags channel)).
    + intros E. injection E as <-. now apply set_tag_no_location.
    + destruct (flag_string (Flags channel)); cbn [rbind]; [|discriminate].
      intros E. injection E as <-. now apply set_tag_no_location.
  - intros E. injection E as <-. exact Hc.
Qed.

(** The tags the decoder writes are flag tags, none a location key. *)
Lemma decode_container_no_location (measurement : RawMeasurement)
  (container : Point) :
  decode_container measurement = Ok container -> no_location_tag container.
Proof.
  unfold decode_container.
  destruct (strptime_result (TBTimestamp measurement)) as [t|];
    cbn [rbind]; [|discriminate].
  destruct (fold_result (decode_location measurement) location_keys _)
    as [c|] eqn:L; cbn [rbind]; [|discriminate].
  assert (Hc : no_location_tag c).
  { revert L. apply fold_result_preserves; [|intros key _ []].
    intros acc key acc' Hacc. unfold decode_location.
    destruct (measurement_item measurement key) as [v|]; cbn [rbind];
      [|discriminate].
    destruct (is_not_none v).
    - destruct (py_float v) as [f|]; cbn [rbind]; [|discriminate].
      intros E. injection E as <-. exact Hacc.
    - intros E. injection E as <-. exact Hacc. }
  apply fold_result_preserves; [|exact Hc].
  intros acc channel acc' Hacc. now apply decode_channel_no_location.
Qed.

Lemma decode_point_ok (meta : dict pyval) (measurement : RawMeasurement)
  (point : Point) :
  (forall key, In key location_keys -> ~ In key (dict_keys meta)) ->
  decode_point (Some meta) measurement = Ok point ->
  has_fields point = true ->
  stored_point_ok point.
Proof.
  intros Hmeta. unfold decode_point.
  destruct (decode_container measurement) as [c|e] eqn:D; cbn [rbind];
    [|discriminate].
  intros E F. injection E as <-.
  split; [now apply has_fields_spec|]. split.
  - apply add_metadata_wf. now apply decode_container_wf in D.
  - intros key Hkey. cbn [tags add_metadata]. rewrite In_dict_keys_update.
    intros [H|H].
    + now apply (decode_container_no_location _ _ D key).
    + now apply (Hmeta key).
Qed.

Lemma stored_points_ok (meta : option (dict pyval))
  (measurements : list RawMeasurement) :
  (forall station, meta = Some station ->
     forall key, In key location_keys -> ~ In key (dict_keys station)) ->
  Forall stored_point_ok (fst (stored_points meta measurements)).
Proof.
  intros Hmeta. induction measurements as [|m ms IH]; simpl; [constructor|].
  destruct (decode_point meta m) as [p|e] eqn:D; [|constructor].
  destruct (stored_points meta ms) as [points r]. cbn [fst] in *.
  destruct (has_fields p) eqn:F; [|exact IH].
  constructor; [|exact IH].
  destruct meta as [station|].
  - now apply (decode_point_ok station m p (Hmeta station eq_refl)).
  - unfold decode_point in D.
    destruct (decode_container m); cbn in D; discriminate.
Qed.

Lemma metadata_lookup_without_location (self : AcoemRequest) (id : string) :
  metadata_without_location self ->
  forall station, dict_get (station_meta self) id = Some station ->
    forall key, In key location_keys -> ~ In key (dict_keys station).
Proof.
  intros H station G. apply (H id station). now apply dict_get_In.
Qed.

Lemma dl_station_measurements_ok (req_get : string -> Response)
  (id : string) (self : AcoemRequest) :
  metadata_without_location self ->
  points_satisfy stored_point_ok self ->
  points_satisfy stored_point_ok
    (snd (dl_station_measurements req_get id self)).
Proof.
  intros Hmeta Hinv.
  destruct (data_req_success (req_get id)) eqn:S.
  - unfold dl_station_measurements.
    rewrite process_response_closed_form by exact S.
    pose proof (stored_points_ok (dict_get (station_meta self) id)) as Hok.
    destruct (json (req_get id)) as [ms|e].
    + specialize (Hok ms (metadata_lookup_without_location self id Hmeta)).
      destruct (stored_points _ ms) as [points r]. cbn [fst snd] in *.
      intros id' dataset point Hin Hpoint. cbn [measurement_data] in Hin.
      apply In_dict_set in Hin. destruct Hin as [Hin|[-> ->]].
      * now apply (Hinv id' dataset).
      * rewrite Forall_forall in Hok. now apply Hok.
    + cbn [snd]. intros id' dataset point Hin Hpoint.
      cbn [measurement_data] in Hin.
      apply In_dict_set in Hin. destruct Hin as [Hin|[-> ->]].
      * now apply (Hinv id' dataset).
      * contradiction.
  - unfold dl_station_measurements.
    now rewrite process_response_no_data.
Qed.

Lemma download_day_ok (req_get : string -> Response)
  (stations : list string) (self : AcoemRequest) :
  metadata_without_location self ->
  points_satisfy stored_point_ok self ->
  station_meta (snd (download_day req_get stations self)) = station_meta self
  /\ points_satisfy stored_point_ok (snd (download_day req_get stations self)).
Proof.
  intros Hmeta Hinv. unfold download_day.
  apply (for_each_preserves
           (fun s => station_meta s = station_meta self
                     /\ points_satisfy stored_point_ok s)); [|auto].
  intros id s _ [Es Hs]. split.
  - rewrite <- Es. apply dl_station_measurements_meta.
  - apply dl_station_measurements_ok; [|exact Hs].
    unfold metadata_without_location. rewrite Es. exact Hmeta.
Qed.

(** X11: in an object whose metadata has no location entry (as the metadata
    download leaves it), a day's download, returning or raising, keeps the
    metadata and stores only Points that have a field, whose mappings are
    dictionaries and whose tags hold no Latitude, Longitude or Altitude; so
    the CSV cell of such a Point under a location column is the field's
    value, unquoted, or empty. *)
Theorem location_keys_are_never_tags (req_get : string -> Response)
  (stations : list string) (self : AcoemRequest) :
  metadata_without_location self ->
  points_satisfy stored_point_ok self ->
  let self' := snd (download_day req_get stations self) in
  station_meta self' = station_meta self
  /\ points_satisfy stored_point_ok self'
  /\ (forall id dataset point key,
        In (id, dataset) (measurement_data self') ->
        In point dataset ->
        In key location_keys ->
        csv_cell point key
        = Ok (match dict_get (fields point) key with
              | Some f => float_str f
              | None => EmptyString
              end)).
Proof.
  intros Hmeta Hinv self'.
  destruct (download_day_ok req_get stations self Hmeta Hinv) as [Hm Hp].
  fold self' in Hm, Hp. split; [exact Hm|]. split; [exact Hp|].
  intros id dataset point key Hin Hpoint Hkey.
  destruct (Hp id dataset point Hin Hpoint) as (_ & [Hf Ht] & Hloc).
  rewrite csv_cell_ok by assumption. unfold cell_rule.
  assert (G : dict_get (tags point) key = None)
    by (apply dict_get_None; now apply Hloc).
  now rewrite G.
Qed.

End LocationProperties.

(** ** Properties of the day loop *)

Section DayLoopProperties.

Context {RT : PyRuntime}.

Variable sink : list Output -> Output -> result unit.

Variable json_dumps : dict JsonContainer -> string.

Lemma pfor_each_app {A : Type} (body : A -> Prog unit) (l1 l2 : list A)
  (w : World) :
  pfor_each (l1 ++ l2) body w
  = pbind (pfor_each l1 body) (fun _ => pfor_each l2 body) w.
Proof.
  revert w. induction l1 as [|x l1 IH]; intros w; [reflexivity|].
  cbn [pfor_each app]. unfold pbind in *.
  destruct (body x w) as [[u|e] w']; [apply IH | reflexivity].
Qed.

Lemma send_app (outs l1 l2 : list Output) :
  send sink outs (l1 ++ l2)
  = match send sink outs l1 with
    | (Ok _, outs1) => send sink outs1 l2
    | (Raise e, outs1) => (Raise e, outs1)
    end.
Proof.
  revert outs. induction l1 as [|o l1 IH]; intros outs; [reflexivity|].
  cbn [send app]. destruct (sink outs o); [apply IH | reflexivity].
Qed.

Lemma accepted_tail (outs l : list Output) (o : Output) :
  accepted sink outs (o :: l) -> accepted sink (outs ++ [o]) l.
Proof.
  intros H sent o' rest E. rewrite <- app_assoc.
  apply (H (o :: sent) o' rest). now rewrite E.
Qed.

Lemma send_accepted (outs l : list Output) :
  accepted sink outs l -> send sink outs l = (Ok tt, (outs ++ l)%list).
Proof.
  revert outs. induction l as [|o l IH]; intros outs H; cbn [send].
  - now rewrite app_nil_r.
  - pose proof (H [] o l eq_refl) as Ho. rewrite app_nil_r in Ho.
    rewrite Ho, IH by (now apply accepted_tail).
    now rewrite <- app_assoc.
Qed.

Lemma send_refused (outs sent rest : list Output) (o : Output) (e : exn) :
  accepted sink outs sent ->
  sink (outs ++ sent) o = Raise e ->
  send sink outs (sent ++ o :: rest) = (Raise e, (outs ++ sent)%list).
Proof.
  intros Hacc Hsink. rewrite send_app, send_accepted by exact Hacc.
  cbn [send]. now rewrite Hsink.
Qed.

(** What the sinks have taken is the beginning of what they were handed. *)
Lemma send_sent_until (outs l : list Output) :
  exists sent,
    snd (send sink outs l) = (outs ++ sent)%list
    /\ sent_until sink (fst (send sink outs l)) outs l sent.
Proof.
  revert outs. induction l as [|o l IH]; intros outs; cbn [send].
  - exists []. split; [now rewrite app_nil_r|]. exists []. now split.
  - destruct (sink outs o) as [[]|e] eqn:E.
    + destruct (IH (outs ++ [o])%list) as (sent & Hs & rest & Hl & Hr).
      exists (o :: sent). split; [rewrite Hs, <- app_assoc; reflexivity|].
      exists rest. split; [cbn [app]; now rewrite Hl|].
      destruct (fst (send sink (outs ++ [o]) l)) as [u|e]; [exact Hr|].
      destruct Hr as (o' & rest' & Hrest & Hsink).
      exists o', rest'. split; [exact Hrest|].
      rewrite <- app_assoc in Hsink. exact Hsink.
    + exists []. split; [now rewrite app_nil_r|]. exists (o :: l).
      split; [reflexivity|]. exists o, l. split; [reflexivity|].
      now rewrite app_nil_r.
Qed.

Lemma pfor_each_emit {A : Type} (body : A -> Prog unit)
  (file : AcoemRequest -> A -> Output) (l : list A) (self : AcoemRequest) :
  (forall x outs, In x l ->
     body x (mkWorld self outs) = emit sink (file self x) (mkWorld self outs)) ->
  forall outs,
    pfor_each l body (mkWorld self outs)
    = (fst (send sink outs (map (file self) l)),
       mkWorld self (snd (send sink outs (map (file self) l)))).
Proof.
  induction l as [|x l IH]; intros H outs; [reflexivity|].
  cbn [pfor_each map send]. unfold pbind.
  rewrite (H x outs (or_introl eq_refl)). unfold emit. cbn [outputs object].
  destruct (sink outs (file self x)) as [[]|e]; [|reflexivity].
  apply IH. intros y o Hy. apply H. now right.
Qed.

Lemma station_has_dataset (self : AcoemRequest) (station : string) :
  In station (stations_with_data self) ->
  exists dataset, dict_get (measurement_data self) station = Some dataset.
Proof.
  intros H. now apply dict_get_In_keys.
Qed.

(** The formatter returns for a station that has a dataset. *)
Lemma format_as_csv_total (self : AcoemRequest) (station : string)
  (dataset : list Point) :
  dict_get (measurement_data self) station = Some dataset ->
  exists csv,
    format_as_csv self station (key_classifications dataset) = Ok csv.
Proof.
  intros G. unfold format_as_csv, dict_item. rewrite G. cbn [rbind].
  rewrite csv_header_ok. cbn [rbind].
  apply fold_result_total. intros csv_raw point _. unfold csv_row.
  destruct (fold_result_total (csv_add_cell point)
              (flat_map (fun kv => variable_columns (fst kv) (snd kv))
                 (variables_measured (key_classifications dataset))
               ++ extra_tags (key_classifications dataset))%list)
    with (acc := csv_raw ++ strftime_csv (time point)) as [r ->].
  - intros acc key _. unfold csv_add_cell.
    destruct (csv_cell_total point key) as [cell ->]. cbn. eauto.
  - cbn. eauto.
Qed.

Lemma save_csv_emits (config : Config) (day_start : datetime)
  (self : AcoemRequest) (station : string) (outs : list Output) :
  In station (stations_with_data self) ->
  save_csv sink config day_start station (mkWorld self outs)
  = emit sink (csv_file config day_start self station) (mkWorld self outs).
Proof.
  intros H. destruct (station_has_dataset self station H) as [dataset G].
  unfold save_csv, csv_file, csv_text, pbind, query. cbn [object].
  unfold get_key_classifications at 1 2, dict_item. rewrite G. cbn [rbind].
  destruct (format_as_csv_total self station dataset G) as [csv ->].
  reflexivity.
Qed.

Lemma save_json_emits (config : Config) (day_start : datetime)
  (self : AcoemRequest) (station : string) (outs : list Output) :
  In station (stations_with_data self) ->
  save_json sink json_dumps config day_start station (mkWorld self outs)
  = emit sink (json_file json_dumps config day_start self station)
      (mkWorld self outs).
Proof.
  intros H. destruct (station_has_dataset self station H) as [dataset G].
  unfold save_json, json_file, json_text, pbind, query. cbn [object].
  unfold format_as_json, dict_item. now rewrite G.
Qed.

Lemma upload_emits (self : AcoemRequest) (station : string)
  (outs : list Output) :
  In station (stations_with_data self) ->
  upload sink station (mkWorld self outs)
  = emit sink (InfluxWrite (dataset_of self station)) (mkWorld self outs).
Proof.
  intros H. destruct (station_has_dataset self station H) as [dataset G].
  unfold upload, dataset_of, pbind, query, dict_item. cbn [object].
  now rewrite G.
Qed.

(** One day, from the object [self] and the outputs [outs]: the download,
    then the outputs of the day handed to the sinks until one of them
    raises, then the measurements cleared. *)
Lemma day_iteration_closed_form (config : Config) (stations : list string)
  (req_get : string -> Response) (day_start : datetime)
  (self : AcoemRequest) (outs : list Output) :
  day_iteration sink json_dumps config stations req_get day_start
    (mkWorld self outs)
  = let self' := snd (download_day req_get stations self) in
    match fst (download_day req_get stations self) with
    | Ok _ =>
        match send sink outs (day_outputs json_dumps config day_start self') with
        | (Ok _, outs') =>
            (Ok tt, mkWorld (mkAcoemRequest (station_meta self') []) outs')
        | (Raise e, outs') => (Raise e, mkWorld self' outs')
        end
    | Raise e => (Raise e, mkWorld self' outs)
    end.
Proof.
  unfold day_iteration. unfold pbind at 1. unfold call at 1. cbn [object outputs].
  destruct (download_day req_get stations self) as [[u|e] self'];
    cbn [fst snd]; [|reflexivity].
  unfold pbind at 1, query at 1. cbn [object].
  cbv zeta. unfold day_outputs.
  set (csv_files := if key_in (file_format config) ["csv"; "both"]
                    then map (csv_file config day_start self')
                           (stations_with_data self')
                    else []).
  set (json_files := if key_in (file_format config) ["json"; "both"]
                     then map (json_file json_dumps config day_start self')
                            (stations_with_data self')
                     else []).
  set (uploads := if write_to_influx config
                  then InfluxConnect
                       :: map (fun station =>
                                 InfluxWrite (dataset_of self' station))
                            (stations_with_data self')
                  else []).
  assert (Hcsv : forall o,
             (if key_in (file_format config) ["csv"; "both"]
              then pfor_each (stations_with_data self')
                     (save_csv sink config day_start)
              else pret tt) (mkWorld self' o)
             = (fst (send sink o csv_files),
                mkWorld self' (snd (send sink o csv_files)))).
  { intros o. unfold csv_files.
    destruct (key_in (file_format config) ["csv"; "both"]); [|reflexivity].
    apply (pfor_each_emit _ (csv_file config day_start)).
    intros x o' Hx. now apply save_csv_emits. }
  assert (Hjson : forall o,
             (if key_in (file_format config) ["json"; "both"]
              then pfor_each (stations_with_data self')
                     (save_json sink json_dumps config day_start)
              else pret tt) (mkWorld self' o)
             = (fst (send sink o json_files),
                mkWorld self' (snd (send sink o json_files)))).
  { intros o. unfold json_files.
    destruct (key_in (file_format config) ["json"; "both"]); [|reflexivity].
    apply (pfor_each_emit _ (json_file json_dumps config day_start)).
    intros x o' Hx. now apply save_json_emits. }
  assert (Hup : forall o,
             (if write_to_influx config
              then pbind (emit sink InfluxConnect)
                     (fun _ => pfor_each (stations_with_data self')
                                 (upload sink))
              else pret tt) (mkWorld self' o)
             = (fst (send sink o uploads),
                mkWorld self' (snd (send sink o uploads)))).
  { intros o. unfold uploads.
    destruct (write_to_influx config); [|reflexivity].
    unfold pbind, emit. cbn [send outputs object].
    destruct (sink o InfluxConnect) as [[]|e]; [|reflexivity].
    apply (pfor_each_emit _
             (fun s station => InfluxWrite (dataset_of s station))).
    intros x o' Hx. now apply upload_emits. }
  rewrite send_app. unfold pbind at 1. rewrite Hcsv.
  destruct (send sink outs csv_files) as [[[]|e1] outs1]; cbn [fst snd];
    [|reflexivity].
  rewrite send_app. unfold pbind at 1. rewrite Hjson.
  destruct (send sink outs1 json_files) as [[[]|e2] outs2]; cbn [fst snd];
    [|reflexivity].
  unfold pbind at 1. rewrite Hup.
  destruct (send sink outs2 uploads) as [[[]|e3] outs3]; cbn [fst snd];
    reflexivity.
Qed.

Lemma download_day_meta (req_get : string -> Response)
  (stations : list string) (self : AcoemRequest) :
  station_meta (snd (download_day req_get stations self)) = station_meta self.
Proof.
  unfold download_day.
  apply (for_each_preserves (fun s => station_meta s = station_meta self));
    [|reflexivity].
  intros id s _ Es. rewrite <- Es. apply dl_station_measurements_meta.
Qed.


(** X12: a day whose download returns hands to the sinks, in this order, one
    csv file per station with data (when the format is csv or both), one
    json file per station with data (when it is json or both), then the
    writer and one upload per station with data (when uploads are on), each
    file holding what the formatter returns for the station, in the
    directory of the station and under the name of the day.  What the sinks
    have taken when the day ends is the beginning of this list: all of it
    when the day returns, with the measurements then cleared and the
    metadata kept; up to the output whose sink raised when the day raises,
    with that error and the measurements left in the object.  When the sinks
    take every output, the day returns; when one of them raises, the day
    stops there and raises its error.  With another format, no file is
    handed over. *)
Theorem day_iteration_outputs (config : Config) (stations : list string)
  (req_get : string -> Response) (day_start : datetime)
  (self : AcoemRequest) (outs : list Output) :
  fst (download_day req_get stations self) = Ok tt ->
  let self' := snd (download_day req_get stations self) in
  let planned := day_outputs json_dumps config day_start self' in
  let run := day_iteration sink json_dumps config stations req_get day_start
               (mkWorld self outs) in
  (exists sent,
      outputs (snd run) = (outs ++ sent)%list
      /\ sent_until sink (fst run) outs planned sent
      /\ object (snd run)
         = match fst run with
           | Ok _ => mkAcoemRequest (station_meta self) []
           | Raise _ => self'
           end)
  /\ (accepted sink outs planned ->
      run = (Ok tt,
             mkWorld (mkAcoemRequest (station_meta self) [])
               (outs ++ planned)))
  /\ (forall sent o rest e,
        planned = (sent ++ o :: rest)%list ->
        accepted sink outs sent ->
        sink (outs ++ sent) o = Raise e ->
        run = (Raise e, mkWorld self' (outs ++ sent)))
  /\ (forall station, In station (stations_with_data self') ->
        exists dataset keys csv json_measurements,
          dict_get (measurement_data self') station = Some dataset
          /\ get_key_classifications self' station = Ok keys
          /\ format_as_csv self' station keys = Ok csv
          /\ format_as_json self' station = Ok json_measurements
          /\ csv_file config day_start self' station
             = SavedFile (file_path config ++ "/csv/" ++ station)
                 (strftime_date day_start ++ ".csv") csv
          /\ json_file json_dumps config day_start self' station
             = SavedFile (file_path config ++ "/json/" ++ station)
                 (strftime_date day_start ++ ".json")
                 (json_dumps json_measurements)
          /\ dataset_of self' station = dataset)
  /\ (key_in (file_format config) ["csv"; "json"; "both"] = false ->
      forall path name data,
        ~ In (SavedFile path name data) planned).
Proof.
  intros Hok self' planned run.
  assert (Hrun : run
                 = match send sink outs planned with
                   | (Ok _, outs') =>
                       (Ok tt, mkWorld (mkAcoemRequest (station_meta self) []) outs')
                   | (Raise e, outs') => (Raise e, mkWorld self' outs')
                   end).
  { unfold run. rewrite day_iteration_closed_form. rewrite Hok.
    cbv zeta. fold self'. fold planned. unfold self' at 1.
    now rewrite download_day_meta. }
  split; [|split; [|split; [|split]]].
  - destruct (send_sent_until outs planned) as (sent & Hs & Hu).
    exists sent. rewrite Hrun.
    destruct (send sink outs planned) as [[[]|e] outs']; cbn [fst snd] in *;
      cbn [outputs object]; auto.
  - intros Hacc. rewrite Hrun, send_accepted by exact Hacc. reflexivity.
  - intros sent o rest e Hplan Hacc Hsink.
    rewrite Hrun, Hplan, (send_refused outs sent rest o e Hacc Hsink).
    reflexivity.
  - intros station Hin.
    destruct (station_has_dataset self' station Hin) as [dataset G].
    destruct (format_as_csv_total self' station dataset G) as [csv F].
    unfold csv_file, csv_text, json_file, json_text, dataset_of.
    unfold get_key_classifications, format_as_json, dict_item.
    rewrite G. cbn [rbind returned]. rewrite F. cbn [returned].
    exists dataset, (key_classifications dataset), csv,
      (fold_left json_add (rev dataset) []).
    split; [reflexivity|]. split; [reflexivity|]. split; [exact F|].
    split; [reflexivity|]. split; [reflexivity|]. split; reflexivity.
  - intros Hfmt path name data. unfold planned, day_outputs.
    assert (C : key_in (file_format config) ["csv"; "both"] = false).
    { revert Hfmt. unfold key_in. cbn [existsb].
      destruct (String.eqb (file_format config) "csv");
        destruct (String.eqb (file_format config) "json");
        destruct (String.eqb (file_format config) "both"); auto. }
    assert (J : key_in (file_format config) ["json"; "both"] = false).
    { revert Hfmt. unfold key_in. cbn [existsb].
      destruct (String.eqb (file_format config) "csv");
        destruct (String.eqb (file_format config) "json");
        destruct (String.eqb (file_format config) "both"); auto. }
    rewrite C, J. cbn [app].
    destruct (write_to_influx config); [|auto].
    intros [E|H]; [discriminate E|].
    apply in_map_iff in H. destruct H as (st & E & _). discriminate E.
Qed.


(** The day loop from an object without measurements, while the downloads
    return: the outputs of the days are handed to the sinks until one of
    them raises. *)
Lemma day_loop_closed_form (config : Config) (stations : list string)
  (req_get : datetime -> string -> Response) (days : list datetime)
  (meta : dict (dict pyval)) (outs : list Output) :
  (forall day_start, In day_start days ->
     fst (download_day (req_get day_start) stations (mkAcoemRequest meta []))
     = Ok tt) ->
  let run := day_loop sink json_dumps config stations req_get days
               (mkWorld (mkAcoemRequest meta []) outs) in
  let planned := days_outputs json_dumps config stations req_get days meta in
  fst run = fst (send sink outs planned)
  /\ outputs (snd run) = snd (send sink outs planned)
  /\ (fst run = Ok tt -> object (snd run) = mkAcoemRequest meta []).
Proof.
  unfold day_loop, days_outputs. revert outs.
  induction days as [|d days IH]; intros outs Hok; cbv zeta.
  - cbn. auto.
  - cbn [pfor_each flat_map]. unfold pbind.
    rewrite day_iteration_closed_form.
    rewrite (Hok d (or_introl eq_refl)). cbv zeta.
    rewrite download_day_meta. cbn [station_meta].
    rewrite send_app.
    destruct (send sink outs
                (day_outputs json_dumps config d
                   (snd (download_day (req_get d) stations
                           (mkAcoemRequest meta [])))))
      as [[[]|e] outs1].
    + apply IH. intros d' Hd'. apply Hok. now right.
    + cbn [fst snd outputs object]. split; [reflexivity|].
      split; [reflexivity | discriminate].
Qed.

Lemma day_loop_returns (config : Config) (stations : list string)
  (req_get : datetime -> string -> Response) (days : list datetime)
  (meta : dict (dict pyval)) (outs : list Output) :
  (forall day_start, In day_start days ->
     fst (download_day (req_get day_start) stations (mkAcoemRequest meta []))
     = Ok tt) ->
  accepted sink outs (days_outputs json_dumps config stations req_get days meta) ->
  day_loop sink json_dumps config stations req_get days
    (mkWorld (mkAcoemRequest meta []) outs)
  = (Ok tt,
     mkWorld (mkAcoemRequest meta [])
       (outs ++ days_outputs json_dumps config stations req_get days meta)).
Proof.
  intros Hok Hacc.
  destruct (day_loop_closed_form config stations req_get days meta outs Hok)
    as (Hr & Ho & Hobj).
  rewrite send_accepted in Hr, Ho by exact Hacc. cbn [fst snd] in Hr, Ho.
  specialize (Hobj Hr).
  destruct (day_loop sink json_dumps config stations req_get days
              (mkWorld (mkAcoemRequest meta []) outs)) as [r [obj os]].
  cbn [fst snd outputs object] in *. now subst.
Qed.

(** X14: the days are independent.  While every download returns, the loop
    over the days hands to the sinks, day after day, what each day hands
    over from an object without measurements: no measurement of a day
    reaches the files or the uploads of another day.  What the sinks have
    taken when the loop ends is the beginning of this list: all of it when
    the loop returns, the object then being without measurements and with
    its metadata; up to the output whose sink raised when the loop raises,
    with that error.  When the sinks take every output, the loop returns;
    when one of them raises, the loop stops there and raises its error. *)
Theorem day_loop_outputs (config : Config) (stations : list string)
  (req_get : datetime -> string -> Response) (days : list datetime)
  (meta : dict (dict pyval)) (outs : list Output) :
  (forall day_start, In day_start days ->
     fst (download_day (req_get day_start) stations (mkAcoemRequest meta []))
     = Ok tt) ->
  let run := day_loop sink json_dumps config stations req_get days
               (mkWorld (mkAcoemRequest meta []) outs) in
  let planned :=
    flat_map
      (fun day_start =>
         day_outputs json_dumps config day_start
           (snd (download_day (req_get day_start) stations
                   (mkAcoemRequest meta []))))
      days in
  (exists sent,
      outputs (snd run) = (outs ++ sent)%list
      /\ sent_until sink (fst run) outs planned sent
      /\ (fst run = Ok tt -> object (snd run) = mkAcoemRequest meta []))
  /\ (accepted sink outs planned ->
      run = (Ok tt, mkWorld (mkAcoemRequest meta []) (outs ++ planned)))
  /\ (forall sent o rest e,
        planned = (sent ++ o :: rest)%list ->
        accepted sink outs sent ->
        sink (outs ++ sent) o = Raise e ->
        fst run = Raise e /\ outputs (snd run) = (outs ++ sent)%list).
Proof.
  intros Hok run planned.
  destruct (day_loop_closed_form config stations req_get days meta outs Hok)
    as (Hr & Ho & Hobj).
  unfold days_outputs in Hr, Ho. fold planned in Hr, Ho.
  fold run in Hr, Ho, Hobj. split; [|split].
  - destruct (send_sent_until outs planned) as (sent & Hs & Hu).
    exists sent. split; [now rewrite Ho|].
    split; [now rewrite Hr | exact Hobj].
  - intros Hacc. now apply day_loop_returns.
  - intros sent o rest e Hplan Hacc Hsink.
    rewrite Hr, Ho, Hplan, (send_refused outs sent rest o e Hacc Hsink).
    split; reflexivity.
Qed.

(** X15: when the download of a day raises, the program stops with that
    error: what the days before handed to the sinks (which took it) stays,
    the day itself and the days after it hand over nothing, and the
    measurements downloaded before the error are not cleared. *)
Theorem day_loop_failure (config : Config) (stations : list string)
  (req_get : datetime -> string -> Response)
  (before after : list datetime) (day_start : datetime)
  (meta : dict (dict pyval)) (outs : list Output) (e : exn) :
  (forall d, In d before ->
     fst (download_day (req_get d) stations (mkAcoemRequest meta []))
     = Ok tt) ->
  accepted sink outs
    (flat_map
       (fun d =>
          day_outputs json_dumps config d
            (snd (download_day (req_get d) stations
                    (mkAcoemRequest meta []))))
       before) ->
  fst (download_day (req_get day_start) stations (mkAcoemRequest meta []))
  = Raise e ->
  day_loop sink json_dumps config stations req_get
    (before ++ day_start :: after)%list
    (mkWorld (mkAcoemRequest meta []) outs)
  = (Raise e,
     mkWorld
       (snd (download_day (req_get day_start) stations
               (mkAcoemRequest meta [])))
       (outs
        ++ flat_map
             (fun d =>
                day_outputs json_dumps config d
                  (snd (download_day (req_get d) stations
                          (mkAcoemRequest meta []))))
             before)).
Proof.
  intros Hok Hacc Hfail.
  pose proof (day_loop_returns config stations req_get before meta outs Hok
                Hacc) as Hbefore.
  unfold day_loop, days_outputs in *. rewrite pfor_each_app. unfold pbind at 1.
  rewrite Hbefore. cbn [pfor_each]. unfold pbind.
  rewrite day_iteration_closed_form. now rewrite Hfail.
Qed.

Lemma day_outputs_ok (config : Config) (day_start : datetime)
  (self : AcoemRequest) :
  points_satisfy stored_point_ok self ->
  forall containers,
    In (InfluxWrite containers) (day_outputs json_dumps config day_start self) ->
    Forall stored_point_ok containers.
Proof.
  intros Hp containers Hin.
  unfold day_outputs in Hin. rewrite !in_app_iff in Hin.
  destruct Hin as [Hin|[Hin|Hin]].
  - destruct (key_in (file_format config) ["csv"; "both"]); [|contradiction].
    apply in_map_iff in Hin. destruct Hin as (st & E & _). discriminate E.
  - destruct (key_in (file_format config) ["json"; "both"]); [|contradiction].
    apply in_map_iff in Hin. destruct Hin as (st & E & _). discriminate E.
  - destruct (write_to_influx config); [|contradiction].
    destruct Hin as [E|Hin]; [discriminate E|].
    apply in_map_iff in Hin. destruct Hin as (st & E & Hst).
    injection E as <-. unfold dataset_of, dict_item.
    destruct (dict_get (measurement_data self) st) as [dataset|] eqn:G;
      cbn [returned]; [|constructor].
    apply Forall_forall. intros point Hpoint.
    apply (Hp st dataset point); [now apply dict_get_In | exact Hpoint].
Qed.

Lemma day_iteration_world_ok (config : Config) (stations : list string)
  (req_get : string -> Response) (day_start : datetime) (w : World) :
  world_ok w ->
  world_ok (snd (day_iteration sink json_dumps config stations req_get
                   day_start w)).
Proof.
  destruct w as [self outs]. intros (Hmeta & Hpoints & Houts).
  cbn [object outputs] in *.
  destruct (download_day_ok req_get stations self Hmeta Hpoints) as [Em Hp].
  rewrite day_iteration_closed_form. cbv zeta.
  destruct (fst (download_day req_get stations self)) as [u|e]; cbn [snd].
  - destruct (send_sent_until outs
                (day_outputs json_dumps config day_start
                   (snd (download_day req_get stations self))))
      as (sent & Hs & rest & Hplan & _).
    assert (Hsent : forall containers,
               In (InfluxWrite containers) (outs ++ sent) ->
               Forall stored_point_ok containers).
    { intros containers Hin. apply in_app_iff in Hin.
      destruct Hin as [Hin|Hin]; [now apply Houts|].
      apply (day_outputs_ok config day_start _ Hp). rewrite Hplan.
      apply in_app_iff. now left. }
    destruct (send sink outs _) as [[[]|e] outs']; cbn [fst snd] in *;
      subst outs'; (split; [|split]); cbn [object outputs].
    + unfold metadata_without_location. cbn [station_meta]. rewrite Em.
      exact Hmeta.
    + intros id dataset point [].
    + exact Hsent.
    + unfold metadata_without_location. rewrite Em. exact Hmeta.
    + exact Hp.
    + exact Hsent.
  - split; [|split]; cbn [object outputs].
    + unfold metadata_without_location. rewrite Em. exact Hmeta.
    + exact Hp.
    + exact Houts.
Qed.

Lemma day_loop_world_ok (config : Config) (stations : list string)
  (req_get : datetime -> string -> Response) (days : list datetime)
  (w : World) :
  world_ok w ->
  world_ok (snd (day_loop sink json_dumps config stations req_get days w)).
Proof.
  unfold day_loop. revert w.
  induction days as [|d days IH]; intros w Hw; [exact Hw|].
  cbn [pfor_each]. unfold pbind.
  pose proof (day_iteration_world_ok config stations (req_get d) d w Hw) as H.
  destruct (day_iteration sink json_dumps config stations (req_get d) d w)
    as [[u|e] w']; cbn [snd] in *; [now apply IH | exact H].
Qed.

(** X16: whatever the API answers, whatever the sinks answer and however the
    run ends, every container the program hands to the database writer has
    at least one field, has mappings without a repeated key, and has no
    Latitude, Longitude or Altitude among its tags. *)
Theorem uploaded_points_are_sound (config : Config)
  (meta_raw : result (list (dict pyval)))
  (req_get : datetime -> string -> Response) (days : list datetime) :
  (forall stations, meta_raw = Ok stations ->
     Forall (fun station => NoDup (dict_keys station)) stations) ->
  forall containers,
    In (InfluxWrite containers)
      (outputs
         (snd (main_program sink json_dumps config meta_raw req_get days
                 (mkWorld new_object [])))) ->
    Forall stored_point_ok containers.
Proof.
  intros Hwf.
  assert (H : world_ok
                (snd (main_program sink json_dumps config meta_raw req_get days
                        (mkWorld new_object [])))).
  { unfold main_program, pbind at 1, call at 1. cbn [object outputs].
    assert (H0 : metadata_without_location new_object)
      by (intros id meta []).
    destruct (dl_station_meta_invariants meta_raw new_object Hwf H0)
      as [Hmeta Hdata].
    destruct (dl_station_meta meta_raw new_object) as [[u|e] self];
      cbn [snd] in *.
    - unfold pbind, query. cbn [object].
      apply day_loop_world_ok. split; [exact Hmeta|]. split.
      + intros id dataset point Hin. cbn [object] in Hin.
        rewrite Hdata in Hin. contradiction.
      + intros containers [].
    - split; [exact Hmeta|]. split.
      + intros id dataset point Hin. cbn [object] in Hin.
        rewrite Hdata in Hin. contradiction.
      + intros containers []. }
  apply H.
Qed.

End DayLoopProperties.

(** ** The header of the CSV and the keys of the decoder *)
















Section HeaderProperties.

Context {RT : PyRuntime}.









End HeaderProperties.

(** ** The lines of the CSV *)

Lemma count_char_app (c : ascii) (a b : string) :
  count_char c (a ++ b) = count_char c a + count_char c b.
Proof.
  induction a as [|x a IH]; simpl; [reflexivity | rewrite IH; lia].
Qed.

Lemma list_sum_cons (x : nat) (l : list nat) :
  list_sum (x :: l) = x + list_sum l.
Proof.
  reflexivity.
Qed.

Lemma count_char_concat (c : ascii) (l : list string) :
  count_char c (String.concat EmptyString l)
  = list_sum (map (count_char c) l).
Proof.
  induction l as [|x l IH]; [reflexivity|].
  rewrite concat_empty_cons, count_char_app, IH. reflexivity.
Qed.

Lemma count_char_concat_sep (c : ascii) (sep : string) (l : list string) :
  count_char c sep = 0 ->
  (forall x, In x l -> count_char c x = 0) ->
  count_char c (String.concat sep l) = 0.
Proof.
  intros Hsep. induction l as [|x l IH]; intros H; [reflexivity|].
  cbn [String.concat]. destruct l as [|y l].
  - apply H. now left.
  - rewrite !count_char_app, Hsep, (H x (or_introl eq_refl)).
    rewrite IH by (intros z Hz; apply H; now right). reflexivity.
Qed.

Lemma line_count_digits (d : Decimal.uint) :
  line_count (NilEmpty.string_of_uint d) = 0.
Proof.
  induction d; simpl; auto.
Qed.

Lemma line_count_zero_pad (width n : nat) : line_count (zero_pad width n) = 0.
Proof.
  unfold zero_pad, line_count. rewrite count_char_app.
  assert (Z0 : forall k, count_char (ascii_of_nat 10) (zeros k) = 0)
    by (induction k; simpl; auto).
  rewrite Z0. unfold string_of_nat, NilZero.string_of_uint.
  destruct (Nat.to_uint n) eqn:E; try reflexivity;
    rewrite <- E; apply line_count_digits.
Qed.

Lemma line_count_strftime_csv (t : datetime) : line_count (strftime_csv t) = 0.
Proof.
  unfold strftime_csv, strftime_date, strftime_clock, line_count.
  change (string_of_nat (year t)) with (zero_pad 0 (year t)).
  rewrite !count_char_app.
  pose proof line_count_zero_pad as Z. unfold line_count in Z.
  rewrite !Z. reflexivity.
Qed.

Lemma count_char_substring_zero (c : ascii) (s : string) (n m : nat) :
  count_char c s = 0 -> count_char c (substring n m s) = 0.
Proof.
  revert n m. induction s as [|x s IH]; intros n m H.
  - destruct n, m; reflexivity.
  - simpl in H. destruct n as [|n], m as [|m]; simpl; try reflexivity.
    + rewrite (IH 0 m) by lia. lia.
    + apply IH. lia.
    + apply IH. lia.
Qed.

Section LineProperties.

Context {RT : PyRuntime}.

Lemma line_count_row (columns : list string) (point : Point) :
  (forall key, line_count (cell_rule point key) = 0) ->
  line_count (row_rule columns point) = 1.
Proof.
  intros Hcells. unfold row_rule, line_count. rewrite !count_char_app.
  pose proof (line_count_strftime_csv (time point)) as T.
  unfold line_count in T. rewrite T, count_char_concat.
  assert (C : list_sum (map (count_char (ascii_of_nat 10))
                          (map (fun key => ", " ++ cell_rule point key)
                             columns)) = 0).
  { induction columns as [|k ks IH]; [reflexivity|].
    cbn [map]. rewrite list_sum_cons, IH, count_char_app.
    pose proof (Hcells k) as Hk. unfold line_count in Hk. rewrite Hk.
    reflexivity. }
  rewrite C. reflexivity.
Qed.

Lemma line_count_rows (columns : list string)
  (measurements points : list Point) :
  (forall point key, In point measurements ->
     line_count (cell_rule point key) = 0) ->
  (forall p, In p points -> In p measurements) ->
  list_sum (map (count_char (ascii_of_nat 10)) (map (row_rule columns) points))
  = List.length points.
Proof.
  intros Hcells. induction points as [|p ps IH]; intros Hin; [reflexivity|].
  cbn [map List.length]. rewrite list_sum_cons.
  rewrite IH by (intros q Hq; apply Hin; now right).
  change (S (List.length ps)) with (1 + List.length ps).
  f_equal. apply line_count_row. intros key.
  apply Hcells. apply Hin. now left.
Qed.

(** X19: one line per Point.  When no column name and no cell holds a line
    end, the CSV of a station has exactly one line end per Point, plus the
    one of the header: a dataset of N Points gives N + 1 lines. *)
Theorem csv_line_count (self : AcoemRequest) (id : string) (keys : Keys)
  (measurements : list Point) (csv : string) :
  dict_get (measurement_data self) id = Some measurements ->
  (forall point, In point measurements -> point_wf point) ->
  format_as_csv self id keys = Ok csv ->
  (forall key, In key (keys_fields keys ++ keys_tags keys)%list ->
     line_count key = 0) ->
  (forall point key, In point measurements ->
     line_count (cell_rule point key) = 0) ->
  line_count csv = S (List.length measurements).
Proof.
  intros G Hwf Hcsv Hkeys Hcells.
  unfold format_as_csv, dict_item in Hcsv. rewrite G in Hcsv.
  cbn [rbind] in Hcsv. rewrite csv_header_ok in Hcsv. cbn [rbind] in Hcsv.
  rewrite csv_rows_ok in Hcsv
    by (intros point Hin; apply Hwf; now apply in_rev).
  injection Hcsv as <-.
  set (columns := (flat_map _ _ ++ extra_tags keys)%list).
  unfold line_count in *. rewrite !count_char_app, count_char_concat.
  rewrite join_comma_space_concat.
  assert (Hheader : count_char (ascii_of_nat 10)
                      (String.concat ", " ("Timestamp" :: columns)) = 0).
  { apply count_char_concat_sep; [reflexivity|].
    intros x [<-|Hx]; [reflexivity|].
    unfold columns in Hx. apply in_app_iff in Hx. destruct Hx as [Hx|Hx].
    - apply in_flat_map in Hx. destruct Hx as ([variable unit] & Hv & Hx).
      cbn [fst snd] in Hx.
      assert (Hvar : count_char (ascii_of_nat 10) variable = 0
                     /\ count_char (ascii_of_nat 10) unit = 0).
      { unfold variables_measured in Hv.
        assert (Hall : forall l (d : dict string),
                   (forall f, In f l -> count_char (ascii_of_nat 10) f = 0) ->
                   (forall k u, In (k, u) d ->
                      count_char (ascii_of_nat 10) k = 0
                      /\ count_char (ascii_of_nat 10) u = 0) ->
                   forall k u, In (k, u) (fold_left register_variable l d) ->
                     count_char (ascii_of_nat 10) k = 0
                     /\ count_char (ascii_of_nat 10) u = 0).
        { clear. induction l as [|f l IH]; intros d Hl Hd k u; simpl;
            [apply Hd|].
          apply IH; [intros g Hg; apply Hl; now right|].
          intros k' u'. unfold register_variable.
          destruct (negb _); [|apply Hd].
          intros Hin. apply In_dict_set in Hin.
          destruct Hin as [Hin|[-> ->]]; [now apply Hd|].
          pose proof (Hl f (or_introl eq_refl)) as Hf.
          split; [apply (count_char_substring_zero _ _ _ _ Hf)
                 | apply (count_char_substring_zero _ _ _ _ Hf)]. }
        apply (Hall (keys_fields keys) []); [| intros ? ? [] | exact Hv].
        intros f Hf. apply Hkeys. apply in_app_iff. now left. }
      destruct Hvar as [Hvar Hunit].
      unfold variable_columns in Hx. cbn [In] in Hx.
      destruct Hx as [<-|[<-|[<-|[<-|[<-|[]]]]]];
        rewrite !count_char_app, ?Hvar, ?Hunit; reflexivity.
    - unfold extra_tags in Hx. apply filter_In in Hx. now apply Hkeys. }
  rewrite Hheader. cbn [count_char Ascii.eqb Bool.eqb ascii_of_nat].
  rewrite (line_count_rows columns measurements (rev measurements) Hcells)
    by (intros p Hp; now apply in_rev).
  rewrite length_rev. simpl. lia.
Qed.

End LineProperties.

(** ** The properties above on the example data *)

(** The download of station 1 gives the scenario's object. *)
Lemma dl_station_measurements_closed_form_witness :
  data_req_success (Examples.req_get "station-1") = true
  /\ dl_station_measurements Examples.req_get "station-1"
       Examples.fresh_object
     = (Ok tt, Examples.scenario_object).
Proof.
  split; [reflexivity|].
  rewrite (dl_station_measurements_closed_form Examples.req_get "station-1"
             Examples.fresh_object eq_refl).
  reflexivity.
Defined.

Lemma dl_station_measurements_dataset_witness :
  dict_get
    (measurement_data
       (snd (dl_station_measurements Examples.req_get "station-1"
               Examples.fresh_object))) "station-1"
  = Some [Examples.point].
Proof.
  apply (dl_station_measurements_dataset Examples.req_get "station-1"
           Examples.fresh_object [Examples.record] [Examples.point]
           eq_refl eq_refl eq_refl).
Defined.

(** Station 6: the second record has a channel without flag. *)
Lemma dl_station_measurements_failure_witness :
  dl_station_measurements RunExamples.req_get "station-6"
    RunExamples.object_of_three
  = (Raise IndexError,
     mkAcoemRequest (station_meta RunExamples.object_of_three)
       [("station-6", [Examples.point])]).
Proof.
  apply (dl_station_measurements_failure RunExamples.req_get "station-6"
           RunExamples.object_of_three [Examples.record] [Examples.record]
           Examples.record_no_flags [Examples.point] IndexError
           eq_refl eq_refl eq_refl eq_refl).
Defined.

Lemma dl_station_measurements_frame_witness :
  dict_get
    (measurement_data
       (snd (dl_station_measurements Examples.req_get "station-1"
               Examples.scenario_object))) "station-2"
  = dict_get (measurement_data Examples.scenario_object) "station-2"
  /\ dl_station_measurements Examples.req_get "station-1"
       (snd (dl_station_measurements Examples.req_get "station-1"
               Examples.fresh_object))
     = dl_station_measurements Examples.req_get "station-1"
         Examples.fresh_object.
Proof.
  split.
  - apply (dl_station_measurements_frame Examples.req_get "station-1"
             Examples.scenario_object). discriminate.
  - apply (dl_station_measurements_frame Examples.req_get "station-1"
             Examples.fresh_object).
Defined.

Lemma dl_station_meta_closed_form_witness :
  dl_station_meta (Ok [RunExamples.station_record]) new_object
  = (Ok tt,
     mkAcoemRequest
       [("station-1",
         [("UniqueId", PStr "station-1"); ("SerialNumber", PStr "ABC123")])]
       []).
Proof.
  apply (dl_station_meta_closed_form [RunExamples.station_record]
           ["station-1"] new_object).
  repeat constructor; cbn; intuition discriminate.
Defined.

Lemma dl_station_meta_missing_id_witness :
  dl_station_meta
    (Ok [RunExamples.station_record; RunExamples.station_without_id;
         RunExamples.station_record]) new_object
  = (Raise KeyError,
     mkAcoemRequest
       [("station-1",
         [("UniqueId", PStr "station-1"); ("SerialNumber", PStr "ABC123")])]
       []).
Proof.
  apply (dl_station_meta_missing_id [RunExamples.station_record]
           [RunExamples.station_record] ["station-1"]
           RunExamples.station_without_id new_object).
  - repeat constructor; cbn; intuition discriminate.
  - cbn. intuition discriminate.
Defined.

Lemma dl_station_meta_without_location_witness :
  metadata_without_location
    (snd (dl_station_meta
            (Ok [RunExamples.station_record; RunExamples.station_without_id])
            new_object)).
Proof.
  apply (dl_station_meta_without_location
           (Ok [RunExamples.station_record; RunExamples.station_without_id])
           new_object).
  - intros stations E. injection E as <-.
    repeat constructor; cbn; intuition discriminate.
  - intros id meta [].
Defined.

Lemma formatters_raise_only_without_entry_witness :
  format_as_json Examples.scenario_object "station-2" = Raise KeyError
  /\ exists csv,
       format_as_csv Examples.scenario_object Examples.station
         (mkKeys ["no such key"] []) = Ok csv.
Proof.
  split.
  - apply (formatters_raise_only_without_entry Examples.scenario_object
             "station-2"). reflexivity.
  - apply (proj2 (formatters_raise_only_without_entry
                    Examples.scenario_object Examples.station)
             [Examples.point] eq_refl).
Defined.

(** Station 7: a record with no location and no available channel. *)
Lemma station_without_fields_outputs_witness :
  In "station-7"
    (stations_with_data
       (snd (dl_station_measurements RunExamples.req_get "station-7"
               RunExamples.object_of_three)))
  /\ format_as_csv
       (snd (dl_station_measurements RunExamples.req_get "station-7"
               RunExamples.object_of_three)) "station-7" (mkKeys [] [])
     = Ok ("Timestamp" ++ newline).
Proof.
  destruct (station_without_fields_outputs RunExamples.req_get "station-7"
              RunExamples.object_of_three [Examples.record_unavailable]
              [add_metadata
                 (mkPoint (mkDatetime 2021 6 1 0 30 0 0) "ACOEM UK Systems"
                    [] []) Examples.metadata]
              eq_refl eq_refl eq_refl)
    as (Hin & _ & _ & Hcsv & _).
  - intros point [<-|[]]. reflexivity.
  - split; [exact Hin | exact Hcsv].
Defined.

Lemma stations_with_data_after_download_witness :
  stations_with_data
    (snd (download_day RunExamples.req_get
            ["station-1"; "station-2"; "station-7"; "station-1"]
            RunExamples.object_of_three))
  = ["station-1"; "station-7"].
Proof.
  apply (stations_with_data_after_download RunExamples.req_get
           ["station-1"; "station-2"; "station-7"; "station-1"]
           RunExamples.object_of_three eq_refl).
  reflexivity.
Defined.

Lemma location_keys_are_never_tags_witness :
  points_satisfy stored_point_ok
    (snd (download_day RunExamples.req_get ["station-1"; "station-6"]
            RunExamples.object_of_three)).
Proof.
  apply (location_keys_are_never_tags RunExamples.req_get
           ["station-1"; "station-6"] RunExamples.object_of_three).
  - intros id meta Hin key Hkey.
    cbn in Hin, Hkey. cbn. intuition (subst; try discriminate);
      match goal with
      | H : (_, _) = (_, _) |- _ => injection H as <- <-
      end; cbn in *; intuition discriminate.
  - intros id dataset point [].
Defined.

(** The first day, three stations asked: one file of each kind, the writer
    and one upload for station 1, nothing for stations 2 and 3.  With a disk
    that is full once the csv file is written, the day raises when it saves
    the json file: the csv file stays, nothing is uploaded and the
    measurements are not cleared. *)
Lemma day_iteration_outputs_witness :
  day_iteration RunExamples.sink RunExamples.json_dumps RunExamples.config
    ["station-1"; "station-2"; "station-3"] Examples.req_get
    RunExamples.first_day (mkWorld Examples.fresh_object [])
  = (Ok tt,
     mkWorld Examples.fresh_object
       [SavedFile "out/csv/station-1" "2021-06-01.csv"
          (scenario_header ++ newline ++ scenario_row ++ newline);
        SavedFile "out/json/station-1" "2021-06-01.json" "1 entries";
        InfluxConnect;
        InfluxWrite [Examples.point]])
  /\ exists sent,
       day_iteration RunExamples.disk_full RunExamples.json_dumps
         RunExamples.config ["station-1"; "station-2"; "station-3"]
         Examples.req_get RunExamples.first_day
         (mkWorld Examples.fresh_object [])
       = (Raise (OtherError "OSError"),
          mkWorld Examples.scenario_object sent)
       /\ sent = [SavedFile "out/csv/station-1" "2021-06-01.csv"
                    (scenario_header ++ newline ++ scenario_row ++ newline)].
Proof.
  split.
  - destruct (day_iteration_outputs RunExamples.sink RunExamples.json_dumps
                RunExamples.config ["station-1"; "station-2"; "station-3"]
                Examples.req_get RunExamples.first_day Examples.fresh_object
                [] eq_refl)
      as (_ & E & _).
    etransitivity; [apply E; intros sent o rest _; reflexivity | reflexivity].
  - destruct (day_iteration_outputs RunExamples.disk_full
                RunExamples.json_dumps RunExamples.config
                ["station-1"; "station-2"; "station-3"] Examples.req_get
                RunExamples.first_day Examples.fresh_object [] eq_refl)
      as (_ & _ & Hrefused & _).
    eexists. split; [|reflexivity].
    apply (Hrefused
             [SavedFile "out/csv/station-1" "2021-06-01.csv"
                (scenario_header ++ newline ++ scenario_row ++ newline)]
             (SavedFile "out/json/station-1" "2021-06-01.json" "1 entries")
             [InfluxConnect; InfluxWrite [Examples.point]]
             (OtherError "OSError")).
    + reflexivity.
    + intros [|x sent] o rest E.
      * injection E as <- _. reflexivity.
      * destruct sent; discriminate E.
    + reflexivity.
Defined.


(** Two days with the same answers: the same files under two names. *)
Lemma day_loop_outputs_witness :
  day_loop RunExamples.sink RunExamples.json_dumps RunExamples.config
    ["station-1"] (fun _ => Examples.req_get)
    [RunExamples.first_day; RunExamples.second_day]
    (mkWorld Examples.fresh_object [])
  = (Ok tt,
     mkWorld Examples.fresh_object
       [SavedFile "out/csv/station-1" "2021-06-01.csv"
          (scenario_header ++ newline ++ scenario_row ++ newline);
        SavedFile "out/json/station-1" "2021-06-01.json" "1 entries";
        InfluxConnect;
        InfluxWrite [Examples.point];
        SavedFile "out/csv/station-1" "2021-06-02.csv"
          (scenario_header ++ newline ++ scenario_row ++ newline);
        SavedFile "out/json/station-1" "2021-06-02.json" "1 entries";
        InfluxConnect;
        InfluxWrite [Examples.point]]).
Proof.
  destruct (day_loop_outputs RunExamples.sink RunExamples.json_dumps
              RunExamples.config ["station-1"] (fun _ => Examples.req_get)
              [RunExamples.first_day; RunExamples.second_day]
              [(Examples.station, Examples.metadata)] [])
    as (_ & E & _).
  - intros d _. reflexivity.
  - etransitivity; [apply E; intros sent o rest _; reflexivity | reflexivity].
Defined.

(** The second day fails on its second record: the files of the first day
    stay, and the Point of the first record is left in the object. *)
Lemma day_loop_failure_witness :
  day_loop RunExamples.sink RunExamples.json_dumps RunExamples.config
    ["station-1"] RunExamples.req_by_day
    [RunExamples.first_day; RunExamples.second_day; RunExamples.first_day]
    (mkWorld Examples.fresh_object [])
  = (Raise IndexError,
     mkWorld Examples.scenario_object
       [SavedFile "out/csv/station-1" "2021-06-01.csv"
          (scenario_header ++ newline ++ scenario_row ++ newline);
        SavedFile "out/json/station-1" "2021-06-01.json" "1 entries";
        InfluxConnect;
        InfluxWrite [Examples.point]]).
Proof.
  etransitivity.
  - apply (day_loop_failure RunExamples.sink RunExamples.json_dumps
             RunExamples.config ["station-1"] RunExamples.req_by_day
             [RunExamples.first_day] [RunExamples.first_day]
             RunExamples.second_day
             [(Examples.station, Examples.metadata)] [] IndexError).
    + intros d [<-|[]]. reflexivity.
    + intros sent o rest _. reflexivity.
    + reflexivity.
  - reflexivity.
Defined.

(** The first day of a run of two days uploads the scenario's Point. *)
Lemma uploaded_points_are_sound_witness :
  Forall stored_point_ok [RunExamples.uploaded_point].
Proof.
  apply (uploaded_points_are_sound RunExamples.sink RunExamples.json_dumps
           RunExamples.config (Ok [RunExamples.station_record])
           RunExamples.req_by_day
           [RunExamples.first_day; RunExamples.second_day]).
  - intros stations E. injection E as <-.
    repeat constructor; cbn; intuition discriminate.
  - assert (E : outputs
                  (snd (main_program RunExamples.sink RunExamples.json_dumps
                          RunExamples.config
                          (Ok [RunExamples.station_record])
                          RunExamples.req_by_day
                          [RunExamples.first_day; RunExamples.second_day]
                          (mkWorld new_object [])))
                = [SavedFile "out/csv/station-1" "2021-06-01.csv"
                     (csv_text
                        (mkAcoemRequest []
                           [("station-1", [RunExamples.uploaded_point])])
                        "station-1");
                   SavedFile "out/json/station-1" "2021-06-01.json"
                     "1 entries";
                   InfluxConnect;
                   InfluxWrite [RunExamples.uploaded_point]])
      by reflexivity.
    rewrite E. right. right. right. left. reflexivity.
Defined.


Lemma csv_line_count_witness :
  line_count (scenario_header ++ newline ++ scenario_row ++ newline) = 2.
Proof.
  apply (csv_line_count Examples.scenario_object Examples.station
           (key_classifications [Examples.point]) [Examples.point]).
  - reflexivity.
  - intros point [<-|[]].
    split; cbn; repeat constructor; cbn; intuition discriminate.
  - vm_compute. reflexivity.
  - intros key Hin. cbn in Hin.
    repeat (destruct Hin as [<-|Hin]; [reflexivity|]). contradiction.
  - intros point key [<-|[]]. unfold cell_rule.
    destruct (dict_get (fields Examples.point) key) as [f|] eqn:F;
      destruct (dict_get (tags Examples.point) key) as [v|] eqn:T;
      try reflexivity.
    + cbn in T.
      repeat match type of T with
             | (if ?b then _ else _) = _ => destruct b
             end; try discriminate; injection T as <-; reflexivity.
    + cbn in F.
      repeat match type of F with
             | (if ?b then _ else _) = _ => destruct b
             end; try discriminate; injection F as <-; reflexivity.
    + cbn in T.
      repeat match type of T with
             | (if ?b then _ else _) = _ => destruct b
             end; try discriminate; injection T as <-; reflexivity.
Defined.
